(** * Proteus: the validation-and-pipeline core, embedded and verified

    The development follows the layout of the repository:

    - [Text]        the [str] methods the code calls ([strip], [lower],
                    [isalnum], ...), on Stdlib strings;
    - [Py]          dynamic values, exceptions, and the state-and-exception
                    monad in which the stateful code is written;
    - [Models]      [core/models.py]: the [PayloadTemplate] record, [_validate],
                    [clone_with_updates], the history mutators;
    - [Encoder]     [transforms/encoder.py];
    - [Obfuscator]  [transforms/obfuscator.py];
    - [Registry]    [core/registry.py];
    - [Xss], [Sqli], [CmdInjection], [Shipped]
                    the three generators under [modules/] and the registry
                    their decorators fill;
    - [AtomicWrite], [JsonExporter], [TxtExporter]
                    the two files under [exporters/];
    - [Pipeline]    [core/pipeline.py];
    - [Cli]         the two helpers of [cli.py] that check arguments;
    - [Sample]      concrete inputs; [Spec] the predicates the properties
                    are stated with.

    Definitions come first.  The properties follow, each module of facts
    next to the numbered property it serves: C1 to C10 first, then the
    further properties of the code, X1 onwards.

    Python lists are objects on a heap and records hold their addresses, so
    that two records can share a list.  Calls that may raise return a
    [result]; code that reads or changes the heap or the file system runs
    in the monad [M].  Random identifiers, the clock, [json.dumps],
    [Path] and the success or failure of each system call of an atomic
    write come from an environment [Env], and every property is proved for
    all environments. *)

From Stdlib Require Import String Ascii List ZArith NArith Lia Bool DecimalString Sorted.
From stdpp Require Import gmap strings list.

Set Warnings "-register-all".
Open Scope string_scope.

(* ===================================================================== *)
(** ** Text: Python [str] on Stdlib strings *)
(* ===================================================================== *)

(** A Python [str] is modelled by a Stdlib [string]; the character of code
    [n] stands for the code point U+00[n], so the text covered is the
    Latin-1 range.  The character classes below are those of Python's
    Unicode database restricted to that range. *)

Module Text.

Definition ord (c : ascii) : N := N_of_ascii c.
Definition chr (n : N) : ascii := ascii_of_N n.

Definition between (lo hi n : N) : bool := ((lo <=? n) && (n <=? hi))%N.

(** [str.isspace] on one character: TAB..CR, FS..US, SPACE, NEL, NBSP. *)
Definition isspace (c : ascii) : bool :=
  let n := ord c in
  between 9 13 n || between 28 32 n || (n =? 133)%N || (n =? 160)%N.

(** [str.isalnum] on one character (alphabetic, decimal, digit or numeric). *)
Definition isalnum (c : ascii) : bool :=
  let n := ord c in
  between 48 57 n || between 65 90 n || between 97 122 n
  || (n =? 170)%N || between 178 179 n || (n =? 181)%N
  || between 185 186 n || between 188 190 n
  || between 192 214 n || between 216 246 n || between 248 255 n.

(** [str.lower] on one character. *)
Definition lower_char (c : ascii) : ascii :=
  let n := ord c in
  if between 65 90 n || between 192 214 n || between 216 222 n
  then chr (n + 32) else c.

Fixpoint lower (s : string) : string :=
  match s with
  | EmptyString => EmptyString
  | String c r => String (lower_char c) (lower r)
  end.

Fixpoint lstrip (s : string) : string :=
  match s with
  | EmptyString => EmptyString
  | String c r => if isspace c then lstrip r else s
  end.

Fixpoint rstrip (s : string) : string :=
  match s with
  | EmptyString => EmptyString
  | String c r =>
      match rstrip r with
      | EmptyString => if isspace c then EmptyString else String c EmptyString
      | r' => String c r'
      end
  end.

(** [s.strip()] *)
Definition strip (s : string) : string := rstrip (lstrip s).

(** [not s.strip()], i.e. [s.strip() == ""] *)
Definition blank (s : string) : bool :=
  match strip s with EmptyString => true | _ => false end.

(** [s.replace(old, new)] for a one-character [old]. *)
Fixpoint replace_char (old : ascii) (new : string) (s : string) : string :=
  match s with
  | EmptyString => EmptyString
  | String c r =>
      (if Ascii.eqb c old then new else String c EmptyString) ++ replace_char old new r
  end.

(** [sep.join(parts)] *)
Fixpoint join (sep : string) (parts : list string) : string :=
  match parts with
  | [] => ""
  | [p] => p
  | p :: ps => p ++ sep ++ join sep ps
  end.

(** [str(n)] for a non-negative integer. *)
Definition str_nat (n : nat) : string := NilEmpty.string_of_uint (Nat.to_uint n).

(** [repr] of a list of plain identifiers, as the f-strings print
    [sorted(...)] of module and selector names: ['a', 'b']. *)
Definition repr_names (l : list string) : string :=
  "[" ++ join ", " (map (fun s => "'" ++ s ++ "'") l) ++ "]".

(** [x in S] for a set of strings. *)
Definition mem (x : string) (S : list string) : bool :=
  existsb (String.eqb x) S.

(** Insertion of a key into a list sorted by code points: [sorted(...)]. *)
Fixpoint insert_sorted (x : string) (l : list string) : list string :=
  match l with
  | [] => [x]
  | y :: r => if String.leb x y then x :: l else y :: insert_sorted x r
  end.

Definition sorted (l : list string) : list string :=
  fold_right insert_sorted [] l.

(** [s.startswith(p)] *)
Fixpoint prefix_of (p s : string) : bool :=
  match p, s with
  | EmptyString, _ => true
  | String a p', String b s' => Ascii.eqb a b && prefix_of p' s'
  | String _ _, EmptyString => false
  end.

(** The last character of a text, [s[-1]]. *)
Fixpoint last_char (s : string) : option ascii :=
  match s with
  | EmptyString => None
  | String c r => match last_char r with None => Some c | x => x end
  end.

End Text.

(* ===================================================================== *)
(** ** Py: dynamic values, exceptions, state *)
(* ===================================================================== *)

Module Py.

(** Heap addresses of list objects.  Python lists are mutable and shared by
    reference, so a field holding a list holds its address. *)
Definition loc := nat.

(** The run-time values that may sit in a field the code inspects
    dynamically ([isinstance], [is True], truthiness). *)
Inductive value :=
  | VNone
  | VBool (b : bool)
  | VInt (z : Z)
  | VStr (s : string)
  | VRef (l : loc).   (* a list object *)

#[export] Instance value_eq_dec : EqDecision value.
Proof. solve_decision. Defined.

(** [type(v)] as [f"{type(v)}"] prints it. *)
Definition type_repr (v : value) : string :=
  match v with
  | VNone => "<class 'NoneType'>"
  | VBool _ => "<class 'bool'>"
  | VInt _ => "<class 'int'>"
  | VStr _ => "<class 'str'>"
  | VRef _ => "<class 'list'>"
  end.

Definition type_name (v : value) : string :=
  match v with
  | VNone => "NoneType"
  | VBool _ => "bool"
  | VInt _ => "int"
  | VStr _ => "str"
  | VRef _ => "list"
  end.

(** [isinstance(v, str)] *)
Definition is_str (v : value) : bool :=
  match v with VStr _ => true | _ => false end.

(** [v is True] *)
Definition is_True (v : value) : bool :=
  match v with VBool true => true | _ => false end.

(** Truthiness of an [Optional[str]]: [None] and [""] are falsy. *)
Definition truthy (o : option string) : bool :=
  match o with
  | None => false
  | Some EmptyString => false
  | Some _ => true
  end.

(** [o is not None] *)
Definition is_Some_bool {A} (o : option A) : bool :=
  match o with Some _ => true | None => false end.

(** [o or ""] *)
Definition or_empty (o : option string) : string :=
  match o with Some s => s | None => "" end.

(** Exception classes of the repository, and the built-in ones its code
    can meet.  All derive from [Exception]. *)
Inductive exn_class :=
  | PayloadValidationError
  | RegistryError
  | EncodingError
  | ObfuscationError
  | JSONExportError
  | TXTExportError
  | PipelineError
  | ValueError
  | AttributeError
  | TypeError
  | OSError.

#[export] Instance exn_class_eq_dec : EqDecision exn_class.
Proof. solve_decision. Defined.

(** An exception instance: its class, [str(e)], and [e.__cause__] when it
    was raised by [raise ... from cause]. *)
Inductive exn :=
  | Exc (cls : exn_class) (msg : string)
  | ExcFrom (cls : exn_class) (msg : string) (cause : exn).

Definition exn_cls (e : exn) : exn_class :=
  match e with Exc c _ | ExcFrom c _ _ => c end.
Definition str_exn (e : exn) : string :=
  match e with Exc _ m | ExcFrom _ m _ => m end.
Definition exn_cause (e : exn) : option exn :=
  match e with Exc _ _ => None | ExcFrom _ _ c => Some c end.

(** Outcome of a call: a returned value or a raised exception. *)
Inductive result (A : Type) :=
  | Ok (a : A)
  | Raise (e : exn).
Arguments Ok {A} a.
Arguments Raise {A} e.

(** [r] is a raised exception of class [c]. *)
Definition raises {A} (r : result A) (c : exn_class) : Prop :=
  exists e, r = Raise e /\ exn_cls e = c.

Definition rbind {A B} (r : result A) (k : A -> result B) : result B :=
  match r with Ok a => k a | Raise e => Raise e end.

(** The file system as the exporters see it: files by (directory, name),
    and the set of directories that exist. *)
Definition path := (string * string)%type.

(** The mutable world the code runs in. *)
Record state := State {
  heap  : gmap loc (list value);      (* list objects *)
  files : gmap path string;           (* file contents *)
  dirs  : gset string;                (* existing directories *)
  draws : nat;                        (* uuid4()/now() calls made so far *)
}.

(** Stateful, possibly raising computations.  A raised exception keeps the
    state reached so far: Python undoes nothing. *)
Definition M (A : Type) : Type := state -> result A * state.

Definition ret {A} (a : A) : M A := fun s => (Ok a, s).
Definition raise {A} (e : exn) : M A := fun s => (Raise e, s).
Definition bind {A B} (m : M A) (k : A -> M B) : M B :=
  fun s => match m s with
           | (Ok a, s') => k a s'
           | (Raise e, s') => (Raise e, s')
           end.
Definition lift {A} (r : result A) : M A := fun s => (r, s).

(** [try: m  except Exception as e: h e] *)
Definition try_except {A} (m : M A) (h : exn -> M A) : M A :=
  fun s => match m s with
           | (Ok a, s') => (Ok a, s')
           | (Raise e, s') => h e s'
           end.

Definition get : M state := fun s => (Ok s, s).

(** [if c: raise e] *)
Definition rraise_if (c : bool) (e : exn) : result unit :=
  if c then Raise e else Ok tt.

(** Reading a list object.  Every address denotes a list; one that was
    never written reads as the empty list. *)
Definition deref (h : gmap loc (list value)) (l : loc) : list value :=
  default [] (h !! l).

(** Truthiness of a dynamic value. *)
Definition value_truthy (h : gmap loc (list value)) (v : value) : bool :=
  match v with
  | VNone => false
  | VBool b => b
  | VInt z => negb (z =? 0)%Z
  | VStr s => negb (String.eqb s "")
  | VRef l => match deref h l with [] => false | _ => true end
  end.

(** [l.append(v)] *)
Definition append (l : loc) (v : value) : M unit :=
  fun s => (Ok tt,
            State (<[l := (deref (heap s) l ++ [v])%list]> (heap s))
                  (files s) (dirs s) (draws s)).

(** A list display [[v1, ..., vn]] or [list()] creates a new list object. *)
Definition new_list (vs : list value) : M loc :=
  fun s => let l := fresh (dom (heap s)) in
           (Ok l, State (<[l := vs]> (heap s)) (files s) (dirs s) (draws s)).

(** A [datetime]: the instant, and [tzinfo] as a UTC offset in minutes
    ([None] for a naive value). *)
Record datetime := Datetime {
  instant : Z;
  tzinfo  : option Z;
}.

(** [timezone.utc] *)
Definition utc : Z := 0.

(** Documents handed to [json.dumps]: dicts keep insertion order. *)
Inductive json :=
  | JVal (v : value)
  | JArr (items : list json)
  | JObj (members : list (string * json)).

(** What the code draws from outside the repository: the random and clock
    sources, the standard-library renderers whose output no property below
    depends on, and the behaviour of the operating system during one
    atomic write. *)
Record Env := {
  env_uuid4     : nat -> string;            (* str(uuid.uuid4()), per draw *)
  env_now       : nat -> Z;                 (* the clock, per draw *)
  env_isoformat : datetime -> string;       (* datetime.isoformat *)
  env_str       : gmap loc (list value) -> value -> string;   (* str(v) *)
  env_dumps     : bool -> json -> result string;              (* json.dumps *)
  env_Path      : string -> path;           (* Path(s): (str(parent), name) *)
  env_mkdir     : bool;                     (* mkdir(parents=True) succeeds *)
  env_mkstemp   : option string;            (* random infix, None on OSError *)
  env_write     : option nat;               (* Some n: write fails after n chars *)
  env_replace   : bool;                     (* os.replace succeeds *)
  env_remove    : bool;                     (* os.remove succeeds *)
}.

End Py.

Import Py.

Declare Scope py_scope.
Delimit Scope py_scope with py.
Notation "x <- m ;; k" := (bind m (fun x => k))
  (at level 90, m at level 89, right associativity) : py_scope.
Notation "m ;;; k" := (bind m (fun _ => k))
  (at level 90, right associativity) : py_scope.
Notation "x <~ r ;; k" := (rbind r (fun x => k))
  (at level 90, r at level 89, right associativity) : py_scope.
Notation "r ;;~ k" := (rbind r (fun _ => k))
  (at level 90, right associativity) : py_scope.
Open Scope py_scope.

(* ===================================================================== *)
(** ** Models: core/models.py *)
(* ===================================================================== *)

Module Models.

Definition VALID_MODULES : list string := ["xss"; "sqli"; "cmd"].
Definition VALID_RISK_LEVELS : list string := ["low"; "medium"; "high"].
Definition VALID_DB_TYPES : list string := ["mysql"; "postgres"; "mssql"].
Definition VALID_OS_TYPES : list string := ["linux"; "windows"].
Definition VALID_XSS_CONTEXTS : list string := ["html"; "attr"; "js"].

(** The dataclass.  Fields are held at their declared types, except those
    whose run-time type or identity [_validate] and the exporters test
    themselves ([title], [payload], [tags], [disabled_by_default]): these are
    dynamic values.  The three list fields hold the address of a list
    object. *)
Record PayloadTemplate := {
  id_ : string;                       (* id *)
  module : string;
  title : value;
  description : string;
  payload : value;
  context : option string;
  db_type : option string;
  os_type : option string;
  encoding_applied : loc;
  obfuscation_applied : loc;
  tags : value;
  defensive_notes : string;
  risk_level : string;
  disabled_by_default : value;
  created_at : datetime;
}.

Definition pve (msg : string) : exn := Exc PayloadValidationError msg.

(** [not isinstance(v, str) or not v.strip()] *)
Definition not_text (v : value) : bool :=
  match v with
  | VStr s => Text.blank s
  | _ => true
  end.

(** [x not in S] for an [Optional[str]] and a set of strings. *)
Definition not_in (o : option string) (S : list string) : bool :=
  match o with
  | Some x => negb (Text.mem x S)
  | None => true
  end.

(** Lines 103-108: [tags] must be a list, each element a [str]. *)
Definition validate_tags (h : gmap loc (list value)) (v : value) : result unit :=
  match v with
  | VRef l =>
      rraise_if (negb (forallb is_str (deref h l)))
                (pve "each tag must be a string.")
  | _ => Raise (pve "tags must be a list of strings.")
  end.

(** Lines 110-143: the module-specific selector rules. *)
Definition validate_selectors_of (self : PayloadTemplate) : result unit :=
  if String.eqb (module self) "xss" then
    rraise_if (not_in (context self) VALID_XSS_CONTEXTS)
      (pve ("For module 'xss', context must be one of "
            ++ Text.repr_names (Text.sorted VALID_XSS_CONTEXTS))) ;;~
    rraise_if (is_Some_bool (db_type self))
      (pve "db_type must be None for module 'xss'.") ;;~
    rraise_if (is_Some_bool (os_type self))
      (pve "os_type must be None for module 'xss'.")
  else if String.eqb (module self) "sqli" then
    rraise_if (negb (truthy (db_type self)))
      (pve "db_type is required for module 'sqli'.") ;;~
    rraise_if (not_in (db_type self) VALID_DB_TYPES)
      (pve ("Invalid db_type '" ++ or_empty (db_type self) ++ "'. Must be one of "
            ++ Text.repr_names (Text.sorted VALID_DB_TYPES))) ;;~
    rraise_if (is_Some_bool (context self))
      (pve "context must be None for module 'sqli'.") ;;~
    rraise_if (is_Some_bool (os_type self))
      (pve "os_type must be None for module 'sqli'.")
  else if String.eqb (module self) "cmd" then
    rraise_if (negb (truthy (os_type self)))
      (pve "os_type is required for module 'cmd'.") ;;~
    rraise_if (not_in (os_type self) VALID_OS_TYPES)
      (pve ("Invalid os_type '" ++ or_empty (os_type self) ++ "'. Must be one of "
            ++ Text.repr_names (Text.sorted VALID_OS_TYPES))) ;;~
    rraise_if (is_Some_bool (context self))
      (pve "context must be None for module 'cmd'.") ;;~
    rraise_if (is_Some_bool (db_type self))
      (pve "db_type must be None for module 'cmd'.")
  else Ok tt.

(** [PayloadTemplate._validate], reading list objects from the heap [h]. *)
Definition _validate (h : gmap loc (list value)) (self : PayloadTemplate)
  : result unit :=
  rraise_if (negb (Text.mem (module self) VALID_MODULES))
    (pve ("Invalid module '" ++ module self ++ "'. Must be one of "
          ++ Text.repr_names (Text.sorted VALID_MODULES))) ;;~
  rraise_if (not_text (title self)) (pve "title cannot be empty.") ;;~
  rraise_if (not_text (payload self)) (pve "payload cannot be empty.") ;;~
  rraise_if (negb (Text.mem (risk_level self) VALID_RISK_LEVELS))
    (pve ("Invalid risk_level '" ++ risk_level self ++ "'. Must be one of "
          ++ Text.repr_names (Text.sorted VALID_RISK_LEVELS))) ;;~
  rraise_if (negb (is_True (disabled_by_default self)))
    (pve "disabled_by_default must remain True for safety.") ;;~
  validate_tags h (tags self) ;;~
  validate_selectors_of self ;;~
  rraise_if (negb (is_Some_bool (tzinfo (created_at self))))
    (pve "created_at must be timezone-aware (UTC).").

(** [self._validate()] as a step of a stateful computation. *)
Definition validate (self : PayloadTemplate) : M unit :=
  fun s => (_validate (heap s) self, s).

(** Keyword arguments of the constructor and of [clone_with_updates]: a
    field name with a value of the field's type. *)
Inductive kwarg :=
  | kw_id (s : string)
  | kw_module (s : string)
  | kw_title (v : value)
  | kw_description (s : string)
  | kw_payload (v : value)
  | kw_context (o : option string)
  | kw_db_type (o : option string)
  | kw_os_type (o : option string)
  | kw_encoding_applied (l : loc)
  | kw_obfuscation_applied (l : loc)
  | kw_tags (v : value)
  | kw_defensive_notes (s : string)
  | kw_risk_level (s : string)
  | kw_disabled_by_default (v : value)
  | kw_created_at (d : datetime).

Definition set_field (r : PayloadTemplate) (k : kwarg) : PayloadTemplate :=
  let 'Build_PayloadTemplate i m t d p c db os e o tg dn rl dis ca := r in
  match k with
  | kw_id x => Build_PayloadTemplate x m t d p c db os e o tg dn rl dis ca
  | kw_module x => Build_PayloadTemplate i x t d p c db os e o tg dn rl dis ca
  | kw_title x => Build_PayloadTemplate i m x d p c db os e o tg dn rl dis ca
  | kw_description x => Build_PayloadTemplate i m t x p c db os e o tg dn rl dis ca
  | kw_payload x => Build_PayloadTemplate i m t d x c db os e o tg dn rl dis ca
  | kw_context x => Build_PayloadTemplate i m t d p x db os e o tg dn rl dis ca
  | kw_db_type x => Build_PayloadTemplate i m t d p c x os e o tg dn rl dis ca
  | kw_os_type x => Build_PayloadTemplate i m t d p c db x e o tg dn rl dis ca
  | kw_encoding_applied x => Build_PayloadTemplate i m t d p c db os x o tg dn rl dis ca
  | kw_obfuscation_applied x => Build_PayloadTemplate i m t d p c db os e x tg dn rl dis ca
  | kw_tags x => Build_PayloadTemplate i m t d p c db os e o x dn rl dis ca
  | kw_defensive_notes x => Build_PayloadTemplate i m t d p c db os e o tg x rl dis ca
  | kw_risk_level x => Build_PayloadTemplate i m t d p c db os e o tg dn x dis ca
  | kw_disabled_by_default x => Build_PayloadTemplate i m t d p c db os e o tg dn rl x ca
  | kw_created_at x => Build_PayloadTemplate i m t d p c db os e o tg dn rl dis x
  end.

(** The fields of [self] with [kwargs] laid over them. *)
Definition with_kwargs (self : PayloadTemplate) (kwargs : list kwarg)
  : PayloadTemplate :=
  fold_left set_field kwargs self.

(** [__init__] followed by [__post_init__], once every field has its value. *)
Definition construct (fields : PayloadTemplate) : M PayloadTemplate :=
  validate fields ;;; ret fields.

(** [clone_with_updates]: [dataclasses.replace(self, **kwargs)] calls the
    constructor with the current value of every field not named in
    [kwargs].  For a list field that value is the list object itself. *)
Definition clone_with_updates (self : PayloadTemplate) (kwargs : list kwarg)
  : M PayloadTemplate :=
  construct (with_kwargs self kwargs).

(** [add_encoding] and [add_obfuscation]. *)
Definition add_encoding (self : PayloadTemplate) (encoding_name : string) : M unit :=
  append (encoding_applied self) (VStr encoding_name).

Definition add_obfuscation (self : PayloadTemplate) (technique_name : string) : M unit :=
  append (obfuscation_applied self) (VStr technique_name).

Section WithEnv.
Variable E : Env.

(** One draw from the random source and from the clock. *)
Definition uuid4 : M string :=
  fun s => (Ok (env_uuid4 E (draws s)),
            State (heap s) (files s) (dirs s) (S (draws s))).

Definition now_utc : M datetime :=
  fun s => (Ok (Datetime (env_now E (draws s)) (Some utc)),
            State (heap s) (files s) (dirs s) (S (draws s))).

Definition given {A} (pick : kwarg -> option A) (kwargs : list kwarg) : option A :=
  fold_left (fun acc k => match pick k with Some a => Some a | None => acc end)
            kwargs None.

(** The constructor call with keyword arguments: fields not given take their defaults, the
    default factories running in field order. *)
Definition PayloadTemplate_new (kwargs : list kwarg) : M PayloadTemplate :=
  i <- match given (fun k => match k with kw_id x => Some x | _ => None end) kwargs with
       | Some x => ret x | None => uuid4 end ;;
  e <- match given (fun k => match k with kw_encoding_applied x => Some x | _ => None end) kwargs with
       | Some x => ret x | None => new_list [] end ;;
  o <- match given (fun k => match k with kw_obfuscation_applied x => Some x | _ => None end) kwargs with
       | Some x => ret x | None => new_list [] end ;;
  tg <- match given (fun k => match k with kw_tags x => Some x | _ => None end) kwargs with
        | Some x => ret x | None => l <- new_list [] ;; ret (VRef l) end ;;
  ca <- match given (fun k => match k with kw_created_at x => Some x | _ => None end) kwargs with
        | Some x => ret x | None => now_utc end ;;
  construct (with_kwargs
    {| id_ := i; module := ""; title := VStr ""; description := "";
       payload := VStr ""; context := None; db_type := None; os_type := None;
       encoding_applied := e; obfuscation_applied := o; tags := tg;
       defensive_notes := ""; risk_level := "low";
       disabled_by_default := VBool true; created_at := ca |}
    kwargs).

(** [to_json_safe]: the list fields are copied out of the heap. *)
Definition json_list (h : gmap loc (list value)) (l : loc) : json :=
  JArr (map JVal (deref h l)).

Definition json_opt (o : option string) : json :=
  match o with Some s => JVal (VStr s) | None => JVal VNone end.

Definition to_json_safe (h : gmap loc (list value)) (self : PayloadTemplate) : json :=
  JObj [ ("id", JVal (VStr (id_ self)));
         ("module", JVal (VStr (module self)));
         ("title", JVal (title self));
         ("description", JVal (VStr (description self)));
         ("payload", JVal (payload self));
         ("context", json_opt (context self));
         ("db_type", json_opt (db_type self));
         ("os_type", json_opt (os_type self));
         ("encoding_applied", json_list h (encoding_applied self));
         ("obfuscation_applied", json_list h (obfuscation_applied self));
         ("tags", match tags self with VRef l => json_list h l | v => JVal v end);
         ("defensive_notes", JVal (VStr (defensive_notes self)));
         ("risk_level", JVal (VStr (risk_level self)));
         ("disabled_by_default", JVal (disabled_by_default self));
         ("created_at", JVal (VStr (env_isoformat E (created_at self)))) ].

End WithEnv.

End Models.

(* ===================================================================== *)
(** ** Encoder: transforms/encoder.py *)
(* ===================================================================== *)

Module Encoder.

(** [payload.encode("utf-8")]: the bytes of each code point below U+0100. *)
Definition utf8_char (c : ascii) : list N :=
  let n := Text.ord c in
  if (n <? 128)%N then [n] else [(192 + n / 64)%N; (128 + n mod 64)%N].

Fixpoint utf8 (s : string) : list N :=
  match s with
  | EmptyString => []
  | String c r => (utf8_char c ++ utf8 r)%list
  end.

(** The digit of value [n < 16], in lower or upper case. *)
Definition hex_digit (upper : bool) (n : N) : ascii :=
  if (n <? 10)%N then Text.chr (48 + n)
  else Text.chr ((if upper then 55 else 87) + n).

Definition hex_byte (upper : bool) (b : N) : string :=
  String (hex_digit upper (b / 16)) (String (hex_digit upper (b mod 16)) EmptyString).

(** [binascii.hexlify] followed by [.decode("ascii")] *)
Fixpoint hexlify (bs : list N) : string :=
  match bs with
  | [] => ""
  | b :: r => hex_byte false b ++ hexlify r
  end.

(** The characters [urllib.parse.quote] never escapes. *)
Definition always_safe (b : N) : bool :=
  Text.between 48 57 b || Text.between 65 90 b || Text.between 97 122 b
  || (b =? 95)%N || (b =? 46)%N || (b =? 45)%N || (b =? 126)%N.

(** [urllib.parse.quote_from_bytes(bs, safe="")] *)
Fixpoint quote_bytes (bs : list N) : string :=
  match bs with
  | [] => ""
  | b :: r =>
      (if always_safe b then String (Text.chr b) EmptyString
       else "%" ++ hex_byte true b) ++ quote_bytes r
  end.

Definition b64_alphabet : string :=
  "ABCDEFGHIJKLMNOPQRSTUVWXYZabcdefghijklmnopqrstuvwxyz0123456789+/".

Definition b64_char (n : N) : ascii :=
  match String.get (N.to_nat n) b64_alphabet with
  | Some c => c
  | None => "="%char
  end.

Definition str1 (c : ascii) : string := String c EmptyString.

(** [base64.b64encode] followed by [.decode("ascii")] *)
Fixpoint b64encode (bs : list N) : string :=
  match bs with
  | [] => ""
  | [a] =>
      str1 (b64_char (a / 4)) ++ str1 (b64_char ((a mod 4) * 16)) ++ "=="
  | [a; b] =>
      str1 (b64_char (a / 4)) ++ str1 (b64_char ((a mod 4) * 16 + b / 16))
      ++ str1 (b64_char ((b mod 16) * 4)) ++ "="
  | a :: b :: c :: r =>
      str1 (b64_char (a / 4)) ++ str1 (b64_char ((a mod 4) * 16 + b / 16))
      ++ str1 (b64_char ((b mod 16) * 4 + c / 64)) ++ str1 (b64_char (c mod 64))
      ++ b64encode r
  end.

Definition _url_encode (payload : string) : result string :=
  Ok (quote_bytes (utf8 payload)).

Definition _base64_encode (payload : string) : result string :=
  Ok (b64encode (utf8 payload)).

Definition _hex_encode (payload : string) : result string :=
  Ok (hexlify (utf8 payload)).

Definition _ENCODING_METHODS : list (string * (string -> result string)) :=
  [ ("url", _url_encode); ("base64", _base64_encode); ("hex", _hex_encode) ].

(** [d.get(k)] on a dict given by its items. *)
Fixpoint lookup {A} (k : string) (d : list (string * A)) : option A :=
  match d with
  | [] => None
  | (k', a) :: r => if String.eqb k k' then Some a else lookup k r
  end.

(** [f"{m}"] for an [Optional[str]] *)
Definition fmt_opt (o : option string) : string :=
  match o with Some s => s | None => "None" end.

Definition encoding_error (msg : string) : exn := Exc EncodingError msg.

Definition encode_payload (payload : value) (method : option string)
  : result string :=
  match payload with
  | VStr text =>
      if Text.blank text then Raise (encoding_error "Payload cannot be empty.")
      else
        let method_norm := Text.lower (Text.strip (or_empty method)) in
        match lookup method_norm _ENCODING_METHODS with
        | None =>
            Raise (encoding_error
              ("Unsupported encoding method '" ++ fmt_opt method ++ "'. Supported: "
               ++ Text.repr_names (Text.sorted (map fst _ENCODING_METHODS))))
        | Some encoder =>
            match encoder text with
            | Ok out => Ok out
            | Raise e =>
                Raise (ExcFrom EncodingError
                  ("Encoding failed using method '" ++ method_norm ++ "': "
                   ++ str_exn e) e)
            end
        end
  | _ =>
      Raise (encoding_error
        ("Payload must be a string, got " ++ type_repr payload ++ "."))
  end.

Definition list_supported_encodings : list string :=
  Text.sorted (map fst _ENCODING_METHODS).

Definition is_supported_encoding (method : option string) : bool :=
  is_Some_bool (lookup (Text.lower (Text.strip (or_empty method))) _ENCODING_METHODS).

End Encoder.

(* ===================================================================== *)
(** ** Obfuscator: transforms/obfuscator.py *)
(* ===================================================================== *)

Module Obfuscator.

(** *** The marker pattern

    [_TEMPLATE_MARKER_RE] is [(<<.*?>>)|(\bTEMPLATE\b)] with [re.IGNORECASE].
    [search] succeeds when one of the two alternatives matches at some
    position of the text. *)

(** [\w]: alphanumeric or underscore. *)
Definition is_word (c : ascii) : bool := Text.isalnum c || Ascii.eqb c "_".

Definition newline : ascii := "010".

(** [.*?>>] at the head of [s]: a [>>] reached without crossing a newline. *)
Fixpoint closes (s : string) : bool :=
  match s with
  | EmptyString => false
  | String c r => Text.prefix_of ">>" s || (negb (Ascii.eqb c newline) && closes r)
  end.

(** [<<.*?>>] at the head of [s] *)
Definition bracket_here (s : string) : bool :=
  match s with
  | String "<" (String "<" r) => closes r
  | _ => false
  end.

(** The rest of [s] after a prefix equal to [p] up to letter case. *)
Fixpoint ci_strip_prefix (p s : string) : option string :=
  match p, s with
  | EmptyString, _ => Some s
  | String a p', String b s' =>
      if Ascii.eqb a (Text.lower_char b) then ci_strip_prefix p' s' else None
  | String _ _, EmptyString => None
  end.

(** [\bTEMPLATE\b] at the head of [s], the character before it being [prev]. *)
Definition word_here (prev : option ascii) (s : string) : bool :=
  match prev with Some c => negb (is_word c) | None => true end &&
  match ci_strip_prefix "template" s with
  | Some EmptyString => true
  | Some (String c _) => negb (is_word c)
  | None => false
  end.

Fixpoint search_from (prev : option ascii) (s : string) : bool :=
  bracket_here s || word_here prev s ||
  match s with
  | EmptyString => false
  | String c r => search_from (Some c) r
  end.

(** [bool(_TEMPLATE_MARKER_RE.search(s))] *)
Definition _TEMPLATE_MARKER_RE_search (s : string) : bool := search_from None s.

Definition obfuscation_error (msg : string) : exn := Exc ObfuscationError msg.

Definition refusal : string :=
  "Refusing to obfuscate: payload does not look like an educational template. "
  ++ "Add a marker like '<<...>>' or the word 'TEMPLATE'.".

Definition _ensure_educational_template (payload : string) : result unit :=
  rraise_if (negb (_TEMPLATE_MARKER_RE_search payload)) (obfuscation_error refusal).

(** The loop of [_comments]: each character, followed by the marker when it
    is alphanumeric with a code divisible by 7. *)
Fixpoint comment_chars (s : string) : string :=
  match s with
  | EmptyString => ""
  | String ch r =>
      String ch
        ((if Text.isalnum ch && (Text.ord ch mod 7 =? 0)%N then "/*OBF*/" else "")
         ++ comment_chars r)
  end.

Definition _comments (payload : string) : result string :=
  _ensure_educational_template payload ;;~
  Ok (comment_chars payload).

Definition _whitespace (payload : string) : result string :=
  _ensure_educational_template payload ;;~
  Ok (Text.replace_char " " (String " " (String "009" (String " " EmptyString))) payload).

Definition _mixed (payload : string) : result string :=
  _ensure_educational_template payload ;;~
  commented <~ _comments payload ;;
  _whitespace commented.

Definition _OBFUSCATION_MODES : list (string * (string -> result string)) :=
  [ ("comments", _comments); ("whitespace", _whitespace); ("mixed", _mixed) ].

Definition obfuscate_payload (payload : value) (mode : option string)
  : result string :=
  match payload with
  | VStr text =>
      if String.eqb text "" then Raise (obfuscation_error "Payload cannot be empty.")
      else
        let mode_norm := Text.lower (Text.strip (or_empty mode)) in
        match Encoder.lookup mode_norm _OBFUSCATION_MODES with
        | None =>
            Raise (obfuscation_error
              ("Unsupported obfuscation mode '" ++ Encoder.fmt_opt mode
               ++ "'. Supported: "
               ++ Text.repr_names (Text.sorted (map fst _OBFUSCATION_MODES))))
        | Some transformer =>
            match transformer text with
            | Ok out => Ok out
            | Raise e =>
                if decide (exn_cls e = ObfuscationError) then Raise e
                else Raise (ExcFrom ObfuscationError
                       ("Obfuscation failed using mode '" ++ mode_norm ++ "': "
                        ++ str_exn e) e)
            end
        end
  | _ =>
      Raise (obfuscation_error
        ("Payload must be a string, got " ++ type_repr payload ++ "."))
  end.

Definition list_supported_obfuscations : list string :=
  Text.sorted (map fst _OBFUSCATION_MODES).

Definition is_supported_obfuscation (mode : option string) : bool :=
  is_Some_bool
    (Encoder.lookup (Text.lower (Text.strip (or_empty mode))) _OBFUSCATION_MODES).

End Obfuscator.

(* ===================================================================== *)
(** ** Registry: core/registry.py *)
(* ===================================================================== *)

Module Registry.
Import Models.

(** An element of a Python list handed around as "items": a
    [PayloadTemplate] instance or some other object. *)
Inductive obj :=
  | ITemplate (t : PayloadTemplate)
  | IOther (v : value).

(** What a generator call returns: a list, or some other object. *)
Inductive returned :=
  | RList (items : list obj)
  | ROther (v : value).

(** A generator is called with one keyword argument, [db_type=...],
    [os_type=...] or [context=...]; it may raise and may allocate. *)
Definition GeneratorFunction : Type := string -> option string -> M returned.

Record ModuleSpec := {
  name : string;
  generator : GeneratorFunction;
  requires_db : bool;
  requires_os : bool;
}.

(** The [_registry] dict of a [ModuleRegistry]. *)
Abbreviation ModuleRegistry := (gmap string ModuleSpec).

Definition registry_error (msg : string) : exn := Exc RegistryError msg.

Definition register (self : ModuleRegistry) (module_name : string)
    (func : GeneratorFunction) (requires_db requires_os : bool)
  : result ModuleRegistry :=
  match self !! module_name with
  | Some _ =>
      Raise (registry_error ("Module '" ++ module_name ++ "' is already registered."))
  | None =>
      Ok (<[module_name := Build_ModuleSpec module_name func requires_db requires_os]> self)
  end.

(** [@register_module(name, ...)] applied to [func]: it registers [func]
    and hands it back. *)
Definition register_module (self : ModuleRegistry) (module_name : string)
    (requires_db requires_os : bool) (func : GeneratorFunction)
  : result (ModuleRegistry * GeneratorFunction) :=
  registry <~ register self module_name func requires_db requires_os ;;
  Ok (registry, func).

Definition list_modules (self : ModuleRegistry) : list string :=
  Text.sorted (map fst (map_to_list self)).

Definition not_registered (self : ModuleRegistry) (module_name : string) : string :=
  "Module '" ++ module_name ++ "' is not registered. "
  ++ "Available: " ++ Text.repr_names (list_modules self).

Definition get_spec (self : ModuleRegistry) (module_name : string)
  : result ModuleSpec :=
  match self !! module_name with
  | None => Raise (registry_error (not_registered self module_name))
  | Some spec => Ok spec
  end.

Definition requires_selector (module_name selector : string) : string :=
  "Module '" ++ module_name ++ "' requires '" ++ selector ++ "' selector.".

Definition validate_selectors (self : ModuleRegistry) (module_name : string)
    (db_type os_type context : option string) : result unit :=
  spec <~ get_spec self module_name ;;
  rraise_if (requires_db spec && negb (truthy db_type))
    (registry_error (requires_selector module_name "db_type")) ;;~
  rraise_if (requires_os spec && negb (truthy os_type))
    (registry_error (requires_selector module_name "os_type")) ;;~
  rraise_if (String.eqb module_name "xss" && negb (truthy context))
    (registry_error "Module 'xss' requires 'context' selector.").

Definition must_return_list (module_name : string) : string :=
  "Module '" ++ module_name ++ "' must return List[PayloadTemplate].".

Definition not_a_template (module_name : string) (i : nat) : string :=
  "Item " ++ Text.str_nat i ++ " from module '" ++ module_name
  ++ "' is not PayloadTemplate.".

Definition invalid_payload (module_name : string) (i : nat) (e : exn) : string :=
  "Invalid payload from module '" ++ module_name ++ "' at index "
  ++ Text.str_nat i ++ ": " ++ str_exn e.

(** The loop [for i, item in enumerate(items)] of [generate], from index [i]. *)
Fixpoint revalidate (module_name : string) (h : gmap loc (list value))
    (i : nat) (items : list obj) : result unit :=
  match items with
  | [] => Ok tt
  | IOther _ :: _ => Raise (registry_error (not_a_template module_name i))
  | ITemplate item :: rest =>
      match _validate h item with
      | Raise e =>
          if decide (exn_cls e = PayloadValidationError)
          then Raise (ExcFrom PayloadValidationError (invalid_payload module_name i e) e)
          else Raise e
      | Ok _ => revalidate module_name h (S i) rest
      end
  end.

(** Lines 155-160: the generator is called with the one selector its spec
    declares. *)
Definition call_generator (spec : ModuleSpec) (db_type os_type context : option string)
  : M returned :=
  if requires_db spec then generator spec "db_type" db_type
  else if requires_os spec then generator spec "os_type" os_type
  else generator spec "context" context.

Definition generate (self : ModuleRegistry) (module_name : string)
    (db_type os_type context : option string) : M (list obj) :=
  lift (validate_selectors self module_name db_type os_type context) ;;;
  spec <- lift (get_spec self module_name) ;;
  items <- call_generator spec db_type os_type context ;;
  match items with
  | ROther _ => raise (registry_error (must_return_list module_name))
  | RList items =>
      (fun s => (revalidate module_name (heap s) 0 items, s)) ;;;
      ret items
  end.

End Registry.

(* ===================================================================== *)
(** ** Generators: modules/xss.py, modules/sqli.py, modules/cmd_injection.py *)
(* ===================================================================== *)

Definition nl : string := String "010" EmptyString.

(** Calling a generator with a keyword it does not declare. *)
Definition unexpected_keyword (kw : string) : exn :=
  Exc TypeError
    ("generate_payloads() got an unexpected keyword argument '" ++ kw ++ "'").

(** Evaluating the elements of a list display from left to right. *)
Fixpoint sequence {A} (ms : list (M A)) : M (list A) :=
  match ms with
  | [] => ret []
  | m :: r => a <- m ;; l <- sequence r ;; ret (a :: l)
  end.

Module Xss.
Import Models Registry.
Section WithEnv.
Variable E : Env.

Definition _VALID_CONTEXTS : list string := ["html"; "attr"; "js"].

Definition _normalize_context (context : option string) : result (option string) :=
  match context with
  | None => Ok None
  | Some raw =>
      let c := Text.lower (Text.strip raw) in
      if String.eqb c "" then Ok None
      else if negb (Text.mem c _VALID_CONTEXTS) then
        Raise (Exc ValueError
          ("Invalid XSS context '" ++ raw ++ "'. Supported: "
           ++ Text.repr_names (Text.sorted _VALID_CONTEXTS)))
      else Ok (Some c)
  end.

(** One [PayloadTemplate(..., tags=[...])] call of the generator. *)
Definition template (kwargs : list kwarg) (tag_list : list string) : M obj :=
  l <- new_list (map VStr tag_list) ;;
  t <- PayloadTemplate_new E (kwargs ++ [kw_tags (VRef l)])%list ;;
  ret (ITemplate t).

(** The html templates. *)
Definition html_templates : list (M obj) :=
  [ template
        [ kw_module "xss";
          kw_title (VStr "Reflected XSS (HTML context) - Template");
          kw_description
            ("Demonstrates reflected XSS risk when untrusted input is placed "
             ++ "into the HTML body without proper contextual output encoding.");
          kw_payload (VStr "<<XSS_TEMPLATE: REFLECTED | CONTEXT=html | SINK=HTML_BODY>>");
          kw_context (Some "html");
          kw_defensive_notes
            ("Education-only template (non-executing)."
             ++ nl
             ++ "- Root cause: reflecting user input into HTML without encoding."
             ++ nl
             ++ "- Defenses: contextual output encoding (HTML), safe "
             ++ "templating/auto-escaping, CSP."
             ++ nl
             ++ "- WAFs may detect signatures, but correct output encoding is "
             ++ "the core fix.");
          kw_risk_level "medium" ]
        ["reflected"; "context:html"; "education-only"; "non-executing"];
    template
        [ kw_module "xss";
          kw_title (VStr "Stored XSS (HTML context) - Template");
          kw_description
            ("Demonstrates stored XSS concept: input is persisted and later "
             ++ "rendered into HTML body.");
          kw_payload (VStr "<<XSS_TEMPLATE: STORED | CONTEXT=html | SOURCE=persisted_input | SINK=HTML_BODY>>");
          kw_context (Some "html");
          kw_defensive_notes
            ("Education-only template (non-executing)."
             ++ nl
             ++ "- Stored XSS can affect many users because the payload is "
             ++ "persisted."
             ++ nl
             ++ "- Defenses: encode at render time, input "
             ++ "normalization/validation, CSP."
             ++ nl
             ++ "- Ensure consistent escaping across all render paths.");
          kw_risk_level "high" ]
        ["stored"; "context:html"; "education-only"; "non-executing"] ].

(** The attr templates. *)
Definition attr_templates : list (M obj) :=
  [ template
        [ kw_module "xss";
          kw_title (VStr "Reflected XSS (Attribute context) - Template");
          kw_description
            ("Demonstrates attribute-context injection risk when input is "
             ++ "placed into an HTML attribute value without proper attribute "
             ++ "encoding/validation.");
          kw_payload (VStr "<<XSS_TEMPLATE: REFLECTED | CONTEXT=attr | SINK=ATTRIBUTE_VALUE>>");
          kw_context (Some "attr");
          kw_defensive_notes
            ("Education-only template (non-executing)."
             ++ nl
             ++ "- Attribute context requires attribute-safe encoding "
             ++ "(quotes/special chars)."
             ++ nl
             ++ "- For URL attributes (href/src), apply allow-list validation "
             ++ "for schemes/protocols."
             ++ nl
             ++ "- Avoid event-handler attributes entirely; prefer safe DOM APIs.");
          kw_risk_level "medium" ]
        ["reflected"; "context:attr"; "education-only"; "non-executing"];
    template
        [ kw_module "xss";
          kw_title (VStr "Stored XSS (Attribute context) - Template");
          kw_description
            ("Demonstrates stored XSS concept where persisted input is later "
             ++ "used inside an HTML attribute.");
          kw_payload (VStr "<<XSS_TEMPLATE: STORED | CONTEXT=attr | SOURCE=persisted_input | SINK=ATTRIBUTE_VALUE>>");
          kw_context (Some "attr");
          kw_defensive_notes
            ("Education-only template (non-executing)."
             ++ nl
             ++ "- Stored attribute injection can be severe depending on sink "
             ++ "type."
             ++ nl
             ++ "- Defenses: strict allow-lists + attribute encoding; avoid "
             ++ "dangerous attribute sinks."
             ++ nl
             ++ "- Prefer framework auto-escaping and safe URL builders.");
          kw_risk_level "high" ]
        ["stored"; "context:attr"; "education-only"; "non-executing"];
    template
        [ kw_module "xss";
          kw_title (VStr "Filter Evasion Concepts (Attribute context) - Template");
          kw_description
            ("Marker template for discussing why naive filters fail in "
             ++ "attribute context (context switching, encoding differences) "
             ++ "without providing operational exploit strings.");
          kw_payload (VStr "<<XSS_TEMPLATE: BYPASS_CONCEPTS | CONTEXT=attr | NOTE=descriptive_only>>");
          kw_context (Some "attr");
          kw_defensive_notes
            ("Education-only template (non-executing)."
             ++ nl
             ++ "- Naive filters often match strings; robust defense is "
             ++ "context-aware output encoding."
             ++ nl
             ++ "- Use allow-lists for URL schemes and avoid inline event "
             ++ "handlers."
             ++ nl
             ++ "- CSP can reduce impact, but correct encoding is primary.");
          kw_risk_level "low" ]
        ["bypass-concepts"; "context:attr"; "education-only"; "non-executing"] ].

(** The js templates. *)
Definition js_templates : list (M obj) :=
  [ template
        [ kw_module "xss";
          kw_title (VStr "Reflected XSS (JavaScript context) - Template");
          kw_description
            ("Demonstrates risk when untrusted input is embedded into a "
             ++ "JavaScript string/context without proper JS escaping.");
          kw_payload (VStr "<<XSS_TEMPLATE: REFLECTED | CONTEXT=js | SINK=JS_STRING>>");
          kw_context (Some "js");
          kw_defensive_notes
            ("Education-only template (non-executing)."
             ++ nl
             ++ "- JS context needs JS-string escaping (different from "
             ++ "HTML/attr)."
             ++ nl
             ++ "- Avoid string concatenation; prefer safe APIs and JSON "
             ++ "encoding."
             ++ nl
             ++ "- CSP helps, but correct contextual escaping is essential.");
          kw_risk_level "high" ]
        ["reflected"; "context:js"; "education-only"; "non-executing"];
    template
        [ kw_module "xss";
          kw_title (VStr "DOM-based XSS (JavaScript sink) - Template");
          kw_description
            ("Demonstrates DOM XSS concept: untrusted data from browser "
             ++ "sources is written to a risky sink.");
          kw_payload (VStr "<<XSS_TEMPLATE: DOM | CONTEXT=js | SOURCE=location | SINK=dom_write>>");
          kw_context (Some "js");
          kw_defensive_notes
            ("Education-only template (non-executing)."
             ++ nl
             ++ "- DOM XSS occurs when client-side JS writes untrusted data into "
             ++ "dangerous sinks."
             ++ nl
             ++ "- Defenses: use textContent over innerHTML, sanitize with "
             ++ "vetted libraries, CSP."
             ++ nl
             ++ "- Identify sources (location, storage) and sinks (DOM writes) "
             ++ "during testing.");
          kw_risk_level "high" ]
        ["dom"; "context:js"; "education-only"; "non-executing"];
    template
        [ kw_module "xss";
          kw_title (VStr "Encoding Demonstration (JavaScript context) - Template");
          kw_description
            ("Non-executing marker used to demonstrate how encoding "
             ++ "transforms representations (URL/Base64/Hex) in a safe way.");
          kw_payload (VStr "<<XSS_TEMPLATE: ENCODING_DEMO | CONTEXT=js | NOTE=representation_only>>");
          kw_context (Some "js");
          kw_defensive_notes
            ("Education-only template (non-executing)."
             ++ nl
             ++ "- Encoding changes representation, not the underlying "
             ++ "vulnerability."
             ++ nl
             ++ "- Correct fix is contextual output encoding + safe coding "
             ++ "patterns."
             ++ nl
             ++ "- Use Proteus flags to observe how representations change "
             ++ "safely.");
          kw_risk_level "low" ]
        ["encoding"; "context:js"; "education-only"; "non-executing"] ].

(** [ctx in (None, c)] *)
Definition selects (ctx : option string) (c : string) : bool :=
  match ctx with None => true | Some x => String.eqb x c end.

Definition generate_payloads : GeneratorFunction := fun kw context =>
  if negb (String.eqb kw "context") then raise (unexpected_keyword kw)
  else
    ctx <- lift (_normalize_context context) ;;
    html <- (if selects ctx "html" then sequence html_templates else ret []) ;;
    attr <- (if selects ctx "attr" then sequence attr_templates else ret []) ;;
    js <- (if selects ctx "js" then sequence js_templates else ret []) ;;
    ret (RList (html ++ attr ++ js)%list).

End WithEnv.
End Xss.

Module Sqli.
Import Models Registry.

Definition _VALID_DB_TYPES : list (string * string) :=
  [ ("mysql", "mysql");
    ("mariadb", "mysql");
    ("postgres", "postgres");
    ("postgresql", "postgres");
    ("mssql", "mssql");
    ("sqlserver", "mssql");
    ("sql server", "mssql") ].

Definition _normalize_db (db_type : option string) : result string :=
  let raw := Text.lower (Text.strip (or_empty db_type)) in
  match Encoder.lookup raw _VALID_DB_TYPES with
  | Some db => Ok db
  | None =>
      Raise (Exc ValueError
        ("Invalid db_type '" ++ Encoder.fmt_opt db_type ++ "'. Supported: "
         ++ Text.repr_names (Text.sorted (remove_dups (map snd _VALID_DB_TYPES)))))
  end.

Definition _db_defense_highlights (db : string) : string :=
  if String.eqb db "mysql" then
    ("- MySQL/MariaDB: disable verbose errors in production."
      ++ nl
      ++ "- Monitor slow query log and restrict SUPER/FILE privileges."
      ++ nl)
  else if String.eqb db "postgres" then
    ("- PostgreSQL: enforce least-privilege roles."
      ++ nl
      ++ "- Avoid dynamic SQL inside functions."
      ++ nl)

  else
    ("- SQL Server: avoid string concatenation with EXEC()."
      ++ nl
      ++ "- Review stored procedures for dynamic SQL usage."
      ++ nl).

Record _TemplateSpec := {
  key : string;
  title : string;
  risk : string;
  tags : list string;
  description : string;
  defensive_notes : string;
}.

Definition _TEMPLATES : list _TemplateSpec :=
  [ {| key := "ERROR_BASED";
       title := "Error-Based SQLi";
       risk := "high";
       tags := ["error-based"; "education-only"; "non-executing"];
       description :=
         ("Concept: database error messages may leak query structure when "
          ++ "input is concatenated into SQL statements.");
       defensive_notes :=
         ("- Root cause: dynamic SQL string construction."
          ++ nl
          ++ "- Use parameterized queries / prepared statements."
          ++ nl
          ++ "- Suppress detailed DB errors in production."
          ++ nl) |};
    {| key := "UNION_BASED";
       title := "Union-Based SQLi";
       risk := "high";
       tags := ["union-based"; "education-only"; "non-executing"];
       description :=
         ("Concept: attacker-controlled input may alter SELECT queries to "
          ++ "combine additional result sets.");
       defensive_notes :=
         ("- Use parameterized queries."
          ++ nl
          ++ "- Apply least-privilege DB roles."
          ++ nl
          ++ "- Avoid direct string interpolation in SQL."
          ++ nl) |};
    {| key := "BLIND_BOOLEAN";
       title := "Blind SQLi (Boolean-Based)";
       risk := "medium";
       tags := ["blind"; "boolean-based"; "education-only"; "non-executing"];
       description :=
         ("Concept: response differences reveal true/false evaluation even "
          ++ "without visible errors.");
       defensive_notes :=
         ("- Enforce consistent responses."
          ++ nl
          ++ "- Use parameterized queries."
          ++ nl
          ++ "- Avoid logic branching on raw user input."
          ++ nl) |};
    {| key := "BLIND_TIME";
       title := "Blind SQLi (Time-Based)";
       risk := "medium";
       tags := ["blind"; "time-based"; "education-only"; "non-executing"];
       description :=
         "Concept: response latency may indicate conditional execution.";
       defensive_notes :=
         ("- Set DB query time limits."
          ++ nl
          ++ "- Monitor abnormal latency patterns."
          ++ nl
          ++ "- Use parameterization everywhere."
          ++ nl) |};
    {| key := "BYPASS_CONCEPTS";
       title := "Filter Evasion Concepts (Comments / Case)";
       risk := "low";
       tags := ["bypass-concepts"; "education-only"; "non-executing"];
       description :=
         ("Concept: naive keyword filters fail against case changes or "
          ++ "token splitting.");
       defensive_notes :=
         ("- Do not rely on regex keyword filtering."
          ++ nl
          ++ "- Use parameterized queries as primary defense."
          ++ nl) |} ].

Section WithEnv.
Variable E : Env.

(** The body of the loop [for spec in _TEMPLATES]. *)
Definition template (db : string) (spec : _TemplateSpec) : M obj :=
  let db_tag := "db:" ++ db in
  let db_specific_notes := _db_defense_highlights db in
  let marker :=
    "<<SQLI_TEMPLATE: " ++ key spec ++ " | " ++ "DB=" ++ db ++ " | NON_EXECUTING>>" in
  let combined_notes :=
    "Education-only (non-executing)." ++ nl
    ++ defensive_notes spec
    ++ db_specific_notes
    ++ "- Integrate SAST/DAST and code review for query construction." ++ nl in
  l <- new_list (map VStr (tags spec ++ [db_tag])%list) ;;
  t <- PayloadTemplate_new E
         [ kw_module "sqli";
           kw_title (VStr (title spec ++ " (" ++ db ++ ") - Template"));
           kw_description (description spec);
           kw_payload (VStr marker);
           kw_db_type (Some db);
           kw_defensive_notes combined_notes;
           kw_risk_level (risk spec);
           kw_tags (VRef l) ] ;;
  ret (ITemplate t).

Definition generate_payloads : GeneratorFunction := fun kw db_type =>
  if negb (String.eqb kw "db_type") then raise (unexpected_keyword kw)
  else
    db <- lift (_normalize_db db_type) ;;
    items <- sequence (map (template db) _TEMPLATES) ;;
    ret (RList items).

End WithEnv.
End Sqli.

Module CmdInjection.
Import Models Registry.

Definition _VALID_OS_TYPES : list (string * string) :=
  [ ("linux", "linux");
    ("unix", "linux");
    ("gnu/linux", "linux");
    ("bash", "linux");
    ("sh", "linux");
    ("windows", "windows");
    ("win", "windows");
    ("win32", "windows");
    ("cmd", "windows");
    ("powershell", "windows");
    ("pwsh", "windows") ].

Definition _normalize_os (os_type : option string) : result string :=
  let raw := Text.lower (Text.strip (or_empty os_type)) in
  match Encoder.lookup raw _VALID_OS_TYPES with
  | Some os_norm => Ok os_norm
  | None =>
      Raise (Exc ValueError
        ("Invalid os_type '" ++ Encoder.fmt_opt os_type ++ "'. Supported: "
         ++ Text.repr_names (Text.sorted (remove_dups (map snd _VALID_OS_TYPES)))))
  end.

Definition _os_defense_highlights (os_type : string) : string :=
  if String.eqb os_type "linux" then
    ("- Avoid shell=True patterns in process spawning."
      ++ nl
      ++ "- Prefer exec-style APIs with argument arrays (argv)."
      ++ nl
      ++ "- Apply strict allow-lists for user-controlled parameters."
      ++ nl)
  else
    ("- Avoid passing untrusted input into cmd.exe or PowerShell."
      ++ nl
      ++ "- Prefer structured APIs instead of dynamic command "
      ++ "construction."
      ++ nl
      ++ "- Restrict privileges and monitor spawned processes."
      ++ nl).

Record _TemplateSpec := {
  key : string;
  title : string;
  risk : string;
  tags : list string;
  description : string;
  defensive_notes : string;
}.

Definition _TEMPLATES : list _TemplateSpec :=
  [ {| key := "BASIC_CONCEPT";
       title := "Command Injection (Basic Concept)";
       risk := "high";
       tags := ["cmd-injection"; "basic-concept"; "education-only"; "non-executing"];
       description :=
         ("Concept: untrusted input influencing system command "
          ++ "construction may alter execution flow.");
       defensive_notes :=
         ("- Root cause: concatenating user input into shell commands."
          ++ nl
          ++ "- Primary defense: avoid shell invocation entirely."
          ++ nl) |};
    {| key := "SEPARATOR_CONCEPT";
       title := "Command Separator Concept";
       risk := "high";
       tags := ["cmd-injection"; "separator-concept"; "education-only"; "non-executing"];
       description :=
         ("Concept: shell parsing rules may interpret separators as "
          ++ "command boundaries.");
       defensive_notes :=
         ("- Do not rely on character blacklists."
          ++ nl
          ++ "- Use structured execution (argv arrays), not shell parsing."
          ++ nl) |};
    {| key := "CHAINING_CONCEPT";
       title := "Command Chaining Concept";
       risk := "high";
       tags := ["cmd-injection"; "chaining-concept"; "education-only"; "non-executing"];
       description :=
         ("Concept: dynamic command building may enable chained execution "
          ++ "paths.");
       defensive_notes :=
         ("- Avoid dynamic command construction."
          ++ nl
          ++ "- Enforce strict input validation."
          ++ nl) |};
    {| key := "FILTER_EVASION_CONCEPTS";
       title := "Filter Evasion Concepts";
       risk := "medium";
       tags := ["cmd-injection"; "bypass-concepts"; "education-only"; "non-executing"];
       description :=
         ("Concept: naive filtering may fail across encodings and shell "
          ++ "behaviors.");
       defensive_notes :=
         ("- Architectural prevention > keyword filtering."
          ++ nl
          ++ "- Add sandboxing and least privilege."
          ++ nl) |};
    {| key := "OS_DETECTION_LOGIC";
       title := "OS Detection Logic Concept";
       risk := "low";
       tags := ["cmd-injection"; "os-detection"; "education-only"; "non-executing"];
       description :=
         "Concept: behavioral differences may reveal underlying OS type.";
       defensive_notes :=
         ("- Avoid exposing platform details."
          ++ nl
          ++ "- Do not return raw command output."
          ++ nl) |} ].

Section WithEnv.
Variable E : Env.

(** The body of the loop [for spec in _TEMPLATES]. *)
Definition template (os_norm : string) (spec : _TemplateSpec) : M obj :=
  let os_tag := "os:" ++ os_norm in
  let os_specific_notes := _os_defense_highlights os_norm in
  let marker :=
    "<<CMD_TEMPLATE: " ++ key spec ++ " | " ++ "OS=" ++ os_norm ++ " | NON_EXECUTING>>" in
  let combined_notes :=
    "Education-only (non-executing)." ++ nl
    ++ defensive_notes spec
    ++ os_specific_notes
    ++ "- Apply least privilege to service accounts." ++ nl
    ++ "- Prefer SDK/library APIs over invoking shell utilities." ++ nl in
  l <- new_list (map VStr (tags spec ++ [os_tag])%list) ;;
  t <- PayloadTemplate_new E
         [ kw_module "cmd";
           kw_title (VStr (title spec ++ " (" ++ os_norm ++ ") - Template"));
           kw_description (description spec);
           kw_payload (VStr marker);
           kw_os_type (Some os_norm);
           kw_defensive_notes combined_notes;
           kw_risk_level (risk spec);
           kw_tags (VRef l) ] ;;
  ret (ITemplate t).

Definition generate_payloads : GeneratorFunction := fun kw os_type =>
  if negb (String.eqb kw "os_type") then raise (unexpected_keyword kw)
  else
    os_norm <- lift (_normalize_os os_type) ;;
    items <- sequence (map (template os_norm) _TEMPLATES) ;;
    ret (RList items).

End WithEnv.
End CmdInjection.

(** The global [registry] once [initialize_registry] has imported the three
    modules: each [@registry.register_module] decorator has run once. *)
Module Shipped.
Import Registry.
Section WithEnv.
Variable E : Env.

Definition registry : ModuleRegistry :=
  <["cmd" := Build_ModuleSpec "cmd" (CmdInjection.generate_payloads E) false true]>
  (<["sqli" := Build_ModuleSpec "sqli" (Sqli.generate_payloads E) true false]>
  (<["xss" := Build_ModuleSpec "xss" (Xss.generate_payloads E) false false]> ∅)).

Definition get_registry : ModuleRegistry := registry.

End WithEnv.
End Shipped.

(* ===================================================================== *)
(** ** Exporters: exporters/json_exporter.py, exporters/txt_exporter.py *)
(* ===================================================================== *)

(** [_ensure_parent_dir] and [_atomic_write_text].  Each exporter file
    carries its own copy of these two functions, the same line for line;
    they are embedded once. *)
Module AtomicWrite.
Section WithEnv.
Variable E : Env.

Definition os_error (what : string) : exn := Exc OSError what.

Definition set_files (f : gmap path string -> gmap path string) : M unit :=
  fun s => (Ok tt, State (heap s) (f (files s)) (dirs s) (draws s)).

(** [path.parent.mkdir(parents=True, exist_ok=True)] *)
Definition _ensure_parent_dir (p : path) : M unit :=
  if env_mkdir E
  then fun s => (Ok tt, State (heap s) (files s) ({[ fst p ]} ∪ dirs s) (draws s))
  else raise (os_error "mkdir").

(** The file [tempfile.mkstemp(prefix=path.name + ".", suffix=".tmp",
    dir=str(path.parent))] creates, for the random infix [rnd]. *)
Definition tmp_of (p : path) (rnd : string) : path :=
  (fst p, snd p ++ "." ++ rnd ++ ".tmp").

(** [mkstemp] creates the file exclusively: it must not exist yet. *)
Definition mkstemp (p : path) : M path :=
  match env_mkstemp E with
  | None => raise (os_error "mkstemp")
  | Some rnd =>
      fun s =>
        match files s !! tmp_of p rnd with
        | Some _ => (Raise (os_error "mkstemp: file exists"), s)
        | None =>
            (Ok (tmp_of p rnd),
             State (heap s) (<[tmp_of p rnd := ""]> (files s)) (dirs s) (draws s))
        end
  end.

(** [with os.fdopen(fd, "w") as f: f.write(content)]: the whole text, or a
    prefix of it and an error. *)
Definition write_all (tmp : path) (content : string) : M unit :=
  match env_write E with
  | None => set_files (<[tmp := content]>)
  | Some n =>
      set_files (<[tmp := String.substring 0 n content]>) ;;;
      raise (os_error "write")
  end.

(** [os.replace(src, dst)]: one atomic rename. *)
Definition os_replace (src dst : path) : M unit :=
  if env_replace E then
    fun s =>
      match files s !! src with
      | Some c =>
          (Ok tt,
           State (heap s) (<[dst := c]> (delete src (files s))) (dirs s) (draws s))
      | None => (Raise (os_error "replace: no such file"), s)
      end
  else raise (os_error "replace").

(** [try: os.remove(tmp_path)  except OSError: pass] *)
Definition remove_quietly (tmp : path) : M unit :=
  if env_remove E then set_files (delete tmp) else ret tt.

(** [_atomic_write_text].  When [mkstemp] raises, [fd] and [tmp_path] are
    still [None] and the [finally] block does nothing.  After it, [tmp_path]
    is reset to [None] only once [os.replace] has returned, so the [finally]
    block removes the temporary file exactly when the write or the rename
    raised; closing [fd] does not touch any file content. *)
Definition _atomic_write_text (p : path) (content : string) : M unit :=
  _ensure_parent_dir p ;;;
  tmp <- mkstemp p ;;
  try_except (write_all tmp content ;;; os_replace tmp p)
             (fun e => remove_quietly tmp ;;; raise e).

End WithEnv.
End AtomicWrite.

(** Ordering shared by the two [validated.sort(key=...)] calls: a stable
    sort on the key pair (module, lower-cased title). *)
Module SortKey.

Definition key_le (a b : string * string) : bool :=
  String.ltb (fst a) (fst b)
  || (String.eqb (fst a) (fst b) && String.leb (snd a) (snd b)).

Fixpoint insert_by {A} (k : string * string) (x : A)
    (l : list (string * string * A)) : list (string * string * A) :=
  match l with
  | [] => [(k, x)]
  | (k', y) :: r =>
      if key_le k k' then (k, x) :: l else (k', y) :: insert_by k x r
  end.

(** [list.sort] on elements paired with their keys; equal keys keep their
    order. *)
Definition sort_by {A} (l : list (string * string * A)) : list A :=
  map snd (fold_right (fun kx acc => insert_by (fst kx) (snd kx) acc) [] l).

End SortKey.

Module JsonExporter.
Import Models Registry.
Section WithEnv.
Variable E : Env.

Definition json_export_error (msg : string) : exn := Exc JSONExportError msg.

(** [_now_iso] *)
Definition _now_iso : M string :=
  d <- now_utc E ;; ret (env_isoformat E d).

(** [_validate_items], from index [i].  The third test, that the instance
    has a callable [to_json_safe], holds of every [PayloadTemplate]. *)
Fixpoint _validate_items_from (i : nat) (items : list obj)
  : result (list PayloadTemplate) :=
  match items with
  | [] => Ok []
  | IOther v :: _ =>
      Raise (json_export_error
        ("Item at index " ++ Text.str_nat i ++ " is not PayloadTemplate (got "
         ++ type_repr v ++ ")."))
  | ITemplate item :: rest =>
      if negb (is_True (disabled_by_default item)) then
        Raise (json_export_error
          ("Item at index " ++ Text.str_nat i
           ++ " violates safety: disabled_by_default must be True."))
      else
        validated <~ _validate_items_from (S i) rest ;;
        Ok (item :: validated)
  end.

Definition _validate_items (items : list obj) : result (list PayloadTemplate) :=
  _validate_items_from 0 items.

(** [(x.title or "").lower()] *)
Definition title_key (h : gmap loc (list value)) (v : value) : result string :=
  match v with
  | VStr t => Ok (Text.lower t)
  | _ =>
      if value_truthy h v
      then Raise (Exc AttributeError
             ("'" ++ type_name v ++ "' object has no attribute 'lower'"))
      else Ok ""
  end.

(** The keys [validated.sort] computes before it reorders anything. *)
Fixpoint sort_keys (h : gmap loc (list value)) (l : list PayloadTemplate)
  : result (list (string * string * PayloadTemplate)) :=
  match l with
  | [] => Ok []
  | x :: r =>
      k <~ title_key h (title x) ;;
      ks <~ sort_keys h r ;;
      Ok ((module x, k, x) :: ks)
  end.

Definition reserved : list string := ["schema"; "exported_at"; "count"; "payloads"].

(** [reserved.intersection(meta.keys())] *)
Definition collisions (meta : list (string * value)) : list string :=
  filter (fun k => Text.mem k (map fst meta)) reserved.

(** Lines 120-138: the wrapper document with its optional [meta], or the
    bare list of payloads. *)
Definition build_doc (payloads : list json) (include_wrapper : bool)
    (meta : option (list (string * value))) : M json :=
  if include_wrapper then
    exported_at <- _now_iso ;;
    let doc :=
      [ ("schema", JVal (VStr "proteus.payloads.v1"));
        ("exported_at", JVal (VStr exported_at));
        ("count", JVal (VInt (Z.of_nat (length payloads))));
        ("payloads", JArr payloads) ] in
    match meta with
    | Some ((_ :: _) as m) =>
        match collisions m with
        | [] =>
            ret (JObj (doc ++ [("meta", JObj (map (fun kv => (fst kv, JVal (snd kv))) m))])%list)
        | cs =>
            raise (json_export_error
              ("meta contains reserved keys: " ++ Text.repr_names (Text.sorted cs)))
        end
    | _ => ret (JObj doc)
    end
  else ret (JArr payloads).

(** The [try] block of [export_json]. *)
Definition export_json_body (items : list obj) (out : path)
    (pretty include_wrapper : bool) (meta : option (list (string * value)))
  : M path :=
  validated <- lift (_validate_items items) ;;
  s <- get ;;
  keyed <- lift (sort_keys (heap s) validated) ;;
  let payloads := map (to_json_safe E (heap s)) (SortKey.sort_by keyed) in
  doc <- build_doc payloads include_wrapper meta ;;
  json_text <- lift (env_dumps E pretty doc) ;;
  AtomicWrite._atomic_write_text E out (json_text ++ nl) ;;;
  ret out.

Definition export_json (items : list obj) (output_path : string)
    (pretty include_wrapper : bool) (meta : option (list (string * value)))
  : M path :=
  let out := env_Path E output_path in
  try_except (export_json_body items out pretty include_wrapper meta)
    (fun e =>
       if decide (exn_cls e = JSONExportError) then raise e
       else raise (ExcFrom JSONExportError ("JSON export failed: " ++ str_exn e) e)).

(** [JSONExporter().export(items, output_path, meta=meta)] *)
Definition export (items : list obj) (output_path : string)
    (meta : option (list (string * value))) : M path :=
  export_json items output_path true true meta.

End WithEnv.
End JsonExporter.

Module TxtExporter.
Import Models Registry.
Section WithEnv.
Variable E : Env.

Definition txt_export_error (msg : string) : exn := Exc TXTExportError msg.

Definition _now_iso_utc : M string :=
  d <- now_utc E ;; ret (env_isoformat E d).

(** [_validate_items], from index [i]. *)
Fixpoint _validate_items_from (i : nat) (items : list obj)
  : result (list PayloadTemplate) :=
  match items with
  | [] => Ok []
  | IOther v :: _ =>
      Raise (txt_export_error
        ("Item at index " ++ Text.str_nat i ++ " is not PayloadTemplate (got "
         ++ type_repr v ++ ")."))
  | ITemplate item :: rest =>
      if negb (is_True (disabled_by_default item)) then
        Raise (txt_export_error
          ("Item at index " ++ Text.str_nat i
           ++ " violates safety: disabled_by_default must be True."))
      else
        validated <~ _validate_items_from (S i) rest ;;
        Ok (item :: validated)
  end.

Definition _validate_items (items : list obj) : result (list PayloadTemplate) :=
  _validate_items_from 0 items.

(** [str(v)]; the text of a list comes from the interpreter. *)
Definition str_value (h : gmap loc (list value)) (v : value) : string :=
  match v with
  | VNone => "None"
  | VBool true => "True"
  | VBool false => "False"
  | VInt z => NilEmpty.string_of_int (Z.to_int z)
  | VStr s => s
  | VRef _ => env_str E h v
  end.

(** [_safe_str] on a dynamic value, on a [str], on an [Optional[str]]. *)
Definition _safe_str (h : gmap loc (list value)) (v : value) : string :=
  match v with
  | VNone => ""
  | _ => Text.strip (str_value h v)
  end.

Definition _safe_str_opt (o : option string) : string :=
  match o with None => "" | Some s => Text.strip s end.

(** [_get_list_field(item, name)] for the one name it is called with. *)
Definition _get_list_field (h : gmap loc (list value)) (v : value) : list string :=
  if value_truthy h v then
    match v with
    | VRef l =>
        filter (fun x => negb (Text.blank x)) (map (str_value h) (deref h l))
    | VStr s => if Text.blank s then [] else [Text.strip s]
    | _ => []
    end
  else [].

(** [c * n] for a one-character string. *)
Definition times (c : ascii) (n : Z) : string :=
  string_of_list_ascii (repeat c (Z.to_nat n)).

(** [if cond: lines.append(...)] *)
Definition line_if (cond : bool) (ls : list string) : list string :=
  if cond then ls else [].

Definition nonempty (s : string) : bool := negb (String.eqb s "").
Definition nonnil {A} (l : list A) : bool :=
  match l with [] => false | _ => true end.

(** The lines one record contributes, [idx] counting from 1. *)
Definition item_lines (h : gmap loc (list value)) (sep sub : string)
    (idx : nat) (item : PayloadTemplate) : list string :=
  let title_ := _safe_str h (title item) in
  let module_ := Text.strip (module item) in
  let description_ := Text.strip (description item) in
  let payload_ := _safe_str h (payload item) in
  let risk_level_ := Text.strip (risk_level item) in
  let disabled := if value_truthy h (disabled_by_default item) then "Yes" else "No" in
  let context_ := _safe_str_opt (context item) in
  let db_type_ := _safe_str_opt (db_type item) in
  let os_type_ := _safe_str_opt (os_type item) in
  let tags_ := Text.sorted (remove_dups (_get_list_field h (tags item))) in
  let encodings := _get_list_field h (VRef (encoding_applied item)) in
  let obfuscations := _get_list_field h (VRef (obfuscation_applied item)) in
  let defensive_notes_ := Text.strip (defensive_notes item) in
  concat
    [ [ "[" ++ Text.str_nat idx ++ "] " ++ title_;
        sub;
        "Module      : " ++ module_;
        "Created at  : " ++ env_isoformat E (created_at item);
        "Risk Level  : " ++ risk_level_;
        "Disabled    : " ++ disabled ];
      line_if (nonempty context_) ["Context     : " ++ context_];
      line_if (nonempty db_type_) ["DB Type     : " ++ db_type_];
      line_if (nonempty os_type_) ["OS Type     : " ++ os_type_];
      line_if (nonnil tags_) ["Tags        : " ++ Text.join ", " tags_];
      line_if (nonnil encodings) ["Encodings   : " ++ Text.join ", " encodings];
      line_if (nonnil obfuscations) ["Obfuscations: " ++ Text.join ", " obfuscations];
      line_if (nonempty description_) [""; "Description:"; description_];
      [ ""; "Payload Template (Non-Executing Marker):";
        if nonempty payload_ then payload_ else "<<EMPTY_PAYLOAD_MARKER>>" ];
      line_if (nonempty defensive_notes_) [""; "Defensive Notes:"; defensive_notes_];
      [ ""; sep; "" ] ].

(** [for idx, item in enumerate(validated, start=1)] *)
Fixpoint all_item_lines (h : gmap loc (list value)) (sep sub : string)
    (idx : nat) (l : list PayloadTemplate) : list string :=
  match l with
  | [] => []
  | item :: r => (item_lines h sep sub idx item ++ all_item_lines h sep sub (S idx) r)%list
  end.

(** [sorted(meta.keys(), key=str)] and the line printed for each key. *)
Definition meta_lines (h : gmap loc (list value)) (meta : list (string * value))
  : list string :=
  map (fun k => "  - " ++ k ++ ": "
                ++ match Encoder.lookup k meta with
                   | Some v => str_value h v
                   | None => ""
                   end)
      (Text.sorted (map fst meta)).

(** Lines 126-138: the header block. *)
Definition header_lines (h : gmap loc (list value)) (count : nat) (sep : string)
    (include_header : bool) (meta : option (list (string * value)))
  : M (list string) :=
  if include_header then
    now <- _now_iso_utc ;;
    ret (concat
      [ [ "Proteus Payload Catalog (Education-Only)";
          "Schema        : proteus.payloads.v1";
          "Exported at   : " ++ now;
          "Total entries : " ++ Text.str_nat count ];
        match meta with
        | Some ((_ :: _) as m) => "Metadata:" :: meta_lines h m
        | _ => []
        end;
        [ sep; "" ] ])
  else ret [].

(** The [try] block of [export_txt]. *)
Definition export_txt_body (items : list obj) (out : path)
    (include_header : bool) (meta : option (list (string * value)))
    (line_width : Z) : M path :=
  validated <- lift (_validate_items items) ;;
  s <- get ;;
  let h := heap s in
  let ordered :=
    SortKey.sort_by
      (map (fun x => (module x, Text.lower (_safe_str h (title x)), x)) validated) in
  let sep := times "=" line_width in
  let sub := times "-" line_width in
  header <- header_lines h (length validated) sep include_header meta ;;
  let lines := (header ++ all_item_lines h sep sub 1 ordered)%list in
  let content := Text.rstrip (Text.join nl lines) ++ nl in
  AtomicWrite._atomic_write_text E out content ;;;
  ret out.

Definition export_txt (items : list obj) (output_path : string)
    (include_header : bool) (meta : option (list (string * value)))
    (line_width : Z) : M path :=
  let out := env_Path E output_path in
  try_except (export_txt_body items out include_header meta line_width)
    (fun e =>
       if decide (exn_cls e = TXTExportError) then raise e
       else raise (ExcFrom TXTExportError ("TXT export failed: " ++ str_exn e) e)).

(** [TXTExporter().export(items, output_path, meta=meta)] *)
Definition export (items : list obj) (output_path : string)
    (meta : option (list (string * value))) : M path :=
  export_txt items output_path true meta 72.

End WithEnv.
End TxtExporter.

(* ===================================================================== *)
(** ** Pipeline: core/pipeline.py *)
(* ===================================================================== *)

Module Pipeline.
Import Models Registry.
Section WithEnv.
Variable E : Env.

Definition pipeline_error (msg : string) : exn := Exc PipelineError msg.

(** [item.payload]; an object that is not a record has no such attribute. *)
Definition payload_of (item : obj) : result value :=
  match item with
  | ITemplate t => Ok (payload t)
  | IOther v =>
      Raise (Exc AttributeError
        ("'" ++ type_name v ++ "' object has no attribute 'payload'"))
  end.

(** [item.clone_with_updates(payload=new_payload)] *)
Definition clone_with_payload (item : obj) (new_payload : string) : M PayloadTemplate :=
  match item with
  | ITemplate t => clone_with_updates t [kw_payload (VStr new_payload)]
  | IOther v =>
      raise (Exc AttributeError
        ("'" ++ type_name v ++ "' object has no attribute 'clone_with_updates'"))
  end.

(** [PayloadPipeline.generate]; [self.registry] is [registry]. *)
Definition generate (registry : ModuleRegistry) (module_name : string)
    (db_type os_type context : option string) : M (list obj) :=
  try_except (Registry.generate registry module_name db_type os_type context)
    (fun e => raise (ExcFrom PipelineError ("Generation failed: " ++ str_exn e) e)).

(** The loop of [apply_encoding_to_all]; [out] is returned at the end. *)
Fixpoint apply_encoding_to_all (items : list obj) (method : string) : M (list obj) :=
  match items with
  | [] => ret []
  | item :: rest =>
      new_payload <-
        try_except
          (lift (p <~ payload_of item ;; Encoder.encode_payload p (Some method)))
          (fun e => raise (ExcFrom PipelineError
                      ("Encoding '" ++ method ++ "' failed: " ++ str_exn e) e)) ;;
      new_item <- clone_with_payload item new_payload ;;
      add_encoding new_item method ;;;
      out <- apply_encoding_to_all rest method ;;
      ret (ITemplate new_item :: out)
  end.

Fixpoint apply_obfuscation_to_all (items : list obj) (technique : string) : M (list obj) :=
  match items with
  | [] => ret []
  | item :: rest =>
      new_payload <-
        try_except
          (lift (p <~ payload_of item ;; Obfuscator.obfuscate_payload p (Some technique)))
          (fun e => raise (ExcFrom PipelineError
                      ("Obfuscation '" ++ technique ++ "' failed: " ++ str_exn e) e)) ;;
      new_item <- clone_with_payload item new_payload ;;
      add_obfuscation new_item technique ;;;
      out <- apply_obfuscation_to_all rest technique ;;
      ret (ITemplate new_item :: out)
  end.

(** The keyword arguments of [run]. *)
Record run_args := {
  arg_module : string;
  arg_db_type : option string;
  arg_os_type : option string;
  arg_context : option string;
  arg_encoding : option string;
  arg_obfuscation : option string;
  arg_export_format : option string;
  arg_output_path : option string;
  arg_meta : option (list (string * value));
}.

Definition run (registry : ModuleRegistry) (a : run_args) : M (list obj) :=
  items <- generate registry (arg_module a) (arg_db_type a) (arg_os_type a)
             (arg_context a) ;;
  items <- match arg_encoding a with
           | Some (String _ _ as encoding) => apply_encoding_to_all items encoding
           | _ => ret items
           end ;;
  items <- match arg_obfuscation a with
           | Some (String _ _ as obfuscation) => apply_obfuscation_to_all items obfuscation
           | _ => ret items
           end ;;
  match arg_export_format a with
  | Some (String _ _ as export_format) =>
      match arg_output_path a with
      | Some (String _ _ as output_path) =>
          if String.eqb export_format "json" then
            JsonExporter.export E items output_path (arg_meta a) ;;; ret items
          else if String.eqb export_format "txt" then
            TxtExporter.export E items output_path (arg_meta a) ;;; ret items
          else
            raise (pipeline_error
              ("Unsupported export format '" ++ export_format ++ "'."))
      | _ => raise (pipeline_error "Output path required when export_format is set.")
      end
  | _ => ret items
  end.

(** [run_pipeline]: a fresh [PayloadPipeline] holds the global registry. *)
Definition run_pipeline (a : run_args) : M (list obj) :=
  run (Shipped.get_registry E) a.

End WithEnv.
End Pipeline.

(* ===================================================================== *)
(** ** Command line: cli.py *)
(* ===================================================================== *)

(** The two helpers of [cli.py] that decide before the pipeline runs.
    [main] itself parses with [argparse] and reports with [print]; it is
    not embedded. *)
Module Cli.

(** A call that returns or raises [CLIError], the one exception these
    helpers raise. *)
Inductive outcome (A : Type) :=
  | Done (a : A)
  | CLIError (msg : string).
Arguments Done {A} a.
Arguments CLIError {A} msg.

(** [s.split(sep, 1)] when [sep in s]: the text before the first [sep] and
    the text after it. *)
Fixpoint split_once (sep : ascii) (s : string) : option (string * string) :=
  match s with
  | EmptyString => None
  | String c r =>
      if Ascii.eqb c sep then Some (EmptyString, r)
      else match split_once sep r with
           | Some (a, b) => Some (String c a, b)
           | None => None
           end
  end.

(** [d[k] = v] on a dict given by its items in insertion order: a key that
    is present keeps its place. *)
Fixpoint dict_set (k v : string) (d : list (string * string)) : list (string * string) :=
  match d with
  | [] => [(k, v)]
  | (k', v') :: r =>
      if String.eqb k k' then (k, v) :: r else (k', v') :: dict_set k v r
  end.

(** The loop [for pair in meta_args] of [_parse_meta], [meta] being the
    dict built so far. *)
Fixpoint parse_pairs (meta_args : list string) (meta : list (string * string))
  : outcome (list (string * string)) :=
  match meta_args with
  | [] => Done meta
  | arg :: rest =>
      match split_once "=" arg with
      | None => CLIError ("Invalid meta '" ++ arg ++ "'. Expected key=value.")
      | Some (key, value) =>
          let key := Text.strip key in
          if String.eqb key "" then
            CLIError ("Invalid meta '" ++ arg ++ "'. Key must be non-empty.")
          else parse_pairs rest (dict_set key (Text.strip value) meta)
      end
  end.

Definition _parse_meta (meta_args : option (list string))
  : outcome (option (list (string * string))) :=
  match meta_args with
  | None | Some [] => Done None
  | Some args =>
      match parse_pairs args [] with
      | Done meta => Done (Some meta)
      | CLIError msg => CLIError msg
      end
  end.

Definition _enforce_selectors (module : string) (context db os_type : option string)
  : outcome unit :=
  if String.eqb module "xss" && negb (truthy context) then
    CLIError "Module 'xss' requires --context {html,attr,js}."
  else if String.eqb module "sqli" && negb (truthy db) then
    CLIError "Module 'sqli' requires --db {mysql,postgres,mssql}."
  else if String.eqb module "cmd" && negb (truthy os_type) then
    CLIError "Module 'cmd' requires --os {linux,windows}."
  else Done tt.

End Cli.

(* ===================================================================== *)
(** ** Sample inputs *)
(* ===================================================================== *)

(** A concrete environment, state and records, on which the definitions
    above can be run. *)
Module Sample.
Import Models Registry.

Definition env : Env := {|
  env_uuid4 := fun n => "00000000-0000-4000-8000-" ++ Text.str_nat n;
  env_now := fun n => Z.of_nat n;
  env_isoformat := fun _ => "2026-01-01T00:00:00+00:00";
  env_str := fun _ _ => "[]";
  env_dumps := fun _ _ => Ok "{}";
  env_Path := fun s => (".", s);
  env_mkdir := true;
  env_mkstemp := Some "k3x9";
  env_write := None;
  env_replace := true;
  env_remove := true;
|}.

(** Nothing allocated, no file, no directory. *)
Definition empty_state : state := State ∅ ∅ ∅ 0.

(** A heap with three list objects: an encoding history, an obfuscation
    history and a tag list, all empty but the last. *)
Definition three_lists : state :=
  State (<[0 := []]> (<[1 := []]> (<[2 := [VStr "education-only"]]> ∅))) ∅ ∅ 0.

(** The record [make_payload()] of tests/test_exporters.py builds, its lists
    at the addresses of [three_lists]. *)
Definition make_payload : PayloadTemplate := {|
  id_ := "00000000-0000-4000-8000-0";
  module := "xss";
  title := VStr "Test Payload";
  description := "Test description";
  payload := VStr "<<XSS_TEMPLATE:TEST|CONTEXT=html|NON_EXECUTING>>";
  context := Some "html";
  db_type := None;
  os_type := None;
  encoding_applied := 0;
  obfuscation_applied := 1;
  tags := VRef 2;
  defensive_notes := "Test notes";
  risk_level := "low";
  disabled_by_default := VBool true;
  created_at := Datetime 0 (Some utc);
|}.

(** [make_payload()] after [bad.disabled_by_default = False]. *)
Definition flag_off : PayloadTemplate :=
  with_kwargs make_payload [kw_disabled_by_default (VBool false)].

(** The state [three_lists] with an earlier export at ./out.json. *)
Definition with_old_file : state :=
  State (heap three_lists) (<[(".", "out.json") := "old content"]> ∅) ∅ 0.

(** An operating system on which the write stops after 5 characters, and
    one on which the final rename fails. *)
Definition write_fails : Env := {|
  env_uuid4 := env_uuid4 env; env_now := env_now env;
  env_isoformat := env_isoformat env; env_str := env_str env;
  env_dumps := env_dumps env; env_Path := env_Path env;
  env_mkdir := true; env_mkstemp := Some "k3x9";
  env_write := Some 5; env_replace := true; env_remove := true;
|}.

Definition rename_fails : Env := {|
  env_uuid4 := env_uuid4 env; env_now := env_now env;
  env_isoformat := env_isoformat env; env_str := env_str env;
  env_dumps := env_dumps env; env_Path := env_Path env;
  env_mkdir := true; env_mkstemp := Some "k3x9";
  env_write := None; env_replace := false; env_remove := false;
|}.

(** A generator returning the one record above, and a registry holding it. *)
Definition one_record : GeneratorFunction :=
  fun _ _ => ret (RList [ITemplate make_payload]).

Definition second_not_a_record : GeneratorFunction :=
  fun _ _ => ret (RList [ITemplate make_payload; IOther (VStr "x")]).

Definition not_a_list : GeneratorFunction :=
  fun _ _ => ret (ROther (VInt 7)).

Definition xss_only (g : GeneratorFunction) : ModuleRegistry :=
  <["xss" := Build_ModuleSpec "xss" g false false]> ∅.

End Sample.

(* ===================================================================== *)
(** ** Vocabulary of the properties *)
(* ===================================================================== *)

(** Predicates in which the properties below are stated. *)
Module Spec.
Import Models Registry.

(** What a record must satisfy for [_validate] to return. *)
Record valid (h : gmap loc (list value)) (self : PayloadTemplate) : Prop := {
  valid_module : Text.mem (module self) VALID_MODULES = true;
  valid_title : not_text (title self) = false;
  valid_payload : not_text (payload self) = false;
  valid_risk : Text.mem (risk_level self) VALID_RISK_LEVELS = true;
  valid_disabled : disabled_by_default self = VBool true;
  valid_tags : validate_tags h (tags self) = Ok tt;
  valid_selectors : validate_selectors_of self = Ok tt;
  valid_created : is_Some_bool (tzinfo (created_at self)) = true;
}.

(** The value of [disabled_by_default] among keyword arguments, if given. *)
Definition given_disabled (kwargs : list kwarg) : option value :=
  given (fun k => match k with kw_disabled_by_default x => Some x | _ => None end) kwargs.

(** The six module/selector combinations a record must not have. *)
Definition forbidden_combination (r : PayloadTemplate) : Prop :=
  (module r = "xss" /\ db_type r <> None)
  \/ (module r = "xss" /\ os_type r <> None)
  \/ (module r = "sqli" /\ context r <> None)
  \/ (module r = "sqli" /\ os_type r <> None)
  \/ (module r = "cmd" /\ context r <> None)
  \/ (module r = "cmd" /\ db_type r <> None).

(** The selector named by [module] holds one of its allowed values and the
    other two are [None]. *)
Definition one_selector (r : PayloadTemplate) : Prop :=
  (module r = "xss"
   /\ (exists c, context r = Some c /\ In c VALID_XSS_CONTEXTS)
   /\ db_type r = None /\ os_type r = None)
  \/ (module r = "sqli"
      /\ (exists d, db_type r = Some d /\ In d VALID_DB_TYPES)
      /\ context r = None /\ os_type r = None)
  \/ (module r = "cmd"
      /\ (exists o, os_type r = Some o /\ In o VALID_OS_TYPES)
      /\ context r = None /\ db_type r = None).

(** An element that the re-validation of [Registry.generate] rejects: not a
    record, or a record that breaks one of the invariants. *)
Definition offending (h : gmap loc (list value)) (o : obj) : Prop :=
  match o with
  | IOther _ => True
  | ITemplate t => ~ valid h t
  end.

(** The exception [e] names module [name] and index [i] for the rejected
    element [o]. *)
Definition names_offender (name : string) (h : gmap loc (list value))
    (i : nat) (o : obj) (e : exn) : Prop :=
  match o with
  | IOther _ =>
      e = Exc RegistryError
            ("Item " ++ Text.str_nat i ++ " from module '" ++ name
             ++ "' is not PayloadTemplate.")
  | ITemplate t =>
      exists e0,
        _validate h t = Raise e0
        /\ e = ExcFrom PayloadValidationError
                 ("Invalid payload from module '" ++ name ++ "' at index "
                  ++ Text.str_nat i ++ ": " ++ str_exn e0) e0
  end.

(** The marker the obfuscation guard looks for, said without the pattern:
    a "<<" followed somewhere by a ">>", or the letters of TEMPLATE in
    either case. *)
Definition contains_bracketed_marker (s : string) : Prop :=
  exists a b c, s = a ++ "<<" ++ b ++ ">>" ++ c.

Definition contains_word_TEMPLATE (s : string) : Prop :=
  exists a w c, s = a ++ w ++ c /\ Text.lower w = "template".

(** The history of [o] in heap [h] includes [technique]. *)
Definition obfuscated_with (h : gmap loc (list value)) (technique : string)
    (o : obj) : Prop :=
  exists t, o = ITemplate t /\ In (VStr technique) (deref h (obfuscation_applied t)).

(** Lists only grow from [h] to [h']. *)
Definition grows (h h' : gmap loc (list value)) : Prop :=
  forall l v, In v (deref h l) -> In v (deref h' l).

(** Every run of [m] relates the state before to the state after by [R],
    whether it returns or raises. *)
Definition preserves {A} (R : state -> state -> Prop) (m : M A) : Prop :=
  forall s r s', m s = (r, s') -> R s s'.

(** No list object and no file has changed. *)
Definition same_store (s s' : state) : Prop :=
  heap s' = heap s /\ files s' = files s.

(** An element an exporter must refuse. *)
Definition not_exportable (o : obj) : Prop :=
  match o with
  | IOther _ => True
  | ITemplate t => disabled_by_default t <> VBool true
  end.

(** The characters [binascii.hexlify] produces: 0-9 and a-f. *)
Definition is_hex (c : ascii) : bool :=
  Text.between 48 57 (Text.ord c) || Text.between 97 102 (Text.ord c).

(** Every character of [s] satisfies [P]. *)
Fixpoint all_chars (P : ascii -> bool) (s : string) : bool :=
  match s with
  | EmptyString => true
  | String c r => P c && all_chars P r
  end.


(** Lists of strings stay lists of strings from [h] to [h']. *)
Definition keeps_strings (h h' : gmap loc (list value)) : Prop :=
  forall l, forallb is_str (deref h l) = true -> forallb is_str (deref h' l) = true.

(** [o] is a record that passes [_validate] in heap [h]. *)
Definition valid_record (h : gmap loc (list value)) (o : obj) : Prop :=
  exists t, o = ITemplate t /\ valid h t.


(** *** Vocabulary of the further properties *)

(** The characters of base64 text: the alphabet and the padding sign. *)
Definition is_b64 (c : ascii) : bool :=
  existsb (Ascii.eqb c) (list_ascii_of_string (Encoder.b64_alphabet ++ "=")).

(** An unreserved character of a URL: a letter, a digit, or one of [_.-~]. *)
Definition is_unreserved (c : ascii) : bool := Encoder.always_safe (Text.ord c).

(** A character of percent-encoded text. *)
Definition is_url_char (c : ascii) : bool :=
  is_unreserved c || Ascii.eqb c "%".

(** The value of a hex digit, lower or upper case. *)
Definition hex_val (c : ascii) : option N :=
  let n := Text.ord c in
  if Text.between 48 57 n then Some (n - 48)%N
  else if Text.between 97 102 n then Some (n - 87)%N
  else if Text.between 65 70 n then Some (n - 55)%N
  else None.

(** The byte written as two hex digits at the head of a text, and the rest. *)
Definition hex_head_byte (s : string) : option (N * string) :=
  match s with
  | String h (String l r) =>
      match hex_val h, hex_val l with
      | Some a, Some b => Some ((16 * a + b)%N, r)
      | _, _ => None
      end
  | _ => None
  end.

(** The character whose UTF-8 bytes, in hex, head a text, and the rest. *)
Definition hex_head_char (s : string) : option (ascii * string) :=
  match hex_head_byte s with
  | Some (b, r) =>
      if (b <? 128)%N then Some (Text.chr b, r)
      else
        match hex_head_byte r with
        | Some (b', r') => Some (Text.chr ((b - 192) * 64 + (b' - 128)), r')
        | None => None
        end
  | None => None
  end.

(** The byte at the head of percent-encoded text, and the rest. *)
Definition url_head_byte (s : string) : option (N * string) :=
  match s with
  | String "%" r => hex_head_byte r
  | String c r => Some (Text.ord c, r)
  | EmptyString => None
  end.

Definition url_head_char (s : string) : option (ascii * string) :=
  match url_head_byte s with
  | Some (b, r) =>
      if (b <? 128)%N then Some (Text.chr b, r)
      else
        match url_head_byte r with
        | Some (b', r') => Some (Text.chr ((b - 192) * 64 + (b' - 128)), r')
        | None => None
        end
  | None => None
  end.

(** A text free of line breaks. *)
Definition one_line (s : string) : bool :=
  all_chars (fun c => negb (Ascii.eqb c Obfuscator.newline)) s.

(** Some "<<" of the text is followed by a ">>" further on the same line. *)
Definition has_bracket_marker (s : string) : Prop :=
  exists a b c, s = a ++ "<<" ++ b ++ ">>" ++ c /\ one_line b = true.

(** The mixed white space a single space is replaced with. *)
Definition mixed_space : string :=
  String " " (String "009" (String " " EmptyString)).

(** No file and no directory has changed. *)
Definition same_files (s s' : state) : Prop :=
  files s' = files s /\ dirs s' = dirs s.

(** [t'] is [t] with another payload: every other field is the same, the
    list fields being the same objects. *)
Definition same_but_payload (t t' : PayloadTemplate) : Prop :=
  id_ t' = id_ t /\ module t' = module t /\ title t' = title t
  /\ description t' = description t
  /\ context t' = context t /\ db_type t' = db_type t /\ os_type t' = os_type t
  /\ encoding_applied t' = encoding_applied t
  /\ obfuscation_applied t' = obfuscation_applied t
  /\ tags t' = tags t /\ defensive_notes t' = defensive_notes t
  /\ risk_level t' = risk_level t
  /\ disabled_by_default t' = disabled_by_default t
  /\ created_at t' = created_at t.

(** [o'] is the record [o] with its payload rewritten by [transform]. *)
Definition rewritten_by (transform : value -> result string) (o o' : obj) : Prop :=
  exists t t' out,
    o = ITemplate t /\ o' = ITemplate t'
    /\ transform (payload t) = Ok out
    /\ payload t' = VStr out /\ same_but_payload t t'.

(** Ascending by code points, as [sorted] leaves a list of names. *)
Definition ascending (l : list string) : Prop :=
  Sorted (fun a b => String.leb a b = true) l.

(** In key order, as [list.sort(key=...)] leaves the keyed elements. *)
Definition in_key_order {A} (l : list (string * string * A)) : Prop :=
  Sorted (fun a b => SortKey.key_le (fst a) (fst b) = true) l.

(** Every system call of one atomic write to [p] from state [s] succeeds:
    the directory can be made, the temporary name is free, the write and
    the rename go through. *)
Definition write_succeeds (E : Env) (p : path) (s : state) : Prop :=
  env_mkdir E = true /\ env_write E = None /\ env_replace E = true
  /\ exists rnd, env_mkstemp E = Some rnd
                 /\ files s !! AtomicWrite.tmp_of p rnd = None.

(** A record an exporter accepts: its flag is [True]. *)
Definition exportable (o : obj) : Prop :=
  exists t, o = ITemplate t /\ disabled_by_default t = VBool true.

(** The state an atomic write that succeeds leaves. *)
Definition written (p : path) (content : string) (s : state) : state :=
  State (heap s) (<[p := content]> (files s)) ({[ fst p ]} ∪ dirs s) (draws s).

(** From [s] to [s'] list objects were only allocated: every list of [s]
    is unchanged, lists of strings are still lists of strings, and no file
    or directory has changed. *)
Definition only_allocates (s s' : state) : Prop :=
  heap s ⊆ heap s' /\ keeps_strings (heap s) (heap s') /\ same_files s s'.

(** The text is "<<", some single line, ">>". *)
Definition in_brackets (p : string) : bool :=
  let b := String.substring 2 (String.length p - 4) p in
  String.eqb p ("<<" ++ b ++ ">>") && one_line b.

(** A record as the shipped generators build them: valid in heap [h], of
    module [m] with the selectors given, its payload a text with a
    bracketed marker. *)
Definition shipped_record (h : gmap loc (list value)) (m : string)
    (c d o : option string) (x : obj) : Prop :=
  exists t p,
    x = ITemplate t /\ valid h t /\ module t = m
    /\ context t = c /\ db_type t = d /\ os_type t = o
    /\ payload t = VStr p /\ has_bracket_marker p.

(** The list objects a record holds: its tag list, when [tags] is a list,
    and its two histories. *)
Definition lists_of (x : obj) : list loc :=
  match x with
  | ITemplate t =>
      (match tags t with VRef l => [l] | _ => [] end
       ++ [encoding_applied t; obfuscation_applied t])%list
  | IOther _ => []
  end.

(** The records of [items] share no list object, with one another or
    between their own fields, and every list they hold was made between
    [s] and [s']. *)
Definition separate (s s' : state) (items : list obj) : Prop :=
  NoDup (concat (map lists_of items))
  /\ Forall (fun l => heap s !! l = None /\ is_Some (heap s' !! l))
            (concat (map lists_of items)).

(** Each constructor call of a generator returns such a record and only
    allocates. *)
Definition builds (m : string) (c d o : option string) (ms : list (M obj)) : Prop :=
  Forall (fun mk => forall s, exists a s',
              mk s = (Ok a, s')
              /\ shipped_record (heap s') m c d o a /\ only_allocates s s'
              /\ separate s s' [a]) ms.

(** The run is asked to export, to a path, in a format that exists. *)
Definition export_target (a : Pipeline.run_args) : bool :=
  truthy (Pipeline.arg_export_format a) && truthy (Pipeline.arg_output_path a)
  && (String.eqb (or_empty (Pipeline.arg_export_format a)) "json"
      || String.eqb (or_empty (Pipeline.arg_export_format a)) "txt").

(** A [key=value] argument [_parse_meta] accepts: it holds an "=", and the
    text before the first one is not blank. *)
Definition meta_pair (arg : string) : Prop :=
  exists key value,
    Cli.split_once "=" arg = Some (key, value) /\ Text.strip key <> "".

(** The value the arguments bind [k] to: that of the last argument whose
    trimmed key is [k]. *)
Fixpoint bound (k : string) (meta_args : list string) : option string :=
  match meta_args with
  | [] => None
  | arg :: rest =>
      match bound k rest with
      | Some v => Some v
      | None =>
          match Cli.split_once "=" arg with
          | Some (key, value) =>
              if String.eqb k (Text.strip key) then Some (Text.strip value) else None
          | None => None
          end
      end
  end.

End Spec.

(* ===================================================================== *)
(** * Properties *)
(* ===================================================================== *)

(** ** Reasoning about outcomes *)

Module Outcome.

Lemma raises_intro {A} (e : exn) (c : exn_class) :
  exn_cls e = c -> raises (@Raise A e) c.
Proof. intros H. exists e. split; [reflexivity | exact H]. Qed.


Lemma rraise_if_Ok (c : bool) (e : exn) : rraise_if c e = Ok tt -> c = false.
Proof. destruct c; simpl; [discriminate | reflexivity]. Qed.

Lemma rraise_if_Raise (c : bool) (e e' : exn) :
  rraise_if c e = Raise e' -> c = true /\ e' = e.
Proof. destruct c; simpl; [intros [= ->]; auto | discriminate]. Qed.

Lemma rbind_Ok {A B} (r : result A) (k : A -> result B) (b : B) :
  rbind r k = Ok b -> exists a, r = Ok a /\ k a = Ok b.
Proof. destruct r as [a|e]; simpl; [eauto | discriminate]. Qed.

Lemma rbind_Raise {A B} (r : result A) (k : A -> result B) (e : exn) :
  rbind r k = Raise e -> r = Raise e \/ exists a, r = Ok a /\ k a = Raise e.
Proof. destruct r as [a|e']; simpl; [eauto | intros [= ->]; auto]. Qed.

Lemma bind_Ok {A B} (m : M A) (k : A -> M B) s b s' :
  bind m k s = (Ok b, s') ->
  exists a s1, m s = (Ok a, s1) /\ k a s1 = (Ok b, s').
Proof.
  unfold bind. destruct (m s) as [[a|e] s1]; [eauto | discriminate].
Qed.

(** A handler that always raises: the guarded block returned. *)
Lemma try_except_Ok {A} (m : M A) (h : exn -> M A) s a s' :
  (forall e s1, fst (h e s1) <> Ok a) ->
  try_except m h s = (Ok a, s') -> m s = (Ok a, s').
Proof.
  unfold try_except. intros Hh. destruct (m s) as [[a0|e] s1]; [auto |].
  intros H. exfalso. apply (Hh e s1). rewrite H. reflexivity.
Qed.

Lemma lift_inv {A} (r : result A) s r' s' :
  lift r s = (r', s') -> r' = r /\ s' = s.
Proof. unfold lift. intros [= <- <-]. auto. Qed.

Lemma bind_inv {A B} (m : M A) (k : A -> M B) s r s' :
  bind m k s = (r, s') ->
  (exists e, m s = (Raise e, s') /\ r = Raise e)
  \/ (exists a s1, m s = (Ok a, s1) /\ k a s1 = (r, s')).
Proof.
  unfold bind. destruct (m s) as [[a|e] s1]; [eauto |].
  intros [= <- <-]. left. eauto.
Qed.

Section Preserves.
Context (R : state -> state -> Prop).
Hypothesis R_refl : forall s, R s s.
Hypothesis R_trans : forall s1 s2 s3, R s1 s2 -> R s2 s3 -> R s1 s3.

Lemma preserves_ret {A} (a : A) : Spec.preserves R (ret a).
Proof. intros s r s' [= <- <-]. apply R_refl. Qed.

Lemma preserves_raise {A} (e : exn) : Spec.preserves R (@raise A e).
Proof. intros s r s' [= <- <-]. apply R_refl. Qed.

Lemma preserves_bind {A B} (m : M A) (k : A -> M B) :
  Spec.preserves R m -> (forall a, Spec.preserves R (k a)) ->
  Spec.preserves R (bind m k).
Proof.
  intros Hm Hk s r s' H. apply bind_inv in H.
  destruct H as [(e & H & _) | (a & s1 & H1 & H2)].
  - eapply Hm; eassumption.
  - eapply R_trans; [eapply Hm | eapply Hk]; eassumption.
Qed.

End Preserves.

End Outcome.

#[local] Hint Resolve Outcome.raises_intro : core.

(** ** Text *)

Module TextFacts.
Import Text.

Lemma rstrip_nonspace (c : ascii) (r : string) :
  isspace c = false -> rstrip (String c r) <> EmptyString.
Proof.
  intros Hc. simpl. destruct (rstrip r); [rewrite Hc |]; discriminate.
Qed.

(** A text whose first character is not white space is not blank. *)
Lemma blank_nonspace (c : ascii) (r : string) :
  isspace c = false -> blank (String c r) = false.
Proof.
  intros Hc. unfold blank, strip. simpl lstrip. rewrite Hc.
  pose proof (rstrip_nonspace c r Hc) as H.
  destruct (rstrip (String c r)); [congruence | reflexivity].
Qed.

Lemma not_blank_nonempty (s : string) : blank s = false -> s <> "".
Proof. intros H ->. discriminate H. Qed.

Lemma last_char_app (a b : string) (c : ascii) :
  last_char b = Some c -> last_char (a ++ b) = Some c.
Proof.
  intros H. induction a as [|x a IH]; simpl; [exact H |].
  rewrite IH. reflexivity.
Qed.

Lemma repr_names_last (l : list string) : last_char (repr_names l) = Some "]"%char.
Proof. unfold repr_names. do 2 apply last_char_app. reflexivity. Qed.

End TextFacts.

(** ** Encoder *)

Module EncoderFacts.
Import Encoder.

(** Whatever [encode_payload] raises is an [EncodingError]. *)
Lemma encode_payload_raises_only (payload : value) (method : option string) (e : exn) :
  encode_payload payload method = Raise e -> exn_cls e = EncodingError.
Proof.
  unfold encode_payload. destruct payload; try (intros [= <-]; reflexivity).
  destruct (Text.blank s); [intros [= <-]; reflexivity |].
  destruct (lookup _ _) as [encoder|]; [| intros [= <-]; reflexivity].
  destruct (encoder s); [discriminate | intros [= <-]; reflexivity].
Qed.

Lemma encode_blank (text : string) (method : option string) :
  Text.blank text = true ->
  encode_payload (VStr text) method = Raise (encoding_error "Payload cannot be empty.").
Proof. intros H. unfold encode_payload. rewrite H. reflexivity. Qed.

Lemma encode_non_string (v : value) (method : option string) :
  is_str v = false ->
  encode_payload v method
  = Raise (encoding_error ("Payload must be a string, got " ++ type_repr v ++ ".")).
Proof. destruct v; simpl; intros H; try reflexivity. discriminate H. Qed.

Lemma encode_unknown_method (payload : value) (method : option string) :
  is_supported_encoding method = false ->
  raises (encode_payload payload method) EncodingError.
Proof.
  unfold is_supported_encoding. intros H.
  destruct (encode_payload payload method) as [out|e] eqn:Hr.
  - exfalso. unfold encode_payload in Hr. destruct payload; try discriminate.
    destruct (Text.blank s); [discriminate |].
    destruct (lookup _ _); [discriminate H | discriminate Hr].
  - apply Outcome.raises_intro. eapply encode_payload_raises_only; eassumption.
Qed.

End EncoderFacts.

(** C9.  [encode_payload] on the three documented inputs returns
    [VEVTVA==] (base64 of TEST), [TEST%20TEMPLATE] (url of TEST TEMPLATE)
    and [54455354] (hex of TEST); and it raises an [EncodingError] for
    every input that is empty after trimming, for every input that is not a
    string, and for every method that is not one of the supported ones. *)
Theorem C9_encode_payload :
  Encoder.encode_payload (VStr "TEST") (Some "base64") = Ok "VEVTVA=="
  /\ Encoder.encode_payload (VStr "TEST TEMPLATE") (Some "url") = Ok "TEST%20TEMPLATE"
  /\ Encoder.encode_payload (VStr "TEST") (Some "hex") = Ok "54455354"
  /\ (forall (text : string) (method : option string),
        Text.strip text = "" ->
        raises (Encoder.encode_payload (VStr text) method) EncodingError)
  /\ (forall (payload : value) (method : option string),
        is_str payload = false ->
        raises (Encoder.encode_payload payload method) EncodingError)
  /\ (forall (payload : value) (method : option string),
        Encoder.is_supported_encoding method = false ->
        raises (Encoder.encode_payload payload method) EncodingError).
Proof.
  repeat split; try reflexivity.
  - intros text method H.
    rewrite EncoderFacts.encode_blank; [auto |].
    unfold Text.blank. rewrite H. reflexivity.
  - intros payload method H. rewrite EncoderFacts.encode_non_string by exact H. auto.
  - intros payload method H. apply EncoderFacts.encode_unknown_method. exact H.
Qed.

(** The three failure clauses of C9 at the inputs of tests/test_encoder.py:
    an empty payload, the integer 123, and the method "invalid". *)
Lemma C9_encode_payload_witness :
  raises (Encoder.encode_payload (VStr "") (Some "url")) EncodingError
  /\ raises (Encoder.encode_payload (VInt 123) (Some "url")) EncodingError
  /\ raises (Encoder.encode_payload (VStr "TEST") (Some "invalid")) EncodingError.
Proof.
  destruct C9_encode_payload as (_ & _ & _ & Hblank & Hstr & Hmethod).
  split; [| split].
  - apply Hblank. reflexivity.
  - apply Hstr. reflexivity.
  - apply Hmethod. reflexivity.
Defined.

(** ** Models *)

Module ModelsFacts.
Import Models Spec Outcome.

Lemma is_True_spec (v : value) : is_True v = true <-> v = VBool true.
Proof.
  split; [| intros ->; reflexivity].
  destruct v as [|[]| | |]; simpl; intros H; try discriminate H; reflexivity.
Qed.

Ltac ok_step H H1 :=
  let a := fresh "u" in
  apply rbind_Ok in H; destruct H as (a & H1 & H); destruct a;
  try (apply rraise_if_Ok in H1).

Lemma validate_Ok (h : gmap loc (list value)) (self : PayloadTemplate) (u : unit) :
  _validate h self = Ok u -> valid h self.
Proof.
  unfold _validate. intros H. destruct u.
  ok_step H Hm. ok_step H Ht. ok_step H Hp. ok_step H Hr. ok_step H Hd.
  ok_step H Htg. ok_step H Hs. apply rraise_if_Ok in H.
  apply negb_false_iff in Hm, Hr, Hd, H.
  apply is_True_spec in Hd.
  constructor; assumption.
Qed.

Lemma valid_validate (h : gmap loc (list value)) (self : PayloadTemplate) :
  valid h self -> _validate h self = Ok tt.
Proof.
  intros [Hm Ht Hp Hr Hd Htg Hs Hc]. unfold _validate.
  rewrite Hm, Ht, Hp, Hr, Hd, Htg, Hs, Hc. reflexivity.
Qed.

Ltac raise_step H :=
  match type of H with
  | rraise_if _ _ = Raise _ =>
      apply rraise_if_Raise in H; destruct H as [_ ->]; reflexivity
  | rbind _ _ = Raise _ =>
      apply rbind_Raise in H; destruct H as [H | (? & _ & H)]
  | (if ?c then _ else _) = Raise _ => destruct c
  | Ok _ = Raise _ => discriminate H
  | Raise _ = Raise _ => injection H as <-; reflexivity
  end.

Lemma validate_tags_raises_only h v e :
  validate_tags h v = Raise e -> exn_cls e = PayloadValidationError.
Proof. unfold validate_tags. intros H. destruct v; repeat raise_step H. Qed.

Lemma validate_selectors_of_raises_only self e :
  validate_selectors_of self = Raise e -> exn_cls e = PayloadValidationError.
Proof. unfold validate_selectors_of. intros H. repeat raise_step H. Qed.

(** Whatever [_validate] raises is a [PayloadValidationError]. *)
Lemma validate_raises_only h self e :
  _validate h self = Raise e -> exn_cls e = PayloadValidationError.
Proof.
  unfold _validate. intros H.
  repeat first
    [ raise_step H
    | apply validate_tags_raises_only in H; exact H
    | apply validate_selectors_of_raises_only in H; exact H ].
Qed.

(** [_validate] either returns or raises a [PayloadValidationError]. *)
Lemma validate_cases h self :
  _validate h self = Ok tt \/ raises (_validate h self) PayloadValidationError.
Proof.
  destruct (_validate h self) as [[]|e] eqn:H; [left; reflexivity | right].
  apply raises_intro. eapply validate_raises_only; eassumption.
Qed.

Lemma invalid_raises h self :
  ~ valid h self -> raises (_validate h self) PayloadValidationError.
Proof.
  intros Hn. destruct (validate_cases h self) as [H | H]; [| exact H].
  exfalso. apply Hn. eapply validate_Ok; eassumption.
Qed.


Lemma mem_In (x : string) (S : list string) : Text.mem x S = true <-> In x S.
Proof.
  unfold Text.mem. rewrite existsb_exists. split.
  - intros (y & Hy & Heq). apply String.eqb_eq in Heq. subst. exact Hy.
  - intros H. exists x. split; [exact H | apply String.eqb_refl].
Qed.

Lemma not_in_false (o : option string) (S : list string) :
  not_in o S = false -> exists x, o = Some x /\ In x S.
Proof.
  destruct o as [x|]; simpl; [| discriminate].
  intros H. apply negb_false_iff in H. exists x. split; [reflexivity |].
  apply mem_In. exact H.
Qed.

Lemma is_Some_bool_false {A} (o : option A) : is_Some_bool o = false -> o = None.
Proof. destruct o; simpl; [discriminate | reflexivity]. Qed.

(** A record that passes the selector rules, with a valid module name, has
    exactly the selector of its module. *)
Lemma selectors_Ok self :
  Text.mem (module self) VALID_MODULES = true ->
  validate_selectors_of self = Ok tt ->
  one_selector self.
Proof.
  intros Hm H. unfold validate_selectors_of in H. unfold one_selector.
  destruct (String.eqb_spec (module self) "xss") as [Hx|Hx].
  { left. ok_step H H1. ok_step H H2. apply rraise_if_Ok in H.
    apply not_in_false in H1. apply is_Some_bool_false in H2, H. auto. }
  destruct (String.eqb_spec (module self) "sqli") as [Hs|Hs].
  { right; left. ok_step H H0. ok_step H H1. ok_step H H2. apply rraise_if_Ok in H.
    apply not_in_false in H1. apply is_Some_bool_false in H2, H. auto. }
  destruct (String.eqb_spec (module self) "cmd") as [Hc|Hc].
  { right; right. ok_step H H0. ok_step H H1. ok_step H H2. apply rraise_if_Ok in H.
    apply not_in_false in H1. apply is_Some_bool_false in H2, H. auto. }
  exfalso. apply mem_In in Hm. simpl in Hm.
  destruct Hm as [Hm | [Hm | [Hm | []]]]; congruence.
Qed.

Lemma forbidden_selectors self :
  forbidden_combination self -> validate_selectors_of self <> Ok tt.
Proof.
  intros Hf H.
  assert (Hone : forall o : option string, is_Some_bool o = false -> o = None)
    by apply @is_Some_bool_false.
  unfold validate_selectors_of in H.
  destruct Hf as [[Hm Hsel] | [[Hm Hsel] | [[Hm Hsel] | [[Hm Hsel] | [[Hm Hsel] | [Hm Hsel]]]]]];
    rewrite Hm in H; simpl in H;
    repeat (let H1 := fresh "H1" in ok_step H H1);
    try apply rraise_if_Ok in H; auto.
Qed.

(** The constructor returns the fields it was given, or raises what
    [_validate] raises; the state is not touched. *)
Lemma construct_spec fields s :
  construct fields s
  = (match _validate (heap s) fields with Ok _ => Ok fields | Raise e => Raise e end, s).
Proof.
  unfold construct, validate, bind, ret.
  destruct (_validate (heap s) fields); reflexivity.
Qed.

Lemma construct_Ok fields s r s' :
  construct fields s = (Ok r, s') -> r = fields /\ s' = s /\ valid (heap s) fields.
Proof.
  rewrite construct_spec. destruct (_validate (heap s) fields) as [u|e] eqn:H.
  - intros [= <- <-]. repeat split; eapply validate_Ok; eassumption.
  - discriminate.
Qed.

Lemma construct_invalid fields s :
  ~ valid (heap s) fields ->
  raises (fst (construct fields s)) PayloadValidationError.
Proof.
  intros Hn. rewrite construct_spec. simpl.
  destruct (invalid_raises _ _ Hn) as (e & -> & He). auto.
Qed.

Lemma given_acc {A} (pick : kwarg -> option A) kwargs (acc : option A) :
  fold_left (fun acc k => match pick k with Some a => Some a | None => acc end)
            kwargs acc
  = match given pick kwargs with Some a => Some a | None => acc end.
Proof.
  unfold given. revert acc. induction kwargs as [|k ks IH]; intros acc; simpl.
  - reflexivity.
  - rewrite (IH (match pick k with Some a => Some a | None => acc end)).
    rewrite (IH (match pick k with Some a => Some a | None => None end)).
    destruct (fold_left _ ks None); [reflexivity |].
    destruct (pick k); reflexivity.
Qed.

(** Laying keyword arguments over a record leaves [disabled_by_default] as
    it was unless one of them names it. *)
Lemma with_kwargs_disabled self kwargs :
  disabled_by_default (with_kwargs self kwargs)
  = match given_disabled kwargs with
    | Some v => v
    | None => disabled_by_default self
    end.
Proof.
  unfold with_kwargs, given_disabled. revert self.
  induction kwargs as [|k ks IH]; intros self; simpl; [reflexivity |].
  rewrite IH. unfold given at 2. simpl. rewrite given_acc.
  destruct (given _ ks); [reflexivity |].
  destruct self, k; reflexivity.
Qed.

Section WithEnv.
Variable E : Env.

(** The constructor call runs [construct] on the defaults overlaid with the
    keyword arguments, in some later state. *)
Lemma PayloadTemplate_new_spec kwargs s :
  exists defaults s1,
    disabled_by_default defaults = VBool true
    /\ PayloadTemplate_new E kwargs s = construct (with_kwargs defaults kwargs) s1.
Proof.
  unfold PayloadTemplate_new, bind.
  destruct (given _ kwargs), (given _ kwargs), (given _ kwargs),
           (given _ kwargs), (given _ kwargs);
    simpl; eexists; eexists; (split; [| reflexivity]); reflexivity.
Qed.

End WithEnv.

End ModelsFacts.

(* ===================================================================== *)
(** * The specified properties, C1 to C10 *)
(* ===================================================================== *)

Import Models Registry Spec.

(** C1.  Every attempt to build a [PayloadTemplate] whose
    [disabled_by_default] is not [True] fails with a
    [PayloadValidationError], whether the record is built from given
    fields, by the constructor call with keyword arguments, or by
    [clone_with_updates]; hence every record that the constructor or
    [clone_with_updates] returns has [disabled_by_default == True]. *)
Theorem C1_disabled_by_default_enforced (E : Env) :
  (forall fields s,
      disabled_by_default fields <> VBool true ->
      raises (fst (construct fields s)) PayloadValidationError)
  /\ (forall kwargs v s,
        given_disabled kwargs = Some v -> v <> VBool true ->
        raises (fst (PayloadTemplate_new E kwargs s)) PayloadValidationError)
  /\ (forall self kwargs s,
        disabled_by_default (with_kwargs self kwargs) <> VBool true ->
        raises (fst (clone_with_updates self kwargs s)) PayloadValidationError)
  /\ (forall kwargs s r,
        fst (PayloadTemplate_new E kwargs s) = Ok r ->
        disabled_by_default r = VBool true)
  /\ (forall self kwargs s r,
        fst (clone_with_updates self kwargs s) = Ok r ->
        disabled_by_default r = VBool true).
Proof.
  assert (Hbad : forall fields s,
             disabled_by_default fields <> VBool true ->
             raises (fst (construct fields s)) PayloadValidationError).
  { intros fields s H. apply ModelsFacts.construct_invalid.
    intros Hv. apply H. apply Hv. }
  assert (Hgood : forall fields s r,
             fst (construct fields s) = Ok r -> disabled_by_default r = VBool true).
  { intros fields s r H. destruct (construct fields s) as [r' s'] eqn:Hc.
    simpl in H. subst r'. apply ModelsFacts.construct_Ok in Hc.
    destruct Hc as (-> & _ & Hv). apply Hv. }
  split; [exact Hbad |]. split; [| split; [| split]].
  - intros kwargs v s Hg Hv.
    destruct (ModelsFacts.PayloadTemplate_new_spec E kwargs s) as (d & s1 & _ & ->).
    apply Hbad. rewrite ModelsFacts.with_kwargs_disabled, Hg. exact Hv.
  - intros self kwargs s H. apply Hbad. exact H.
  - intros kwargs s r.
    destruct (ModelsFacts.PayloadTemplate_new_spec E kwargs s) as (d & s1 & _ & ->).
    apply Hgood.
  - intros self kwargs s r. apply Hgood.
Qed.

(** C1 at concrete inputs: [make_payload()] with the flag forced to [False],
    the constructor called with [disabled_by_default=False], and
    [clone_with_updates(disabled_by_default=False)] all raise; the clone
    with a new payload is returned with the flag still [True]. *)
Lemma C1_disabled_by_default_enforced_witness :
  raises (fst (construct
                 (with_kwargs Sample.make_payload [kw_disabled_by_default (VBool false)])
                 Sample.three_lists)) PayloadValidationError
  /\ raises (fst (PayloadTemplate_new Sample.env
                    [kw_module "xss"; kw_title (VStr "t"); kw_payload (VStr "<<T>>");
                     kw_context (Some "html"); kw_disabled_by_default (VBool false)]
                    Sample.empty_state)) PayloadValidationError
  /\ raises (fst (clone_with_updates Sample.make_payload
                    [kw_disabled_by_default (VBool false)] Sample.three_lists))
            PayloadValidationError
  /\ disabled_by_default
       (with_kwargs Sample.make_payload [kw_payload (VStr "<<OTHER>>")]) = VBool true.
Proof.
  destruct (C1_disabled_by_default_enforced Sample.env)
    as (Hfields & Hnew & Hclone & _ & Hret).
  split; [| split; [| split]].
  - apply Hfields. simpl. discriminate.
  - apply (Hnew _ (VBool false)); [reflexivity | discriminate].
  - apply Hclone. simpl. discriminate.
  - apply (Hret Sample.make_payload [kw_payload (VStr "<<OTHER>>")] Sample.three_lists).
    vm_compute. reflexivity.
Defined.

(** C5.  Selector exclusivity: building a record with module [xss] and a
    [db_type] fails with a [PayloadValidationError], and so do the other
    five forbidden module/selector combinations; every record that is
    built has exactly the selector its module determines, with one of the
    allowed values, and the other two are [None]. *)
Theorem C5_selector_exclusivity (E : Env) :
  (forall fields s,
      forbidden_combination fields ->
      raises (fst (construct fields s)) PayloadValidationError)
  /\ (forall kwargs s,
        (forall defaults, forbidden_combination (with_kwargs defaults kwargs)) ->
        raises (fst (PayloadTemplate_new E kwargs s)) PayloadValidationError)
  /\ (forall fields s r,
        fst (construct fields s) = Ok r -> one_selector r)
  /\ (forall kwargs s r,
        fst (PayloadTemplate_new E kwargs s) = Ok r -> one_selector r)
  /\ (forall self kwargs s r,
        fst (clone_with_updates self kwargs s) = Ok r -> one_selector r).
Proof.
  assert (Hbad : forall fields s,
             forbidden_combination fields ->
             raises (fst (construct fields s)) PayloadValidationError).
  { intros fields s Hf. apply ModelsFacts.construct_invalid.
    intros Hv. apply (ModelsFacts.forbidden_selectors _ Hf). apply Hv. }
  assert (Hgood : forall fields s r,
             fst (construct fields s) = Ok r -> one_selector r).
  { intros fields s r H.
    destruct (construct fields s) as [r' s'] eqn:Hc. simpl in H. subst r'.
    apply ModelsFacts.construct_Ok in Hc. destruct Hc as (-> & _ & Hv).
    apply ModelsFacts.selectors_Ok; apply Hv. }
  split; [exact Hbad |]. split; [| split; [exact Hgood | split]].
  - intros kwargs s Hf.
    destruct (ModelsFacts.PayloadTemplate_new_spec E kwargs s) as (d & s1 & _ & ->).
    apply Hbad, Hf.
  - intros kwargs s r.
    destruct (ModelsFacts.PayloadTemplate_new_spec E kwargs s) as (d & s1 & _ & ->).
    apply Hgood.
  - intros self kwargs s r. apply Hgood.
Qed.

(** C5 at concrete inputs: [make_payload()] with [db_type="mysql"] added is
    refused; so is the constructor call with module [xss], a context and a
    [db_type]; [make_payload()] itself is built and has its one selector. *)
Lemma C5_selector_exclusivity_witness :
  raises (fst (construct (with_kwargs Sample.make_payload [kw_db_type (Some "mysql")])
                 Sample.three_lists)) PayloadValidationError
  /\ raises (fst (PayloadTemplate_new Sample.env
                    [kw_module "xss"; kw_title (VStr "t"); kw_payload (VStr "<<T>>");
                     kw_context (Some "html"); kw_db_type (Some "mysql")]
                    Sample.empty_state)) PayloadValidationError
  /\ one_selector Sample.make_payload.
Proof.
  destruct (C5_selector_exclusivity Sample.env) as (Hforbidden & Hnew & Hone & _).
  split; [| split].
  - apply Hforbidden. left. split; [reflexivity | discriminate].
  - apply Hnew. intros d. left. destruct d. split; [reflexivity | discriminate].
  - apply (Hone Sample.make_payload Sample.three_lists). reflexivity.
Defined.

(** ** Registry *)

Module RegistryFacts.
Import Outcome Models Registry Spec.

Lemma generate_unregistered (reg : ModuleRegistry) name db os ctx s :
  reg !! name = None ->
  generate reg name db os ctx s
  = (Raise (registry_error (not_registered reg name)), s).
Proof.
  intros H. unfold generate, validate_selectors, get_spec, bind, lift.
  rewrite H. reflexivity.
Qed.

(** The "not registered" message ends with the list of modules, so it is
    none of the "requires selector" messages. *)
Lemma not_registered_last (reg : ModuleRegistry) name :
  Text.last_char (not_registered reg name) = Some "]"%char.
Proof.
  unfold not_registered. do 4 apply TextFacts.last_char_app.
  apply TextFacts.repr_names_last.
Qed.

Lemma not_registered_distinct (reg : ModuleRegistry) name selector_module selector :
  not_registered reg name <> requires_selector selector_module selector.
Proof.
  intros H. pose proof (not_registered_last reg name) as Hl. rewrite H in Hl.
  unfold requires_selector in Hl.
  rewrite (TextFacts.last_char_app _ _ "."%char) in Hl; [discriminate |].
  do 3 apply TextFacts.last_char_app. reflexivity.
Qed.

(** The re-validation loop returns when no element offends; otherwise it
    raises an error that names the module and the index of an offending
    element. *)
Lemma revalidate_spec name h items : forall i0,
  (Forall (fun o => ~ offending h o) items -> revalidate name h i0 items = Ok tt)
  /\ (Exists (offending h) items ->
      exists k o e,
        items !! k = Some o /\ offending h o
        /\ revalidate name h i0 items = Raise e
        /\ names_offender name h (i0 + k) o e).
Proof.
  induction items as [|o items IH]; intros i0.
  - split; [reflexivity | intros H; inversion H].
  - destruct o as [t | v].
    + simpl. destruct (_validate h t) as [[]|e0] eqn:Hv.
      * destruct (IH (S i0)) as [IHok IHbad]. split.
        -- intros H. inversion H; subst. apply IHok. assumption.
        -- intros H. inversion H as [? ? Hoff | ? ? Hex]; subst.
           ++ exfalso. apply Hoff. eapply ModelsFacts.validate_Ok; eassumption.
           ++ destruct (IHbad Hex) as (k & o & e & Hk & Ho & Hr & Hn).
              exists (S k), o, e. repeat split; try assumption.
              replace (i0 + S k) with (S i0 + k) by lia. exact Hn.
      * assert (Hoff : ~ valid h t).
        { intros Hval. apply ModelsFacts.valid_validate in Hval. congruence. }
        split.
        -- intros H. inversion H; subst. simpl in *. contradiction.
        -- intros _. exists 0, (ITemplate t).
           rewrite (ModelsFacts.validate_raises_only _ _ _ Hv).
           destruct (decide _) as [_|Hne]; [| contradiction].
           eexists. repeat split; try assumption.
           simpl. rewrite Nat.add_0_r. exists e0. split; [exact Hv | reflexivity].
    + split.
      * intros H. inversion H; subst. simpl in *. tauto.
      * intros _. exists 0, (IOther v). eexists. repeat split.
        simpl. rewrite Nat.add_0_r. reflexivity.
Qed.

(** [generate] once the selectors are accepted and the generator has
    returned [g]. *)
Lemma generate_after_call (reg : ModuleRegistry) name db os ctx spec s g s1 :
  validate_selectors reg name db os ctx = Ok tt ->
  reg !! name = Some spec ->
  call_generator spec db os ctx s = (Ok g, s1) ->
  generate reg name db os ctx s
  = match g with
    | ROther _ => (Raise (registry_error (must_return_list name)), s1)
    | RList items =>
        (match revalidate name (heap s1) 0 items with
         | Ok _ => Ok items
         | Raise e => Raise e
         end, s1)
    end.
Proof.
  intros Hsel Hspec Hcall. unfold generate, bind, lift, get_spec, ret.
  rewrite Hsel, Hspec, Hcall. destruct g as [items | v]; [| reflexivity].
  destruct (revalidate name (heap s1) 0 items); reflexivity.
Qed.

Section Shipped.
Variable E : Env.

Lemma shipped_xss :
  Shipped.registry E !! "xss"
  = Some (Build_ModuleSpec "xss" (Xss.generate_payloads E) false false).
Proof. reflexivity. Qed.

Lemma shipped_sqli :
  Shipped.registry E !! "sqli"
  = Some (Build_ModuleSpec "sqli" (Sqli.generate_payloads E) true false).
Proof. reflexivity. Qed.

Lemma shipped_cmd :
  Shipped.registry E !! "cmd"
  = Some (Build_ModuleSpec "cmd" (CmdInjection.generate_payloads E) false true).
Proof. reflexivity. Qed.

Lemma shipped_other name :
  name <> "xss" -> name <> "sqli" -> name <> "cmd" ->
  Shipped.registry E !! name = None.
Proof.
  intros Hx Hs Hc. unfold Shipped.registry.
  rewrite !lookup_insert_ne by congruence. apply lookup_empty.
Qed.

Lemma shipped_list_modules :
  list_modules (Shipped.registry E) = ["cmd"; "sqli"; "xss"].
Proof. vm_compute. reflexivity. Qed.

(** The three decorators, run in the order [initialize_registry] imports
    the modules, build the registry. *)
Lemma shipped_by_register :
  (r1 <~ register_module ∅ "xss" false false (Xss.generate_payloads E) ;;
   r2 <~ register_module (fst r1) "sqli" true false (Sqli.generate_payloads E) ;;
   r3 <~ register_module (fst r2) "cmd" false true (CmdInjection.generate_payloads E) ;;
   Ok (fst r3))
  = Ok (Shipped.registry E).
Proof. reflexivity. Qed.

End Shipped.

End RegistryFacts.

(** C6.  [Registry.generate] raises a [RegistryError]: for a module name
    that is not registered, with a message that lists the available
    modules ([cmd], [sqli], [xss] for the registry the program runs with);
    for [sqli] without a [db_type]; for [cmd] without an [os_type]; for
    [xss] without a non-empty [context].  The four messages differ from
    one another. *)
Theorem C6_registry_rejections (E : Env) :
  (forall (reg : ModuleRegistry) name db_type os_type context s,
      reg !! name = None ->
      generate reg name db_type os_type context s
      = (Raise (Exc RegistryError
                  ("Module '" ++ name ++ "' is not registered. Available: "
                   ++ Text.repr_names (list_modules reg))), s))
  /\ list_modules (Shipped.registry E) = ["cmd"; "sqli"; "xss"]
  /\ (forall db_type os_type context s,
        truthy db_type = false ->
        generate (Shipped.registry E) "sqli" db_type os_type context s
        = (Raise (Exc RegistryError "Module 'sqli' requires 'db_type' selector."), s))
  /\ (forall db_type os_type context s,
        truthy os_type = false ->
        generate (Shipped.registry E) "cmd" db_type os_type context s
        = (Raise (Exc RegistryError "Module 'cmd' requires 'os_type' selector."), s))
  /\ (forall db_type os_type context s,
        truthy context = false ->
        generate (Shipped.registry E) "xss" db_type os_type context s
        = (Raise (Exc RegistryError "Module 'xss' requires 'context' selector."), s))
  /\ NoDup [ "Module 'sqli' requires 'db_type' selector.";
             "Module 'cmd' requires 'os_type' selector.";
             "Module 'xss' requires 'context' selector." ]
  /\ (forall (reg : ModuleRegistry) name,
        ~ In ("Module '" ++ name ++ "' is not registered. Available: "
              ++ Text.repr_names (list_modules reg))
             [ "Module 'sqli' requires 'db_type' selector.";
               "Module 'cmd' requires 'os_type' selector.";
               "Module 'xss' requires 'context' selector." ]).
Proof.
  split; [| split; [| split; [| split; [| split; [| split]]]]].
  - intros reg name db os ctx s H. apply RegistryFacts.generate_unregistered. exact H.
  - apply RegistryFacts.shipped_list_modules.
  - intros db os ctx s H. unfold generate, validate_selectors, get_spec, bind, lift.
    rewrite RegistryFacts.shipped_sqli. simpl. rewrite H. reflexivity.
  - intros db os ctx s H. unfold generate, validate_selectors, get_spec, bind, lift.
    rewrite RegistryFacts.shipped_cmd. simpl. rewrite H. reflexivity.
  - intros db os ctx s H. unfold generate, validate_selectors, get_spec, bind, lift.
    rewrite RegistryFacts.shipped_xss. simpl. rewrite H. reflexivity.
  - apply (bool_decide_unpack _). vm_compute. reflexivity.
  - intros reg name H.
    pose proof (RegistryFacts.not_registered_distinct reg name "sqli" "db_type") as H1.
    pose proof (RegistryFacts.not_registered_distinct reg name "cmd" "os_type") as H2.
    pose proof (RegistryFacts.not_registered_distinct reg name "xss" "context") as H3.
    unfold not_registered, requires_selector in H1, H2, H3. simpl in H.
    destruct H as [H | [H | [H | []]]]; symmetry in H; auto.
Qed.

(** C6 at the calls of tests/test_modules.py: an unknown module, [sqli],
    [cmd] and [xss] each called without any selector. *)
Lemma C6_registry_rejections_witness :
  fst (generate (Shipped.registry Sample.env) "invalid_module" None None None
         Sample.empty_state)
  = Raise (Exc RegistryError
             "Module 'invalid_module' is not registered. Available: ['cmd', 'sqli', 'xss']")
  /\ raises (fst (generate (Shipped.registry Sample.env) "sqli" None None None
                    Sample.empty_state)) RegistryError
  /\ raises (fst (generate (Shipped.registry Sample.env) "cmd" None None None
                    Sample.empty_state)) RegistryError
  /\ raises (fst (generate (Shipped.registry Sample.env) "xss" None None (Some "")
                    Sample.empty_state)) RegistryError.
Proof.
  destruct (C6_registry_rejections Sample.env)
    as (Hunknown & Hlist & Hsqli & Hcmd & Hxss & _).
  split; [| split; [| split]].
  - rewrite Hunknown by reflexivity. rewrite Hlist. reflexivity.
  - rewrite Hsqli by reflexivity. apply Outcome.raises_intro. reflexivity.
  - rewrite Hcmd by reflexivity. apply Outcome.raises_intro. reflexivity.
  - rewrite Hxss by reflexivity. apply Outcome.raises_intro. reflexivity.
Defined.

(** C7.  [Registry.generate] re-validates what the generator returns.  Once
    the selectors are accepted and the generator has returned: a return
    value that is not a list makes [generate] fail; a list with an element
    that is not a [PayloadTemplate] or that breaks a record invariant makes
    it fail with an error naming the module and the index of such an
    element; and otherwise the generator's list is returned as it is. *)
Theorem C7_generate_revalidates
    (reg : ModuleRegistry) (name : string) (db_type os_type context : option string)
    (spec : ModuleSpec) (s s1 : state) (g : returned) :
  validate_selectors reg name db_type os_type context = Ok tt ->
  reg !! name = Some spec ->
  call_generator spec db_type os_type context s = (Ok g, s1) ->
  match g with
  | ROther _ =>
      generate reg name db_type os_type context s
      = (Raise (Exc RegistryError
                  ("Module '" ++ name ++ "' must return List[PayloadTemplate].")), s1)
  | RList items =>
      (Exists (offending (heap s1)) items ->
       exists i o e,
         items !! i = Some o /\ offending (heap s1) o
         /\ generate reg name db_type os_type context s = (Raise e, s1)
         /\ names_offender name (heap s1) i o e)
      /\ (Forall (fun o => ~ offending (heap s1) o) items ->
          generate reg name db_type os_type context s = (Ok items, s1))
  end.
Proof.
  intros Hsel Hspec Hcall.
  rewrite (RegistryFacts.generate_after_call _ _ _ _ _ _ _ _ _ Hsel Hspec Hcall).
  destruct g as [items | v]; [| reflexivity].
  destruct (RegistryFacts.revalidate_spec name (heap s1) items 0) as [Hok Hbad].
  split.
  - intros Hex. destruct (Hbad Hex) as (k & o & e & Hk & Ho & Hr & Hn).
    exists k, o, e. rewrite Hr. auto.
  - intros Hall. rewrite (Hok Hall). reflexivity.
Qed.

(** C7 on three generators registered as [xss]: one that returns the
    number 7, one that returns a list whose second element is the text
    "x", and one that returns the record [make_payload()]. *)
Lemma C7_generate_revalidates_witness :
  fst (generate (Sample.xss_only Sample.not_a_list) "xss" None None (Some "html")
         Sample.three_lists)
  = Raise (Exc RegistryError "Module 'xss' must return List[PayloadTemplate].")
  /\ (exists i o e,
        [ITemplate Sample.make_payload; IOther (VStr "x")] !! i = Some o
        /\ offending (heap Sample.three_lists) o
        /\ generate (Sample.xss_only Sample.second_not_a_record)
             "xss" None None (Some "html") Sample.three_lists
           = (Raise e, Sample.three_lists)
        /\ names_offender "xss" (heap Sample.three_lists) i o e)
  /\ generate (Sample.xss_only Sample.one_record) "xss" None None (Some "html")
       Sample.three_lists
     = (Ok [ITemplate Sample.make_payload], Sample.three_lists).
Proof.
  split; [| split].
  - rewrite (C7_generate_revalidates (Sample.xss_only Sample.not_a_list) "xss"
               None None (Some "html") _ Sample.three_lists Sample.three_lists
               (ROther (VInt 7)) eq_refl eq_refl eq_refl).
    reflexivity.
  - apply (C7_generate_revalidates (Sample.xss_only Sample.second_not_a_record)
             "xss" None None (Some "html") _
             Sample.three_lists Sample.three_lists
             (RList [ITemplate Sample.make_payload; IOther (VStr "x")])
             eq_refl eq_refl eq_refl).
    apply Exists_cons_tl, Exists_cons_hd. exact I.
  - apply (C7_generate_revalidates (Sample.xss_only Sample.one_record) "xss"
             None None (Some "html") _ Sample.three_lists Sample.three_lists
             (RList [ITemplate Sample.make_payload]) eq_refl eq_refl eq_refl).
    constructor; [| constructor].
    intros Hoff. apply Hoff. apply (ModelsFacts.validate_Ok _ _ tt). reflexivity.
Defined.

(** ** Obfuscator *)

Module ObfuscatorFacts.
Import Obfuscator Outcome Spec.

(** Whatever [obfuscate_payload] raises is an [ObfuscationError]. *)
Lemma obfuscate_payload_raises_only payload mode e :
  obfuscate_payload payload mode = Raise e -> exn_cls e = ObfuscationError.
Proof.
  unfold obfuscate_payload. destruct payload; try (intros [= <-]; reflexivity).
  destruct (String.eqb s ""); [intros [= <-]; reflexivity |].
  destruct (Encoder.lookup _ _) as [transformer|]; [| intros [= <-]; reflexivity].
  destruct (transformer s) as [out|e0]; [discriminate |].
  destruct (decide _) as [Hc|Hc]; intros [= <-]; [exact Hc | reflexivity].
Qed.

(** Each of the three transformers starts with the guard. *)
Lemma transformer_guarded mode_norm transformer text :
  Encoder.lookup mode_norm _OBFUSCATION_MODES = Some transformer ->
  _TEMPLATE_MARKER_RE_search text = false ->
  transformer text = Raise (obfuscation_error refusal).
Proof.
  intros Hl Hs. simpl in Hl.
  repeat match type of Hl with
         | (if ?c then _ else _) = _ => destruct c
         end;
    try discriminate Hl; injection Hl as <-;
    unfold _comments, _whitespace, _mixed, _ensure_educational_template;
    rewrite Hs; reflexivity.
Qed.

(** Without a marker, [obfuscate_payload] raises for every mode. *)
Lemma obfuscate_without_marker text mode :
  _TEMPLATE_MARKER_RE_search text = false ->
  raises (obfuscate_payload (VStr text) mode) ObfuscationError.
Proof.
  intros Hs. destruct (obfuscate_payload (VStr text) mode) as [out|e] eqn:H.
  - exfalso. unfold obfuscate_payload in H.
    destruct (String.eqb text ""); [discriminate |].
    destruct (Encoder.lookup _ _) as [transformer|] eqn:Hl; [| discriminate].
    rewrite (transformer_guarded _ _ _ Hl Hs) in H. simpl in H. discriminate.
  - apply raises_intro. eapply obfuscate_payload_raises_only; eassumption.
Qed.

(** With a supported mode and a non-empty text, what is raised is the
    refusal of the guard. *)
Lemma obfuscate_refusal text mode :
  _TEMPLATE_MARKER_RE_search text = false ->
  text <> "" -> is_supported_obfuscation mode = true ->
  obfuscate_payload (VStr text) mode = Raise (obfuscation_error refusal).
Proof.
  intros Hs Hne Hm. unfold obfuscate_payload.
  destruct (String.eqb_spec text "") as [->|_]; [contradiction |].
  unfold is_supported_obfuscation in Hm.
  destruct (Encoder.lookup _ _) as [transformer|] eqn:Hl; [| discriminate Hm].
  rewrite (transformer_guarded _ _ _ Hl Hs). reflexivity.
Qed.

Lemma prefix_of_app p s : Text.prefix_of p s = true -> exists c, s = p ++ c.
Proof.
  revert s. induction p as [|a p IH]; intros s H; simpl in *.
  - exists s. reflexivity.
  - destruct s as [|b s]; [discriminate |].
    apply andb_true_iff in H. destruct H as [Hab Hp].
    apply Ascii.eqb_eq in Hab. subst b.
    destruct (IH _ Hp) as (c & ->). exists c. reflexivity.
Qed.

Lemma closes_app s : closes s = true -> exists b c, s = b ++ ">>" ++ c.
Proof.
  induction s as [|x s IH]; simpl; [discriminate |].
  intros H. apply orb_true_iff in H. destruct H as [H | H].
  - destruct x; try discriminate.
    change (Text.prefix_of ">>" (String (Ascii b b0 b1 b2 b3 b4 b5 b6) s) = true) in H.
    apply prefix_of_app in H. destruct H as (c & ->). exists "", c. reflexivity.
  - apply andb_true_iff in H. destruct H as [_ H].
    destruct (IH H) as (b & c & ->). exists (String x b), c. reflexivity.
Qed.

Lemma ci_strip_prefix_app p s r :
  ci_strip_prefix p s = Some r -> exists w, s = w ++ r /\ Text.lower w = p.
Proof.
  revert s. induction p as [|a p IH]; intros s H; simpl in H.
  - injection H as ->. exists "". auto.
  - destruct s as [|b s]; [discriminate |].
    destruct (Ascii.eqb_spec a (Text.lower_char b)) as [->|]; [| discriminate].
    destruct (IH _ H) as (w & -> & Hw). exists (String b w).
    simpl. rewrite Hw. auto.
Qed.

(** A match of the pattern is a marker in the plain sense. *)
Lemma search_from_marker prev s :
  search_from prev s = true ->
  contains_bracketed_marker s \/ contains_word_TEMPLATE s.
Proof.
  revert prev. induction s as [|x s IH]; intros prev H.
  - simpl in H. rewrite orb_false_r in H. unfold word_here in H. simpl in H.
    rewrite andb_false_r in H. discriminate.
  - cbn [search_from] in H.
    apply orb_true_iff in H. destruct H as [H | H];
      [apply orb_true_iff in H; destruct H as [H | H] |].
    + left. unfold bracket_here in H.
      destruct (Ascii.eqb_spec x "<") as [->|Hx].
      * destruct s as [|y s]; [discriminate |].
        destruct (Ascii.eqb_spec y "<") as [->|Hy].
        -- apply closes_app in H. destruct H as (b & c & ->).
           exists "", b, c. reflexivity.
        -- exfalso.
           destruct y as [[] [] [] [] [] [] [] []]; try discriminate H; congruence.
      * exfalso.
        destruct x as [[] [] [] [] [] [] [] []]; try discriminate H; congruence.
    + right. unfold word_here in H. apply andb_true_iff in H. destruct H as [_ H].
      destruct (ci_strip_prefix "template" (String x s)) as [r|] eqn:Hp;
        [| discriminate].
      apply ci_strip_prefix_app in Hp. destruct Hp as (w & Hw & Hl).
      exists "", w, r. auto.
    + destruct (IH _ H) as [(a & b & c & ->) | (a & w & c & -> & Hw)].
      * left. exists (String x a), b, c. reflexivity.
      * right. exists (String x a), w, c. auto.
Qed.

Lemma no_marker_no_match s :
  ~ contains_bracketed_marker s -> ~ contains_word_TEMPLATE s ->
  _TEMPLATE_MARKER_RE_search s = false.
Proof.
  intros Hb Hw. destruct (_TEMPLATE_MARKER_RE_search s) eqn:H; [| reflexivity].
  apply search_from_marker in H. tauto.
Qed.

End ObfuscatorFacts.

(** ** Pipeline *)

Module PipelineFacts.
Import Pipeline Outcome Models Registry Spec.

Lemma deref_insert_eq (h : gmap loc (list value)) l x : deref (<[l := x]> h) l = x.
Proof. unfold deref. rewrite lookup_insert_eq. reflexivity. Qed.

Lemma deref_insert_ne (h : gmap loc (list value)) l l' x :
  l <> l' -> deref (<[l := x]> h) l' = deref h l'.
Proof. intros H. unfold deref. rewrite lookup_insert_ne by exact H. reflexivity. Qed.

Lemma grows_refl h : grows h h.
Proof. intros l v H. exact H. Qed.

Lemma grows_trans h1 h2 h3 : grows h1 h2 -> grows h2 h3 -> grows h1 h3.
Proof. intros H12 H23 l v H. apply H23, H12, H. Qed.

(** [append] extends one list by one element and touches nothing else. *)
Lemma append_spec l v s :
  append l v s
  = (Ok tt, State (<[l := (deref (heap s) l ++ [v])%list]> (heap s))
                  (files s) (dirs s) (draws s)).
Proof. reflexivity. Qed.

Lemma append_grows l v s : grows (heap s) (heap (snd (append l v s))).
Proof.
  intros l' x H. simpl. destruct (decide (l = l')) as [<-|Hne].
  - rewrite deref_insert_eq. apply in_or_app. left. exact H.
  - rewrite deref_insert_ne by exact Hne. exact H.
Qed.

Lemma append_In l v s : In v (deref (heap (snd (append l v s))) l).
Proof. simpl. rewrite deref_insert_eq. apply in_or_app. right. left. reflexivity. Qed.

(** A clone with a new payload: same object addresses, state untouched. *)
Lemma clone_with_payload_Ok item new_payload s r s' :
  clone_with_payload item new_payload s = (Ok r, s') ->
  exists t,
    item = ITemplate t /\ r = with_kwargs t [kw_payload (VStr new_payload)]
    /\ s' = s /\ valid (heap s) r.
Proof.
  destruct item as [t|v]; simpl; [| discriminate].
  unfold clone_with_updates. intros H. apply ModelsFacts.construct_Ok in H.
  destruct H as (-> & -> & Hv). exists t. auto.
Qed.

Lemma with_payload_lists t v :
  encoding_applied (with_kwargs t [kw_payload v]) = encoding_applied t
  /\ obfuscation_applied (with_kwargs t [kw_payload v]) = obfuscation_applied t
  /\ tags (with_kwargs t [kw_payload v]) = tags t.
Proof. destruct t. repeat split. Qed.

Lemma with_payload_payload t v : payload (with_kwargs t [kw_payload v]) = v.
Proof. destruct t. reflexivity. Qed.

(** One turn of the loop of [apply_obfuscation_to_all] that did not raise. *)
Lemma obfuscation_step item rest technique s out s' :
  apply_obfuscation_to_all (item :: rest) technique s = (Ok out, s') ->
  exists t new_payload out',
    item = ITemplate t
    /\ Obfuscator.obfuscate_payload (payload t) (Some technique) = Ok new_payload
    /\ valid (heap s) (with_kwargs t [kw_payload (VStr new_payload)])
    /\ apply_obfuscation_to_all rest technique
         (snd (append (obfuscation_applied t) (VStr technique) s)) = (Ok out', s')
    /\ out = ITemplate (with_kwargs t [kw_payload (VStr new_payload)]) :: out'.
Proof.
  cbn [apply_obfuscation_to_all]. intros H.
  apply bind_Ok in H. destruct H as (new_payload & s1 & Htry & H).
  apply try_except_Ok in Htry; [| intros e s2; simpl; discriminate].
  apply lift_inv in Htry. destruct Htry as [Hp ->].
  apply bind_Ok in H. destruct H as (new_item & s2 & Hclone & H).
  apply clone_with_payload_Ok in Hclone. destruct Hclone as (t & -> & -> & -> & Hv).
  apply bind_Ok in H. destruct H as ([] & s3 & Hadd & H).
  apply bind_Ok in H. destruct H as (out' & s4 & Hrest & H).
  injection H as <- <-.
  unfold add_obfuscation in Hadd.
  destruct (with_payload_lists t (VStr new_payload)) as (_ & Ho & _).
  rewrite Ho in Hadd.
  exists t, new_payload, out'. simpl in Hp.
  split; [reflexivity |]. split; [symmetry; exact Hp |]. split; [exact Hv |].
  split; [rewrite Hadd; exact Hrest | reflexivity].
Qed.

(** After [apply_obfuscation_to_all], lists have only grown, no file has
    changed, and the history of every record returned includes the
    technique. *)
Lemma apply_obfuscation_Ok technique items : forall s out s',
  apply_obfuscation_to_all items technique s = (Ok out, s') ->
  grows (heap s) (heap s')
  /\ Forall (obfuscated_with (heap s') technique) out.
Proof.
  induction items as [|item rest IH]; intros s out s' H.
  - injection H as <- <-. split; [apply grows_refl | constructor].
  - apply obfuscation_step in H.
    destruct H as (t & new_payload & out' & -> & _ & _ & Hrest & ->).
    apply IH in Hrest. destruct Hrest as [Hg Hall]. split.
    + eapply grows_trans; [apply append_grows | exact Hg].
    + constructor; [| exact Hall].
      eexists. split; [reflexivity |].
      destruct (with_payload_lists t (VStr new_payload)) as (_ & -> & _).
      apply Hg. apply append_In.
Qed.

End PipelineFacts.

(** ** Exporters *)

Module ExporterFacts.
Import Outcome AtomicWrite Models Registry Spec.

Lemma append_nonempty (s x : string) : x <> "" -> s ++ x <> s.
Proof.
  intros Hx H. induction s as [|c s IH]; simpl in H; [contradiction |].
  injection H as H. auto.
Qed.

(** The temporary file is never the destination. *)
Lemma tmp_of_neq (p : path) (rnd : string) : tmp_of p rnd <> p.
Proof.
  destruct p as [d n]. unfold tmp_of. simpl. intros [= H].
  revert H. apply append_nonempty. discriminate.
Qed.

Section WithEnv.
Variable E : Env.

(** [_atomic_write_text]: when it returns, the destination holds the whole
    text and the temporary file is gone; when it raises, the destination is
    as it was.  List objects are never touched. *)
Lemma atomic_write_spec (p : path) (content : string) s r s' :
  _atomic_write_text E p content s = (r, s') ->
  heap s' = heap s
  /\ match r with
     | Ok _ => files s' !! p = Some content
     | Raise e => exn_cls e = OSError /\ files s' !! p = files s !! p
     end.
Proof.
  unfold _atomic_write_text, _ensure_parent_dir, mkstemp, write_all, os_replace,
    remove_quietly, set_files, try_except, bind, raise, ret.
  destruct (env_mkdir E); [| intros [= <- <-]; auto].
  destruct (env_mkstemp E) as [rnd|]; [| intros [= <- <-]; auto].
  pose proof (tmp_of_neq p rnd) as Hne. cbn [files heap dirs draws].
  destruct (files s !! tmp_of p rnd) eqn:Hfree; [intros [= <- <-]; auto |].
  destruct (env_write E) as [n|]; cbn [files heap dirs draws fst snd].
  - destruct (env_remove E); intros [= <- <-]; cbn [files heap];
      (split; [reflexivity |]); (split; [reflexivity |]).
    + rewrite lookup_delete_ne, !lookup_insert_ne by exact Hne. reflexivity.
    + rewrite !lookup_insert_ne by exact Hne. reflexivity.
  - destruct (env_replace E); cbn [files heap dirs draws fst snd].
    + rewrite lookup_insert_eq. intros [= <- <-]. cbn [files heap].
      split; [reflexivity |]. apply lookup_insert_eq.
    + destruct (env_remove E); intros [= <- <-]; cbn [files heap];
        (split; [reflexivity |]); (split; [reflexivity |]).
      * rewrite lookup_delete_ne, !lookup_insert_ne by exact Hne. reflexivity.
      * rewrite !lookup_insert_ne by exact Hne. reflexivity.
Qed.

Lemma same_store_refl s : same_store s s.
Proof. split; reflexivity. Qed.

Lemma same_store_trans s1 s2 s3 :
  same_store s1 s2 -> same_store s2 s3 -> same_store s1 s3.
Proof. intros [H1 H2] [H3 H4]. split; congruence. Qed.

Lemma now_utc_same_store : preserves same_store (now_utc E).
Proof. intros s r s' [= <- <-]. split; reflexivity. Qed.

(** *** The JSON exporter *)

Lemma json_validate_bad items : forall i,
  Exists not_exportable items ->
  exists e, JsonExporter._validate_items_from i items = Raise e
            /\ exn_cls e = JSONExportError.
Proof.
  induction items as [|o items IH]; intros i H; [inversion H |].
  destruct o as [t|v]; simpl; [| eauto].
  destruct (is_True (disabled_by_default t)) eqn:Ht; simpl; [| eauto].
  inversion H as [? ? Hbad | ? ? Hex]; subst.
  - simpl in Hbad. apply ModelsFacts.is_True_spec in Ht. contradiction.
  - destruct (IH (S i) Hex) as (e & -> & He). simpl. eauto.
Qed.

Lemma build_doc_same_store payloads include_wrapper meta :
  preserves same_store (JsonExporter.build_doc E payloads include_wrapper meta).
Proof.
  unfold JsonExporter.build_doc. destruct include_wrapper.
  - apply (preserves_bind same_store same_store_trans).
    + unfold JsonExporter._now_iso.
      apply (preserves_bind same_store same_store_trans);
        [apply now_utc_same_store |].
      intros d. apply (preserves_ret same_store same_store_refl).
    + intros exported_at. destruct meta as [[|kv m]|];
        try apply (preserves_ret same_store same_store_refl).
      destruct (JsonExporter.collisions (kv :: m));
        [apply (preserves_ret same_store same_store_refl)
        | apply (preserves_raise same_store same_store_refl)].
  - apply (preserves_ret same_store same_store_refl).
Qed.

(** The [try] block of [export_json] leaves list objects alone, and leaves
    the destination alone when it raises. *)
Lemma export_json_body_spec items out pretty include_wrapper meta s r s' :
  JsonExporter.export_json_body E items out pretty include_wrapper meta s = (r, s') ->
  heap s' = heap s
  /\ match r with
     | Ok _ => True
     | Raise _ => files s' !! out = files s !! out
     end.
Proof.
  unfold JsonExporter.export_json_body. intros H.
  apply bind_inv in H. destruct H as [(e & H & ->) | (validated & s1 & H1 & H)];
    [apply lift_inv in H; destruct H as [_ ->]; auto |].
  apply lift_inv in H1. destruct H1 as [_ ->].
  apply bind_inv in H. destruct H as [(e & H & ->) | (s0 & s1 & H1 & H)];
    [discriminate H |].
  injection H1 as <- <-.
  apply bind_inv in H. destruct H as [(e & H & ->) | (keyed & s1 & H1 & H)];
    [apply lift_inv in H; destruct H as [_ ->]; auto |].
  apply lift_inv in H1. destruct H1 as [_ ->].
  apply bind_inv in H.
  pose proof (build_doc_same_store
                (map (to_json_safe E (heap s)) (SortKey.sort_by keyed))
                include_wrapper meta) as Hdoc.
  destruct H as [(e & H & ->) | (doc & s1 & H1 & H)].
  { apply Hdoc in H. destruct H as [Hh Hf]. rewrite Hf. auto. }
  apply Hdoc in H1. destruct H1 as [Hh Hf].
  apply bind_inv in H. destruct H as [(e & H & ->) | (json_text & s2 & H1 & H)];
    [apply lift_inv in H; destruct H as [_ ->]; rewrite Hf; auto |].
  apply lift_inv in H1. destruct H1 as [_ ->].
  apply bind_inv in H. destruct H as [(e & H & ->) | ([] & s2 & H1 & H)].
  - apply atomic_write_spec in H. destruct H as (Hh' & _ & Hf').
    rewrite Hh', Hf', Hf. auto.
  - apply atomic_write_spec in H1. destruct H1 as (Hh' & _).
    injection H as <- <-. split; [congruence | exact I].
Qed.

(** [export_json] raises nothing but [JSONExportError], never changes a list
    object, and leaves the destination alone whenever it raises. *)
Lemma export_json_spec items output_path pretty include_wrapper meta s r s' :
  JsonExporter.export_json E items output_path pretty include_wrapper meta s = (r, s') ->
  heap s' = heap s
  /\ match r with
     | Ok _ => True
     | Raise e =>
         exn_cls e = JSONExportError
         /\ files s' !! env_Path E output_path = files s !! env_Path E output_path
     end.
Proof.
  unfold JsonExporter.export_json, try_except.
  destruct (JsonExporter.export_json_body E items (env_Path E output_path)
              pretty include_wrapper meta s) as [[a|e] s1] eqn:Hb;
    apply export_json_body_spec in Hb; destruct Hb as [Hh Hf].
  - intros [= <- <-]. auto.
  - destruct (decide (exn_cls e = JSONExportError)) as [Hc|Hc];
      intros [= <- <-]; auto.
Qed.

(** An element that must be refused stops [export_json] before anything
    else happens. *)
Lemma export_json_refuses items output_path pretty include_wrapper meta s :
  Exists not_exportable items ->
  exists e,
    JsonExporter.export_json E items output_path pretty include_wrapper meta s
    = (Raise e, s)
    /\ exn_cls e = JSONExportError.
Proof.
  intros H. destruct (json_validate_bad items 0 H) as (e & He & Hc).
  exists e. split; [| exact Hc].
  unfold JsonExporter.export_json, try_except, JsonExporter.export_json_body,
    JsonExporter._validate_items, bind, lift.
  rewrite He. destruct (decide _); [reflexivity | contradiction].
Qed.

(** *** The text exporter *)

Lemma txt_validate_bad items : forall i,
  Exists not_exportable items ->
  exists e, TxtExporter._validate_items_from i items = Raise e
            /\ exn_cls e = TXTExportError.
Proof.
  induction items as [|o items IH]; intros i H; [inversion H |].
  destruct o as [t|v]; simpl; [| eauto].
  destruct (is_True (disabled_by_default t)) eqn:Ht; simpl; [| eauto].
  inversion H as [? ? Hbad | ? ? Hex]; subst.
  - simpl in Hbad. apply ModelsFacts.is_True_spec in Ht. contradiction.
  - destruct (IH (S i) Hex) as (e & -> & He). simpl. eauto.
Qed.

Lemma header_lines_same_store h count sep include_header meta :
  preserves same_store (TxtExporter.header_lines E h count sep include_header meta).
Proof.
  unfold TxtExporter.header_lines. destruct include_header.
  - apply (preserves_bind same_store same_store_trans).
    + unfold TxtExporter._now_iso_utc.
      apply (preserves_bind same_store same_store_trans);
        [apply now_utc_same_store |].
      intros d. apply (preserves_ret same_store same_store_refl).
    + intros now. apply (preserves_ret same_store same_store_refl).
  - apply (preserves_ret same_store same_store_refl).
Qed.

Lemma export_txt_body_spec items out include_header meta line_width s r s' :
  TxtExporter.export_txt_body E items out include_header meta line_width s = (r, s') ->
  heap s' = heap s
  /\ match r with
     | Ok _ => True
     | Raise _ => files s' !! out = files s !! out
     end.
Proof.
  unfold TxtExporter.export_txt_body. intros H.
  apply bind_inv in H. destruct H as [(e & H & ->) | (validated & s1 & H1 & H)];
    [apply lift_inv in H; destruct H as [_ ->]; auto |].
  apply lift_inv in H1. destruct H1 as [_ ->].
  apply bind_inv in H. destruct H as [(e & H & ->) | (s0 & s1 & H1 & H)];
    [discriminate H |].
  injection H1 as <- <-. cbv zeta in H.
  apply bind_inv in H. destruct H as [(e & H & ->) | (header & s1 & H1 & H)].
  { apply header_lines_same_store in H. destruct H as [Hh Hf]. rewrite Hf. auto. }
  apply header_lines_same_store in H1. destruct H1 as [Hh Hf].
  apply bind_inv in H. destruct H as [(e & H & ->) | ([] & s2 & H1 & H)].
  - apply atomic_write_spec in H. destruct H as (Hh' & _ & Hf').
    rewrite Hh', Hf', Hf. auto.
  - apply atomic_write_spec in H1. destruct H1 as (Hh' & _).
    injection H as <- <-. split; [congruence | exact I].
Qed.

(** [export_txt] raises nothing but [TXTExportError], never changes a list
    object, and leaves the destination alone whenever it raises. *)
Lemma export_txt_spec items output_path include_header meta line_width s r s' :
  TxtExporter.export_txt E items output_path include_header meta line_width s = (r, s') ->
  heap s' = heap s
  /\ match r with
     | Ok _ => True
     | Raise e =>
         exn_cls e = TXTExportError
         /\ files s' !! env_Path E output_path = files s !! env_Path E output_path
     end.
Proof.
  unfold TxtExporter.export_txt, try_except.
  destruct (TxtExporter.export_txt_body E items (env_Path E output_path)
              include_header meta line_width s) as [[a|e] s1] eqn:Hb;
    apply export_txt_body_spec in Hb; destruct Hb as [Hh Hf].
  - intros [= <- <-]. auto.
  - destruct (decide (exn_cls e = TXTExportError)) as [Hc|Hc];
      intros [= <- <-]; auto.
Qed.

Lemma export_txt_refuses items output_path include_header meta line_width s :
  Exists not_exportable items ->
  exists e,
    TxtExporter.export_txt E items output_path include_header meta line_width s
    = (Raise e, s)
    /\ exn_cls e = TXTExportError.
Proof.
  intros H. destruct (txt_validate_bad items 0 H) as (e & He & Hc).
  exists e. split; [| exact Hc].
  unfold TxtExporter.export_txt, try_except, TxtExporter.export_txt_body,
    TxtExporter._validate_items, bind, lift.
  rewrite He. destruct (decide _); [reflexivity | contradiction].
Qed.

End WithEnv.
End ExporterFacts.

(** C4.  Both exporters refuse an input with an element that is not a
    [PayloadTemplate] or whose [disabled_by_default] is not [True]: the
    export fails with the exporter's error and nothing at all has been
    written, the state being the one before the call.  And whenever an
    export fails, for whatever reason, it fails with the exporter's error
    and the destination file is as it was before: absent if it was absent,
    with its earlier content otherwise. *)
Theorem C4_exporters_refuse_and_are_atomic (E : Env) :
  (forall items output_path pretty include_wrapper meta s,
      Exists not_exportable items ->
      exists e,
        JsonExporter.export_json E items output_path pretty include_wrapper meta s
        = (Raise e, s)
        /\ exn_cls e = JSONExportError)
  /\ (forall items output_path include_header meta line_width s,
        Exists not_exportable items ->
        exists e,
          TxtExporter.export_txt E items output_path include_header meta line_width s
          = (Raise e, s)
          /\ exn_cls e = TXTExportError)
  /\ (forall items output_path pretty include_wrapper meta s e s',
        JsonExporter.export_json E items output_path pretty include_wrapper meta s
        = (Raise e, s') ->
        exn_cls e = JSONExportError
        /\ files s' !! env_Path E output_path = files s !! env_Path E output_path)
  /\ (forall items output_path include_header meta line_width s e s',
        TxtExporter.export_txt E items output_path include_header meta line_width s
        = (Raise e, s') ->
        exn_cls e = TXTExportError
        /\ files s' !! env_Path E output_path = files s !! env_Path E output_path).
Proof.
  split; [| split; [| split]].
  - intros. apply ExporterFacts.export_json_refuses. assumption.
  - intros. apply ExporterFacts.export_txt_refuses. assumption.
  - intros items output_path pretty include_wrapper meta s e s' H.
    apply ExporterFacts.export_json_spec in H. apply H.
  - intros items output_path include_header meta line_width s e s' H.
    apply ExporterFacts.export_txt_spec in H. apply H.
Qed.

(** C4 at the inputs of tests/test_exporters.py, the list [[123]] and a
    record with the flag set to [False]; and on an export of
    [make_payload()] over an earlier file, with a write that stops midway
    (JSON) and with a rename that fails (text): the earlier content is
    still there. *)
Lemma C4_exporters_refuse_and_are_atomic_witness :
  (exists e,
      JsonExporter.export_json Sample.env [IOther (VInt 123)] "out.json"
        true true None Sample.with_old_file = (Raise e, Sample.with_old_file)
      /\ exn_cls e = JSONExportError)
  /\ (exists e,
        TxtExporter.export_txt Sample.env [ITemplate Sample.flag_off] "out.json"
          true None 72 Sample.with_old_file = (Raise e, Sample.with_old_file)
        /\ exn_cls e = TXTExportError)
  /\ (exists e s',
        JsonExporter.export_json Sample.write_fails [ITemplate Sample.make_payload]
          "out.json" true true None Sample.with_old_file = (Raise e, s')
        /\ exn_cls e = JSONExportError
        /\ files s' !! (".", "out.json") = Some "old content")
  /\ (exists e s',
        TxtExporter.export_txt Sample.rename_fails [ITemplate Sample.make_payload]
          "out.json" true None 72 Sample.with_old_file = (Raise e, s')
        /\ exn_cls e = TXTExportError
        /\ files s' !! (".", "out.json") = Some "old content").
Proof.
  split; [| split; [| split]].
  - apply (proj1 (C4_exporters_refuse_and_are_atomic Sample.env)).
    constructor. exact I.
  - apply (proj1 (proj2 (C4_exporters_refuse_and_are_atomic Sample.env))).
    constructor. simpl. discriminate.
  - destruct (JsonExporter.export_json Sample.write_fails _ _ _ _ _ _)
      as [[a|e] s'] eqn:H; [vm_compute in H; discriminate H |].
    exists e, s'. split; [reflexivity |].
    destruct (proj1 (proj2 (proj2 (C4_exporters_refuse_and_are_atomic Sample.write_fails)))
                _ _ _ _ _ _ _ _ H) as [Hc Hf].
    split; [exact Hc |]. etransitivity; [exact Hf | reflexivity].
  - destruct (TxtExporter.export_txt Sample.rename_fails _ _ _ _ _ _)
      as [[a|e] s'] eqn:H; [vm_compute in H; discriminate H |].
    exists e, s'. split; [reflexivity |].
    destruct (proj2 (proj2 (proj2 (C4_exporters_refuse_and_are_atomic Sample.rename_fails)))
                _ _ _ _ _ _ _ _ H) as [Hc Hf].
    split; [exact Hc |]. etransitivity; [exact Hf | reflexivity].
Defined.

(** ** The whole run *)

Module RunFacts.
Import Pipeline Outcome Models Registry Spec.

Section WithEnv.
Variable E : Env.

(** The export step of [run] returns the records it was given and leaves
    list objects alone. *)
Lemma export_step_Ok (a : run_args) (items out : list obj) s s' :
  match arg_export_format a with
  | Some (String _ _ as export_format) =>
      match arg_output_path a with
      | Some (String _ _ as output_path) =>
          if String.eqb export_format "json" then
            JsonExporter.export E items output_path (arg_meta a) ;;; ret items
          else if String.eqb export_format "txt" then
            TxtExporter.export E items output_path (arg_meta a) ;;; ret items
          else
            raise (pipeline_error
              ("Unsupported export format '" ++ export_format ++ "'."))
      | _ => raise (pipeline_error "Output path required when export_format is set.")
      end
  | _ => ret items
  end s = (Ok out, s') ->
  out = items /\ heap s' = heap s.
Proof.
  destruct (arg_export_format a) as [[|c fmt]|]; try (intros [= <- <-]; auto).
  destruct (arg_output_path a) as [[|c' p]|]; try discriminate.
  destruct (String.eqb _ "json").
  - intros H. apply bind_Ok in H. destruct H as (x & s1 & H1 & H).
    injection H as <- <-. apply ExporterFacts.export_json_spec in H1.
    destruct H1 as [Hh _]. auto.
  - destruct (String.eqb _ "txt"); [| discriminate].
    intros H. apply bind_Ok in H. destruct H as (x & s1 & H1 & H).
    injection H as <- <-. apply ExporterFacts.export_txt_spec in H1.
    destruct H1 as [Hh _]. auto.
Qed.

(** What a JSON export raises at the end of a run is what the run raises:
    nothing wraps it. *)
Lemma run_export_error_unwrapped (reg : ModuleRegistry) (a : run_args)
    (c : ascii) (output_path : string) items s s1 e s2 :
  Pipeline.generate reg (arg_module a) (arg_db_type a) (arg_os_type a)
    (arg_context a) s = (Ok items, s1) ->
  arg_encoding a = None -> arg_obfuscation a = None ->
  arg_export_format a = Some "json" ->
  arg_output_path a = Some (String c output_path) ->
  JsonExporter.export E items (String c output_path) (arg_meta a) s1 = (Raise e, s2) ->
  run E reg a s = (Raise e, s2) /\ exn_cls e = JSONExportError.
Proof.
  intros Hgen Henc Hobf Hfmt Hpath Hexp. split.
  - unfold run. unfold bind at 1. rewrite Hgen, Henc, Hobf, Hfmt, Hpath.
    unfold bind at 1 2, ret at 1 2.
    change (String.eqb "json" "json") with true. cbv iota.
    unfold bind. rewrite Hexp. reflexivity.
  - apply ExporterFacts.export_json_spec in Hexp. apply Hexp.
Qed.

(** A run that was asked for an obfuscation and returned: every record
    returned has the technique in its history. *)
Lemma run_obfuscated (reg : ModuleRegistry) (a : run_args) technique s out s' :
  arg_obfuscation a = Some technique -> technique <> "" ->
  run E reg a s = (Ok out, s') ->
  Forall (obfuscated_with (heap s') technique) out.
Proof.
  intros Ha Hne H. unfold run in H.
  apply bind_Ok in H. destruct H as (items0 & s1 & _ & H).
  apply bind_Ok in H. destruct H as (items1 & s2 & _ & H).
  apply bind_Ok in H. destruct H as (items2 & s3 & Hobf & H).
  rewrite Ha in Hobf. destruct technique as [|c technique]; [contradiction |].
  apply PipelineFacts.apply_obfuscation_Ok in Hobf. destruct Hobf as [_ Hall].
  apply export_step_Ok in H. destruct H as [-> ->]. exact Hall.
Qed.

End WithEnv.
End RunFacts.

(** C8.  [obfuscate_payload] raises an [ObfuscationError], whatever the
    mode, when the marker pattern does not match the text, and so in
    particular when the text contains neither a "<<...>>" marker nor the
    word TEMPLATE in any letter case; with a supported mode the error is
    the refusal of the guard unless the text is empty.  It succeeds on
    "<<TEMPLATE>> x" with mode "mixed".  After the pipeline has applied an
    obfuscation, in [apply_obfuscation_to_all] alone or in a whole [run],
    the obfuscation history of every record returned includes the name of
    the mode. *)
Theorem C8_obfuscation_guard_and_history (E : Env) :
  (forall text mode,
      Obfuscator._TEMPLATE_MARKER_RE_search text = false ->
      raises (Obfuscator.obfuscate_payload (VStr text) mode) ObfuscationError)
  /\ (forall text mode,
        ~ contains_bracketed_marker text -> ~ contains_word_TEMPLATE text ->
        raises (Obfuscator.obfuscate_payload (VStr text) mode) ObfuscationError)
  /\ (forall text mode,
        Obfuscator._TEMPLATE_MARKER_RE_search text = false ->
        text <> "" -> Obfuscator.is_supported_obfuscation mode = true ->
        Obfuscator.obfuscate_payload (VStr text) mode
        = Raise (Exc ObfuscationError Obfuscator.refusal))
  /\ Obfuscator.obfuscate_payload (VStr "<<TEMPLATE>> x") (Some "mixed")
     = Ok ("<<T/*OBF*/EM/*OBF*/PLAT/*OBF*/E>> " ++ String "009" " x")
  /\ (forall items technique s out s',
        Pipeline.apply_obfuscation_to_all items technique s = (Ok out, s') ->
        Forall (obfuscated_with (heap s') technique) out)
  /\ (forall (reg : ModuleRegistry) a technique s out s',
        Pipeline.arg_obfuscation a = Some technique -> technique <> "" ->
        Pipeline.run E reg a s = (Ok out, s') ->
        Forall (obfuscated_with (heap s') technique) out).
Proof.
  split; [| split; [| split; [| split; [| split]]]].
  - intros text mode H. apply ObfuscatorFacts.obfuscate_without_marker. exact H.
  - intros text mode Hb Hw. apply ObfuscatorFacts.obfuscate_without_marker.
    apply ObfuscatorFacts.no_marker_no_match; assumption.
  - intros text mode Hs Hne Hm. apply ObfuscatorFacts.obfuscate_refusal; assumption.
  - reflexivity.
  - intros items technique s out s' H.
    apply PipelineFacts.apply_obfuscation_Ok in H. apply H.
  - intros reg a technique s out s'. apply RunFacts.run_obfuscated.
Qed.

(** C8 at the inputs of the specification: "plain text without marker" is
    refused in mode "mixed"; and the run of tests/test_pipeline.py, module
    [xss], context [html], obfuscation "mixed", returns records that all
    have "mixed" in their history. *)
Lemma C8_obfuscation_guard_and_history_witness :
  Obfuscator.obfuscate_payload (VStr "plain text without marker") (Some "mixed")
  = Raise (Exc ObfuscationError Obfuscator.refusal)
  /\ (exists out s',
        Pipeline.run_pipeline Sample.env
          (Pipeline.Build_run_args "xss" None None (Some "html") None (Some "mixed")
             None None None) Sample.empty_state = (Ok out, s')
        /\ length out = 2
        /\ Forall (obfuscated_with (heap s') "mixed") out).
Proof.
  destruct (C8_obfuscation_guard_and_history Sample.env)
    as (_ & _ & Hrefusal & _ & _ & Hrun).
  split.
  - apply Hrefusal; [reflexivity | discriminate | reflexivity].
  - destruct (Pipeline.run_pipeline Sample.env _ Sample.empty_state)
      as [[out|e] s'] eqn:H; [| vm_compute in H; discriminate H].
    exists out, s'. split; [reflexivity |]. split.
    + vm_compute in H. injection H as <- _. reflexivity.
    + eapply Hrun; [| | exact H]; [reflexivity | discriminate].
Defined.

(** ** Sharing of list objects between a record and its clone *)

Module SharingFacts.
Import Pipeline Outcome Models Registry Spec.

(** One turn of the loop of [apply_encoding_to_all] that did not raise. *)
Lemma encoding_step item rest method s out s' :
  apply_encoding_to_all (item :: rest) method s = (Ok out, s') ->
  exists t new_payload out',
    item = ITemplate t
    /\ Encoder.encode_payload (payload t) (Some method) = Ok new_payload
    /\ valid (heap s) (with_kwargs t [kw_payload (VStr new_payload)])
    /\ apply_encoding_to_all rest method
         (snd (append (encoding_applied t) (VStr method) s)) = (Ok out', s')
    /\ out = ITemplate (with_kwargs t [kw_payload (VStr new_payload)]) :: out'.
Proof.
  cbn [apply_encoding_to_all]. intros H.
  apply bind_Ok in H. destruct H as (new_payload & s1 & Htry & H).
  apply try_except_Ok in Htry; [| intros e s2; simpl; discriminate].
  apply lift_inv in Htry. destruct Htry as [Hp ->].
  apply bind_Ok in H. destruct H as (new_item & s2 & Hclone & H).
  apply PipelineFacts.clone_with_payload_Ok in Hclone.
  destruct Hclone as (t & -> & -> & -> & Hv).
  apply bind_Ok in H. destruct H as ([] & s3 & Hadd & H).
  apply bind_Ok in H. destruct H as (out' & s4 & Hrest & H).
  injection H as <- <-.
  unfold add_encoding in Hadd.
  destruct (PipelineFacts.with_payload_lists t (VStr new_payload)) as (He & _ & _).
  rewrite He in Hadd.
  exists t, new_payload, out'. simpl in Hp.
  split; [reflexivity |]. split; [symmetry; exact Hp |]. split; [exact Hv |].
  split; [rewrite Hadd; exact Hrest | reflexivity].
Qed.

(** Whenever the pipeline encodes a single record [r] and returns the clone
    [r'], the clone holds the very list objects of [r], and the encoding
    history read through [r] has gained the method name. *)
Lemma encoding_aliases r method s r' s' :
  apply_encoding_to_all [ITemplate r] method s = (Ok [ITemplate r'], s') ->
  encoding_applied r' = encoding_applied r
  /\ obfuscation_applied r' = obfuscation_applied r
  /\ tags r' = tags r
  /\ deref (heap s') (encoding_applied r)
     = (deref (heap s) (encoding_applied r) ++ [VStr method])%list.
Proof.
  intros H. apply encoding_step in H.
  destruct H as (t & new_payload & out' & Ht & _ & _ & Hrest & Hout).
  injection Ht as <-. injection Hrest as <- <-. injection Hout as ->.
  destruct (PipelineFacts.with_payload_lists r (VStr new_payload)) as (He & Ho & Ht).
  repeat split; try assumption.
  simpl. apply PipelineFacts.deref_insert_eq.
Qed.

End SharingFacts.

(** C2, evaluated.  The pipeline encodes [make_payload()], whose encoding
    history is empty, with "base64".  The clone it returns holds the same
    three list objects as the original, and the encoding history of the
    original now reads ["base64"]: an append made through the clone has
    changed the original. *)
Theorem C2_clone_shares_list_fields :
  deref (heap Sample.three_lists) (encoding_applied Sample.make_payload) = []
  /\ exists r' s',
       Pipeline.apply_encoding_to_all [ITemplate Sample.make_payload] "base64"
         Sample.three_lists = (Ok [ITemplate r'], s')
       /\ encoding_applied r' = encoding_applied Sample.make_payload
       /\ obfuscation_applied r' = obfuscation_applied Sample.make_payload
       /\ tags r' = tags Sample.make_payload
       /\ deref (heap s') (encoding_applied Sample.make_payload) = [VStr "base64"].
Proof.
  split; [reflexivity |].
  destruct (Pipeline.apply_encoding_to_all _ _ _) as [[out|e] s'] eqn:H;
    [| vm_compute in H; discriminate H].
  assert (Hlen : exists r', out = [ITemplate r']).
  { vm_compute in H. injection H as <- _. eexists. reflexivity. }
  destruct Hlen as (r' & ->). exists r', s'. split; [reflexivity |].
  destruct (SharingFacts.encoding_aliases _ _ _ _ _ H) as (He & Ho & Ht & Hd).
  split; [exact He |]. split; [exact Ho |]. split; [exact Ht |].
  rewrite Hd. reflexivity.
Qed.

(** C3, evaluated.  A run for module [xss], context [html], exporting JSON
    to out.json with the metadata key "schema": generation succeeds, the
    exporter refuses the reserved key, and what reaches the caller of [run]
    is the exporter's [JSONExportError] itself, not a [PipelineError]. *)
Theorem C3_export_error_escapes_run :
  exists s',
    Pipeline.run_pipeline Sample.env
      (Pipeline.Build_run_args "xss" None None (Some "html") None None
         (Some "json") (Some "out.json") (Some [("schema", VStr "x")]))
      Sample.empty_state
    = (Raise (Exc JSONExportError "meta contains reserved keys: ['schema']"), s').
Proof. eexists. vm_compute. reflexivity. Qed.

(** ** Hex output carries no marker *)

Module HexFacts.
Import Encoder Obfuscator Outcome Models Registry Spec.

Lemma all_chars_app P a b :
  all_chars P (a ++ b) = all_chars P a && all_chars P b.
Proof.
  induction a as [|c a IH]; simpl; [reflexivity |].
  rewrite IH. apply andb_assoc.
Qed.

Lemma hexlify_app a b : hexlify (a ++ b)%list = hexlify a ++ hexlify b.
Proof.
  induction a as [|x a IH]; [reflexivity |].
  cbn [hexlify app hex_byte append]. rewrite IH. reflexivity.
Qed.

(** The two or four digits written for one character. *)
Lemma hexlify_char_hex (c : ascii) :
  all_chars is_hex (hexlify (utf8_char c)) = true
  /\ hexlify (utf8_char c) <> "".
Proof.
  destruct c as [[] [] [] [] [] [] [] []]; split; (reflexivity || discriminate).
Qed.

Lemma hexlify_utf8_hex (s : string) : all_chars is_hex (hexlify (utf8 s)) = true.
Proof.
  induction s as [|c s IH]; [reflexivity |].
  cbn [utf8]. rewrite hexlify_app, all_chars_app, IH.
  rewrite (proj1 (hexlify_char_hex c)). reflexivity.
Qed.

Lemma hexlify_utf8_nonempty (s : string) : s <> "" -> hexlify (utf8 s) <> "".
Proof.
  destruct s as [|c s]; [contradiction |]. intros _.
  cbn [utf8]. rewrite hexlify_app.
  pose proof (proj2 (hexlify_char_hex c)) as H.
  destruct (hexlify (utf8_char c)); [contradiction | discriminate].
Qed.

(** A hex digit is not "<", not a letter of TEMPLATE, not white space. *)
Lemma hex_char_plain (c : ascii) :
  is_hex c = true ->
  Ascii.eqb c "<" = false
  /\ Ascii.eqb "t" (Text.lower_char c) = false
  /\ Text.isspace c = false.
Proof.
  destruct c as [[] [] [] [] [] [] [] []]; intros H;
    try discriminate H; repeat split.
Qed.



Lemma hex_not_blank (s : string) :
  all_chars is_hex s = true -> s <> "" -> Text.blank s = false.
Proof.
  destruct s as [|c s]; [contradiction |]. intros H _.
  cbn [all_chars] in H. apply andb_true_iff in H. destruct H as [Hc _].
  apply TextFacts.blank_nonspace. apply (hex_char_plain c Hc).
Qed.



End HexFacts.

(** ** The generators the program ships with *)

Module GeneratorFacts.
Import Outcome Models Registry Spec.


Lemma nonempty_length {A} (l : list A) n : length l = S n -> l <> [].
Proof. intros H ->. discriminate H. Qed.

Section WithEnv.
Variable E : Env.

Lemma normalize_context_cases context ctx :
  Xss._normalize_context context = Ok ctx ->
  ctx = None \/ ctx = Some "html" \/ ctx = Some "attr" \/ ctx = Some "js".
Proof.
  unfold Xss._normalize_context. destruct context as [raw|]; [| intros [= <-]; auto].
  destruct (String.eqb _ ""); [intros [= <-]; auto |].
  destruct (Text.mem _ _) eqn:Hm; simpl; [| discriminate].
  intros [= <-]. apply ModelsFacts.mem_In in Hm. simpl in Hm.
  destruct Hm as [<- | [<- | [<- | []]]]; auto.
Qed.





End WithEnv.

(** When the re-validation loop returns, every element is a valid record. *)
Lemma revalidate_Ok name h items : forall i u,
  revalidate name h i items = Ok u -> Forall (valid_record h) items.
Proof.
  induction items as [|o items IH]; intros i u H; [constructor |].
  destruct o as [t|v]; [| discriminate H]. simpl in H.
  destruct (_validate h t) as [[]|e] eqn:Hv.
  - constructor; [| eapply IH; eassumption].
    exists t. split; [reflexivity |]. eapply ModelsFacts.validate_Ok; eassumption.
  - destruct (decide _); discriminate H.
Qed.

(** What [Registry.generate] returns: the generator's list, all valid. *)
Lemma generate_Ok (reg : ModuleRegistry) name db_type os_type context s items s' :
  generate reg name db_type os_type context s = (Ok items, s') ->
  exists spec s0,
    reg !! name = Some spec
    /\ call_generator spec db_type os_type context s0 = (Ok (RList items), s')
    /\ Forall (valid_record (heap s')) items.
Proof.
  unfold generate. intros H.
  apply bind_Ok in H. destruct H as ([] & s1 & _ & H).
  apply bind_Ok in H. destruct H as (spec & s2 & Hspec & H).
  apply lift_inv in Hspec. destruct Hspec as [Hspec _]. unfold get_spec in Hspec.
  destruct (reg !! name) as [spec'|] eqn:Hl; [| discriminate]. injection Hspec as ->.
  apply bind_Ok in H. destruct H as (g & s3 & Hcall & H).
  destruct g as [its|v]; [| discriminate].
  apply bind_Ok in H. destruct H as ([] & s4 & Hre & H).
  injection H as <- <-. injection Hre as Hre <-.
  exists spec', s2. split; [reflexivity |]. split; [exact Hcall |].
  eapply revalidate_Ok. eassumption.
Qed.

End GeneratorFacts.

(** ** Hex encoding followed by obfuscation, in a run *)

Module HexRunFacts.
Import Pipeline Outcome Models Registry Spec.

(** Appending a string keeps every list of strings a list of strings. *)
Lemma append_keeps_strings l x s :
  keeps_strings (heap s) (heap (snd (append l (VStr x) s))).
Proof.
  intros l' H. simpl. destruct (decide (l = l')) as [<-|Hne].
  - rewrite PipelineFacts.deref_insert_eq, forallb_app, H. reflexivity.
  - rewrite PipelineFacts.deref_insert_ne by exact Hne. exact H.
Qed.

Lemma validate_tags_keeps h h' v :
  keeps_strings h h' -> validate_tags h v = Ok tt -> validate_tags h' v = Ok tt.
Proof.
  intros Hk. destruct v; simpl; try discriminate.
  intros H. apply rraise_if_Ok in H. apply negb_false_iff in H.
  rewrite (Hk _ H). reflexivity.
Qed.

Lemma valid_keeps h h' t : keeps_strings h h' -> valid h t -> valid h' t.
Proof.
  intros Hk [Hm Ht Hp Hr Hd Htg Hs Hc].
  constructor; try assumption. eapply validate_tags_keeps; eassumption.
Qed.

(** Replacing the payload of a valid record by a text that is not blank
    gives a valid record. *)
Lemma valid_with_payload h t x :
  valid h t -> Text.blank x = false ->
  valid h (with_kwargs t [kw_payload (VStr x)]).
Proof.
  intros [Hm Ht Hp Hr Hd Htg Hs Hc] Hx. destruct t.
  constructor; try assumption.
Qed.

Lemma valid_payload_text h t :
  valid h t -> exists text, payload t = VStr text /\ Text.blank text = false.
Proof.
  intros Hv. pose proof (valid_payload h t Hv) as H.
  destruct (payload t); try discriminate H. eauto.
Qed.



(** Whatever [PayloadPipeline.generate] raises is a [PipelineError] whose
    cause is what the registry raised. *)
Lemma generate_raises (reg : ModuleRegistry) name db_type os_type context s e s' :
  Pipeline.generate reg name db_type os_type context s = (Raise e, s') ->
  exn_cls e = PipelineError
  /\ exists e0,
       Registry.generate reg name db_type os_type context s = (Raise e0, s')
       /\ exn_cause e = Some e0.
Proof.
  unfold Pipeline.generate, try_except.
  destruct (Registry.generate _ _ _ _ _ _) as [[items|e0] s1]; [discriminate |].
  intros [= <- <-]. split; [reflexivity |]. exists e0. auto.
Qed.

Lemma generate_returns (reg : ModuleRegistry) name db_type os_type context s items s' :
  Pipeline.generate reg name db_type os_type context s = (Ok items, s') ->
  Registry.generate reg name db_type os_type context s = (Ok items, s').
Proof.
  unfold Pipeline.generate, try_except.
  destruct (Registry.generate _ _ _ _ _ _) as [[items0|e0] s1]; [auto | discriminate].
Qed.

Section WithEnv.
Variable E : Env.


End WithEnv.
End HexRunFacts.




(* ===================================================================== *)
(** * Further properties of the code *)
(* ===================================================================== *)

(** ** The encoders *)

Module EncodingFacts.
Import Encoder Outcome Spec.

Lemma length_append (a b : string) :
  String.length (a ++ b) = String.length a + String.length b.
Proof. induction a as [|c a IH]; simpl; [reflexivity | rewrite IH; reflexivity]. Qed.


Lemma utf8_char_length c : length (utf8_char c) = 1 \/ length (utf8_char c) = 2.
Proof. unfold utf8_char. destruct (_ <? _)%N; auto. Qed.

Lemma utf8_length text :
  String.length text <= length (utf8 text) <= 2 * String.length text.
Proof.
  induction text as [|c text IH]; [simpl; lia |].
  cbn [utf8 String.length]. rewrite length_app.
  destruct (utf8_char_length c) as [-> | ->]; lia.
Qed.


(** The three encoders always return. *)
Lemma encoder_cases name encoder :
  lookup name _ENCODING_METHODS = Some encoder ->
  (name = "url" /\ encoder = _url_encode)
  \/ (name = "base64" /\ encoder = _base64_encode)
  \/ (name = "hex" /\ encoder = _hex_encode).
Proof.
  simpl. destruct (String.eqb_spec name "url") as [->|_]; [intros [= <-]; auto |].
  destruct (String.eqb_spec name "base64") as [->|_]; [intros [= <-]; auto |].
  destruct (String.eqb_spec name "hex") as [->|_]; [intros [= <-]; auto |].
  discriminate.
Qed.


(** N-ary induction for functions that consume three bytes at a time. *)
Lemma by_threes (P : list N -> Prop) :
  P [] -> (forall a, P [a]) -> (forall a b, P [a; b]) ->
  (forall a b c r, P r -> P (a :: b :: c :: r)) ->
  forall l, P l.
Proof.
  intros H0 H1 H2 H3 l.
  assert (H : P l /\ (forall a, P (a :: l)) /\ (forall a b, P (a :: b :: l))).
  { induction l as [|x l (IH0 & IH1 & IH2)]; [auto |].
    split; [apply IH1 |]. split; [intros a; apply IH2 |].
    intros a b. apply H3. exact IH0. }
  apply H.
Qed.

Lemma b64encode_length bs :
  String.length (b64encode bs) = 4 * ((length bs + 2) / 3).
Proof.
  induction bs as [| a | a b | a b c r IH] using by_threes; try reflexivity.
  change (b64encode (a :: b :: c :: r))
    with (str1 (b64_char (a / 4)) ++ str1 (b64_char ((a mod 4) * 16 + b / 16))
          ++ str1 (b64_char ((b mod 16) * 4 + c / 64)) ++ str1 (b64_char (c mod 64))
          ++ b64encode r).
  rewrite !length_append, IH. cbn [str1 String.length length].
  replace (S (S (S (length r))) + 2) with (length r + 2 + 1 * 3) by lia.
  rewrite Nat.div_add by lia. lia.
Qed.

Lemma all_chars_append P a b :
  all_chars P (a ++ b) = all_chars P a && all_chars P b.
Proof.
  induction a as [|c a IH]; simpl; [reflexivity |].
  rewrite IH. apply andb_assoc.
Qed.

(** UTF-8 bytes are bytes. *)
Lemma utf8_bytes text : forallb (fun b => (b <? 256)%N) (utf8 text) = true.
Proof.
  induction text as [|c text IH]; [reflexivity |].
  cbn [utf8]. rewrite forallb_app, IH, andb_true_r.
  destruct c as [[] [] [] [] [] [] [] []]; reflexivity.
Qed.

Lemma b64_char_ok (n : N) : (n < 64)%N -> is_b64 (b64_char n) = true.
Proof.
  intros H. unfold b64_char.
  assert (Hk : N.to_nat n < 64) by lia.
  generalize dependent (N.to_nat n). intros k Hk.
  do 64 (destruct k as [|k]; [reflexivity |]). lia.
Qed.

Lemma sextet_bounds (a b : N) :
  (a < 256)%N -> (b < 256)%N ->
  (a / 4 < 64)%N /\ ((a mod 4) * 16 + b / 16 < 64)%N
  /\ ((a mod 16) * 4 + b / 64 < 64)%N /\ (a mod 64 < 64)%N
  /\ ((a mod 4) * 16 < 64)%N /\ ((a mod 16) * 4 < 64)%N.
Proof.
  intros Ha Hb.
  assert (a / 4 < 64)%N by (apply N.Div0.div_lt_upper_bound; lia).
  assert (b / 16 < 16)%N by (apply N.Div0.div_lt_upper_bound; lia).
  assert (b / 64 < 4)%N by (apply N.Div0.div_lt_upper_bound; lia).
  assert (a mod 4 < 4)%N by (apply N.mod_upper_bound; lia).
  assert (a mod 16 < 16)%N by (apply N.mod_upper_bound; lia).
  assert (a mod 64 < 64)%N by (apply N.mod_upper_bound; lia).
  repeat split; lia.
Qed.

Lemma all_chars_str1 P c : all_chars P (str1 c) = P c.
Proof. simpl. apply andb_true_r. Qed.

Lemma b64encode_chars bs :
  forallb (fun b => (b <? 256)%N) bs = true -> all_chars is_b64 (b64encode bs) = true.
Proof.
  induction bs as [| a | a b | a b c r IH] using by_threes; intros H.
  - reflexivity.
  - cbn [forallb] in H. rewrite andb_true_r in H. apply N.ltb_lt in H.
    destruct (sextet_bounds a a H H) as (H1 & _ & _ & _ & H5 & _).
    cbn [b64encode]. unfold str1. simpl.
    rewrite (b64_char_ok _ H1), (b64_char_ok _ H5). reflexivity.
  - cbn [forallb] in H. rewrite andb_true_r in H.
    apply andb_true_iff in H. destruct H as [Ha Hb].
    apply N.ltb_lt in Ha, Hb.
    destruct (sextet_bounds a b Ha Hb) as (H1 & H2 & _).
    destruct (sextet_bounds b b Hb Hb) as (_ & _ & _ & _ & _ & H6).
    cbn [b64encode]. unfold str1. simpl.
    rewrite (b64_char_ok _ H1), (b64_char_ok _ H2), (b64_char_ok _ H6). reflexivity.
  - cbn [forallb] in H.
    apply andb_true_iff in H. destruct H as [Ha H].
    apply andb_true_iff in H. destruct H as [Hb H].
    apply andb_true_iff in H. destruct H as [Hc Hr].
    apply N.ltb_lt in Ha, Hb, Hc.
    destruct (sextet_bounds a b Ha Hb) as (H1 & H2 & _).
    destruct (sextet_bounds b c Hb Hc) as (_ & _ & H3 & _).
    destruct (sextet_bounds c c Hc Hc) as (_ & _ & _ & H4 & _).
    change (b64encode (a :: b :: c :: r))
      with (str1 (b64_char (a / 4)) ++ str1 (b64_char ((a mod 4) * 16 + b / 16))
            ++ str1 (b64_char ((b mod 16) * 4 + c / 64)) ++ str1 (b64_char (c mod 64))
            ++ b64encode r).
    rewrite !all_chars_append, !all_chars_str1.
    rewrite (b64_char_ok _ H1), (b64_char_ok _ H2), (b64_char_ok _ H3),
      (b64_char_ok _ H4), (IH Hr). reflexivity.
Qed.

Lemma quote_bytes_app a b : quote_bytes (a ++ b)%list = quote_bytes a ++ quote_bytes b.
Proof.
  induction a as [|x a IH]; [reflexivity |].
  change (quote_bytes ((x :: a) ++ b)%list)
    with ((if always_safe x then String (Text.chr x) EmptyString
           else "%" ++ hex_byte true x) ++ quote_bytes (a ++ b)%list).
  change (quote_bytes (x :: a))
    with ((if always_safe x then String (Text.chr x) EmptyString
           else "%" ++ hex_byte true x) ++ quote_bytes a).
  rewrite IH. destruct (always_safe x); reflexivity.
Qed.

(** What percent-encoding writes for one character. *)
Lemma quote_char (c : ascii) :
  all_chars is_url_char (quote_bytes (utf8_char c)) = true
  /\ (is_unreserved c = true -> quote_bytes (utf8_char c) = String c EmptyString).
Proof.
  destruct c as [[] [] [] [] [] [] [] []];
    (split; [reflexivity | intros H; try discriminate H; reflexivity]).
Qed.

Lemma quote_utf8_chars text : all_chars is_url_char (quote_bytes (utf8 text)) = true.
Proof.
  induction text as [|c text IH]; [reflexivity |].
  cbn [utf8]. rewrite quote_bytes_app, all_chars_append, IH.
  rewrite (proj1 (quote_char c)). reflexivity.
Qed.

Lemma quote_unreserved text :
  all_chars is_unreserved text = true -> quote_bytes (utf8 text) = text.
Proof.
  induction text as [|c text IH]; [reflexivity |].
  cbn [all_chars utf8]. intros H. apply andb_true_iff in H. destruct H as [Hc Ht].
  rewrite quote_bytes_app, (proj2 (quote_char c) Hc), (IH Ht). reflexivity.
Qed.

(** Reading back the first character of a hex or percent-encoded text. *)
Lemma hex_head (c : ascii) (rest : string) :
  hex_head_char (hexlify (utf8_char c) ++ rest) = Some (c, rest).
Proof. destruct c as [[] [] [] [] [] [] [] []]; reflexivity. Qed.

Lemma url_head (c : ascii) (rest : string) :
  url_head_char (quote_bytes (utf8_char c) ++ rest) = Some (c, rest).
Proof. destruct c as [[] [] [] [] [] [] [] []]; reflexivity. Qed.

Lemma hexlify_utf8_injective a : forall b,
  hexlify (utf8 a) = hexlify (utf8 b) -> a = b.
Proof.
  induction a as [|c a IH]; intros [|d b] H.
  - reflexivity.
  - apply (f_equal hex_head_char) in H. cbn [utf8] in H.
    rewrite HexFacts.hexlify_app, hex_head in H. discriminate H.
  - apply (f_equal hex_head_char) in H. cbn [utf8] in H.
    rewrite HexFacts.hexlify_app, hex_head in H. discriminate H.
  - apply (f_equal hex_head_char) in H. cbn [utf8] in H.
    rewrite !HexFacts.hexlify_app, !hex_head in H.
    injection H as -> H. f_equal. apply IH. exact H.
Qed.

Lemma quote_utf8_injective a : forall b,
  quote_bytes (utf8 a) = quote_bytes (utf8 b) -> a = b.
Proof.
  induction a as [|c a IH]; intros [|d b] H.
  - reflexivity.
  - apply (f_equal url_head_char) in H. cbn [utf8] in H.
    rewrite quote_bytes_app, url_head in H. discriminate H.
  - apply (f_equal url_head_char) in H. cbn [utf8] in H.
    rewrite quote_bytes_app, url_head in H. discriminate H.
  - apply (f_equal url_head_char) in H. cbn [utf8] in H.
    rewrite !quote_bytes_app, !url_head in H.
    injection H as -> H. f_equal. apply IH. exact H.
Qed.

End EncodingFacts.





(** X3.  Base64 encoding writes four characters for every three bytes,
    rounding up: the output length is four times the number of byte
    triples, so always a multiple of four, and every character is a letter,
    a digit, "+", "/" or the padding sign "=". *)
Theorem base64_encoding_shape (text method out : string) :
  Text.lower (Text.strip method) = "base64" ->
  Encoder.encode_payload (VStr text) (Some method) = Ok out ->
  String.length out = 4 * ((length (Encoder.utf8 text) + 2) / 3)
  /\ all_chars is_b64 out = true.
Proof.
  intros Hm H.
  assert (Hb : Text.blank text = false).
  { unfold Encoder.encode_payload in H. destruct (Text.blank text); [discriminate | reflexivity]. }
  unfold Encoder.encode_payload in H. rewrite Hb in H. simpl or_empty in H.
  rewrite Hm in H. injection H as <-.
  split; [apply EncodingFacts.b64encode_length |].
  apply EncodingFacts.b64encode_chars, EncodingFacts.utf8_bytes.
Qed.

Lemma base64_encoding_shape_witness :
  String.length "VEVTVA==" = 4 * ((length (Encoder.utf8 "TEST") + 2) / 3)
  /\ all_chars is_b64 "VEVTVA==" = true.
Proof. apply (base64_encoding_shape "TEST" "base64" "VEVTVA=="); reflexivity. Defined.

(** X4.  URL encoding, called with no safe characters, writes only
    unreserved characters (letters, digits, [_.-~]) and percent escapes, so
    its output never holds a space, a slash or any other reserved
    character; and a text made of unreserved characters only is returned
    unchanged. *)
Theorem url_encoding_shape (text method out : string) :
  Text.lower (Text.strip method) = "url" ->
  Encoder.encode_payload (VStr text) (Some method) = Ok out ->
  all_chars is_url_char out = true
  /\ (all_chars is_unreserved text = true -> out = text).
Proof.
  intros Hm H.
  assert (Hb : Text.blank text = false).
  { unfold Encoder.encode_payload in H. destruct (Text.blank text); [discriminate | reflexivity]. }
  unfold Encoder.encode_payload in H. rewrite Hb in H. simpl or_empty in H.
  rewrite Hm in H. injection H as <-.
  split; [apply EncodingFacts.quote_utf8_chars | apply EncodingFacts.quote_unreserved].
Qed.

Lemma url_encoding_shape_witness :
  all_chars is_url_char "TEST%20TEMPLATE" = true
  /\ (all_chars is_unreserved "TEST TEMPLATE" = true -> "TEST%20TEMPLATE" = "TEST TEMPLATE").
Proof. apply (url_encoding_shape "TEST TEMPLATE" "url" "TEST%20TEMPLATE"); reflexivity. Defined.

(** X5.  Hex and URL encoding lose nothing: two texts with the same hex
    encoding, or with the same URL encoding, are the same text. *)
Theorem hex_and_url_encoding_injective (text1 text2 method out : string) :
  Text.lower (Text.strip method) = "hex" \/ Text.lower (Text.strip method) = "url" ->
  Encoder.encode_payload (VStr text1) (Some method) = Ok out ->
  Encoder.encode_payload (VStr text2) (Some method) = Ok out ->
  text1 = text2.
Proof.
  intros Hm H1 H2.
  assert (Hb : forall t, Encoder.encode_payload (VStr t) (Some method) = Ok out ->
                         Text.blank t = false).
  { intros t H. unfold Encoder.encode_payload in H.
    destruct (Text.blank t); [discriminate | reflexivity]. }
  pose proof (Hb _ H1) as Hb1. pose proof (Hb _ H2) as Hb2.
  unfold Encoder.encode_payload in H1, H2. rewrite Hb1 in H1. rewrite Hb2 in H2.
  simpl or_empty in H1, H2.
  destruct Hm as [Hm | Hm]; rewrite Hm in H1, H2;
    injection H1 as H1; injection H2 as H2; rewrite <- H2 in H1.
  - apply EncodingFacts.hexlify_utf8_injective. exact H1.
  - apply EncodingFacts.quote_utf8_injective. exact H1.
Qed.

Lemma hex_and_url_encoding_injective_witness : "TEST" = "TEST".
Proof.
  apply (hex_and_url_encoding_injective "TEST" "TEST" "hex" "54455354");
    [left |..]; reflexivity.
Defined.

(** ** The obfuscation modes *)

Module ObfuscationFacts.
Import Obfuscator Outcome Spec.

Lemma append_assoc (a b c : string) : (a ++ b) ++ c = a ++ (b ++ c).
Proof.
  induction a as [|x a IH]; [reflexivity |].
  change (String x ((a ++ b) ++ c) = String x (a ++ b ++ c)). f_equal. exact IH.
Qed.

Lemma String_app (c : ascii) (r t : string) : String c r ++ t = String c (r ++ t).
Proof. reflexivity. Qed.

Lemma comment_chars_app a b : comment_chars (a ++ b) = comment_chars a ++ comment_chars b.
Proof.
  induction a as [|x a IH]; [reflexivity |].
  rewrite String_app. cbn [comment_chars].
  rewrite IH, String_app, append_assoc. reflexivity.
Qed.

Lemma replace_char_app old new a b :
  Text.replace_char old new (a ++ b)
  = Text.replace_char old new a ++ Text.replace_char old new b.
Proof.
  induction a as [|x a IH]; [reflexivity |].
  rewrite String_app. cbn [Text.replace_char].
  rewrite IH, append_assoc. reflexivity.
Qed.

Lemma one_line_app a b : one_line (a ++ b) = one_line a && one_line b.
Proof. apply EncodingFacts.all_chars_append. Qed.

Lemma comment_chars_one_line b : one_line b = true -> one_line (comment_chars b) = true.
Proof.
  induction b as [|x b IH]; [reflexivity |].
  unfold one_line in *. cbn [all_chars comment_chars]. intros H.
  apply andb_true_iff in H. destruct H as [Hx Hb].
  rewrite Hx. cbn [andb]. rewrite EncodingFacts.all_chars_append, (IH Hb), andb_true_r.
  destruct (_ && _); reflexivity.
Qed.

Lemma whitespace_one_line b :
  one_line b = true -> one_line (Text.replace_char " " mixed_space b) = true.
Proof.
  induction b as [|x b IH]; [reflexivity |].
  unfold one_line in *. cbn [all_chars Text.replace_char]. intros H.
  apply andb_true_iff in H. destruct H as [Hx Hb].
  rewrite EncodingFacts.all_chars_append, (IH Hb), andb_true_r.
  destruct (Ascii.eqb x " "); [reflexivity |].
  cbn [all_chars]. rewrite Hx. reflexivity.
Qed.

(** Both rewritings keep a bracketed marker a bracketed marker. *)
Lemma comments_keep_marker s :
  has_bracket_marker s -> has_bracket_marker (comment_chars s).
Proof.
  intros (a & b & c & -> & Hb).
  exists (comment_chars a), (comment_chars b), (comment_chars c).
  split; [| apply comment_chars_one_line; exact Hb].
  rewrite !comment_chars_app. reflexivity.
Qed.

Lemma whitespace_keeps_marker s :
  has_bracket_marker s ->
  has_bracket_marker (Text.replace_char " " mixed_space s).
Proof.
  intros (a & b & c & -> & Hb).
  exists (Text.replace_char " " mixed_space a), (Text.replace_char " " mixed_space b),
    (Text.replace_char " " mixed_space c).
  split; [| apply whitespace_one_line; exact Hb].
  rewrite !replace_char_app. reflexivity.
Qed.

Lemma closes_marker b c : one_line b = true -> closes (b ++ ">>" ++ c) = true.
Proof.
  induction b as [|x b IH]; [reflexivity |].
  unfold one_line. cbn [all_chars]. intros H.
  apply andb_true_iff in H. destruct H as [Hx Hb].
  change ((String x b) ++ ">>" ++ c) with (String x (b ++ ">>" ++ c)).
  cbn [closes]. rewrite Hx, (IH Hb). apply orb_true_r.
Qed.

Lemma search_from_app a t : forall prev,
  bracket_here t = true -> search_from prev (a ++ t) = true.
Proof.
  induction a as [|x a IH]; intros prev H.
  - change ("" ++ t) with t. destruct t; [discriminate H |].
    cbn [search_from]. rewrite H. reflexivity.
  - change (String x a ++ t) with (String x (a ++ t)).
    cbn [search_from]. rewrite (IH _ H). apply orb_true_r.
Qed.

(** A bracketed marker satisfies the guard. *)
Lemma marker_matches s :
  has_bracket_marker s -> _TEMPLATE_MARKER_RE_search s = true.
Proof.
  intros (a & b & c & -> & Hb). apply search_from_app.
  change ("<<" ++ b ++ ">>" ++ c) with (String "<" (String "<" (b ++ ">>" ++ c))).
  cbn [bracket_here]. apply closes_marker. exact Hb.
Qed.

Lemma marker_nonempty s : has_bracket_marker s -> s <> "".
Proof. intros (a & b & c & -> & _). destruct a; discriminate. Qed.

(** What the three transformers return on a text with a bracketed marker. *)
Lemma comments_marker s :
  has_bracket_marker s -> _comments s = Ok (comment_chars s).
Proof.
  intros H. unfold _comments, _ensure_educational_template.
  rewrite (marker_matches _ H). reflexivity.
Qed.

Lemma whitespace_marker s :
  has_bracket_marker s -> _whitespace s = Ok (Text.replace_char " " mixed_space s).
Proof.
  intros H. unfold _whitespace, _ensure_educational_template.
  rewrite (marker_matches _ H). reflexivity.
Qed.

Lemma mixed_marker s :
  has_bracket_marker s ->
  _mixed s = Ok (Text.replace_char " " mixed_space (comment_chars s)).
Proof.
  intros H. unfold _mixed, _ensure_educational_template.
  rewrite (marker_matches _ H). cbn [negb rraise_if rbind].
  rewrite (comments_marker _ H). cbn [rbind].
  apply whitespace_marker, comments_keep_marker, H.
Qed.

(** The transformer behind a mode name. *)
Lemma mode_cases name transformer :
  Encoder.lookup name _OBFUSCATION_MODES = Some transformer ->
  transformer = _comments \/ transformer = _whitespace \/ transformer = _mixed.
Proof.
  simpl. destruct (String.eqb name "comments"); [intros [= <-]; auto |].
  destruct (String.eqb name "whitespace"); [intros [= <-]; auto |].
  destruct (String.eqb name "mixed"); [intros [= <-]; auto | discriminate].
Qed.

(** The characters of a text, in order. *)
Lemma chars_app a b :
  list_ascii_of_string (a ++ b)
  = (list_ascii_of_string a ++ list_ascii_of_string b)%list.
Proof. induction a as [|x a IH]; simpl; [reflexivity | rewrite IH; reflexivity]. Qed.

Lemma chars_length s : length (list_ascii_of_string s) = String.length s.
Proof. induction s as [|x s IH]; simpl; [reflexivity | rewrite IH; reflexivity]. Qed.

Lemma comments_sublist s :
  sublist (list_ascii_of_string s) (list_ascii_of_string (comment_chars s)).
Proof.
  induction s as [|x s IH]; [constructor |].
  cbn [comment_chars list_ascii_of_string]. apply sublist_skip.
  rewrite chars_app. apply sublist_inserts_l. exact IH.
Qed.

Lemma whitespace_sublist s :
  sublist (list_ascii_of_string s)
          (list_ascii_of_string (Text.replace_char " " mixed_space s)).
Proof.
  induction s as [|x s IH]; [constructor |].
  cbn [Text.replace_char]. rewrite chars_app.
  destruct (Ascii.eqb_spec x " ") as [->|_].
  - simpl. apply sublist_skip, sublist_cons, sublist_cons. exact IH.
  - simpl. apply sublist_skip. exact IH.
Qed.

Lemma transformer_sublist transformer s out :
  transformer = _comments \/ transformer = _whitespace \/ transformer = _mixed ->
  transformer s = Ok out ->
  sublist (list_ascii_of_string s) (list_ascii_of_string out).
Proof.
  intros [-> | [-> | ->]]; unfold _comments, _whitespace, _mixed; intros H.
  - apply rbind_Ok in H. destruct H as (u & _ & H). injection H as <-.
    apply comments_sublist.
  - apply rbind_Ok in H. destruct H as (u & _ & H). injection H as <-.
    apply whitespace_sublist.
  - apply rbind_Ok in H. destruct H as (u & _ & H).
    apply rbind_Ok in H. destruct H as (commented & Hc & H).
    unfold _comments in Hc. apply rbind_Ok in Hc. destruct Hc as (u' & _ & Hc).
    injection Hc as <-.
    unfold _whitespace in H. apply rbind_Ok in H. destruct H as (u'' & _ & H).
    injection H as <-.
    etransitivity; [apply comments_sublist | apply whitespace_sublist].
Qed.

End ObfuscationFacts.

(** X6.  A text in which some "<<" is followed by a ">>" on the same line
    is accepted by all three obfuscation modes: [comments] returns the
    text with its markers inserted, [whitespace] the text with each space
    widened, [mixed] the second applied to the first.  Each result again
    holds a bracketed marker, so an obfuscated text can be obfuscated
    again. *)
Theorem obfuscation_accepts_bracketed_marker (text : string) :
  has_bracket_marker text ->
  Obfuscator.obfuscate_payload (VStr text) (Some "comments")
  = Ok (Obfuscator.comment_chars text)
  /\ Obfuscator.obfuscate_payload (VStr text) (Some "whitespace")
     = Ok (Text.replace_char " " mixed_space text)
  /\ Obfuscator.obfuscate_payload (VStr text) (Some "mixed")
     = Ok (Text.replace_char " " mixed_space (Obfuscator.comment_chars text))
  /\ (forall mode out,
        Obfuscator.obfuscate_payload (VStr text) mode = Ok out ->
        has_bracket_marker out
        /\ exists out', Obfuscator.obfuscate_payload (VStr out) mode = Ok out').
Proof.
  intros H. pose proof (ObfuscationFacts.marker_nonempty _ H) as Hne.
  assert (Hrun : forall name transformer,
             Encoder.lookup (Text.lower (Text.strip name)) Obfuscator._OBFUSCATION_MODES
             = Some transformer ->
             Obfuscator.obfuscate_payload (VStr text) (Some name)
             = match transformer text with
               | Ok out => Ok out
               | Raise e =>
                   if decide (exn_cls e = ObfuscationError) then Raise e
                   else Raise (ExcFrom ObfuscationError
                          ("Obfuscation failed using mode '"
                           ++ Text.lower (Text.strip name) ++ "': " ++ str_exn e) e)
               end).
  { intros name transformer Hl. unfold Obfuscator.obfuscate_payload.
    destruct (String.eqb_spec text "") as [->|_]; [contradiction |].
    simpl or_empty. rewrite Hl. reflexivity. }
  split; [| split; [| split]].
  - rewrite (Hrun "comments" Obfuscator._comments eq_refl).
    rewrite (ObfuscationFacts.comments_marker _ H). reflexivity.
  - rewrite (Hrun "whitespace" Obfuscator._whitespace eq_refl).
    rewrite (ObfuscationFacts.whitespace_marker _ H). reflexivity.
  - rewrite (Hrun "mixed" Obfuscator._mixed eq_refl).
    rewrite (ObfuscationFacts.mixed_marker _ H). reflexivity.
  - intros mode out Hout. unfold Obfuscator.obfuscate_payload in Hout.
    destruct (String.eqb text ""); [discriminate Hout |].
    destruct (Encoder.lookup _ _) as [transformer|] eqn:Hl; [| discriminate Hout].
    assert (Hmarker : has_bracket_marker out).
    { destruct (ObfuscationFacts.mode_cases _ _ Hl) as [-> | [-> | ->]].
      - rewrite (ObfuscationFacts.comments_marker _ H) in Hout. injection Hout as <-.
        apply ObfuscationFacts.comments_keep_marker, H.
      - rewrite (ObfuscationFacts.whitespace_marker _ H) in Hout. injection Hout as <-.
        apply ObfuscationFacts.whitespace_keeps_marker, H.
      - rewrite (ObfuscationFacts.mixed_marker _ H) in Hout. injection Hout as <-.
        apply ObfuscationFacts.whitespace_keeps_marker,
          ObfuscationFacts.comments_keep_marker, H. }
    split; [exact Hmarker |].
    unfold Obfuscator.obfuscate_payload.
    destruct (String.eqb_spec out "") as [->|_];
      [exfalso; exact (ObfuscationFacts.marker_nonempty _ Hmarker eq_refl) |].
    rewrite Hl.
    destruct (ObfuscationFacts.mode_cases _ _ Hl) as [-> | [-> | ->]].
    + rewrite (ObfuscationFacts.comments_marker _ Hmarker). eauto.
    + rewrite (ObfuscationFacts.whitespace_marker _ Hmarker). eauto.
    + rewrite (ObfuscationFacts.mixed_marker _ Hmarker). eauto.
Qed.

(** X6 on the payload of [make_payload()]. *)
Lemma obfuscation_accepts_bracketed_marker_witness :
  Obfuscator.obfuscate_payload
    (VStr "<<XSS_TEMPLATE:TEST|CONTEXT=html|NON_EXECUTING>>") (Some "comments")
  = Ok (Obfuscator.comment_chars "<<XSS_TEMPLATE:TEST|CONTEXT=html|NON_EXECUTING>>").
Proof.
  apply (obfuscation_accepts_bracketed_marker
           "<<XSS_TEMPLATE:TEST|CONTEXT=html|NON_EXECUTING>>").
  exists "", "XSS_TEMPLATE:TEST|CONTEXT=html|NON_EXECUTING", "".
  split; reflexivity.
Defined.

(** X7.  Obfuscation only inserts: in every mode, the characters of the
    input appear in the output in their order, none removed and none
    changed, so the output is at least as long as the input. *)
Theorem obfuscation_only_inserts (text : string) (mode : option string) (out : string) :
  Obfuscator.obfuscate_payload (VStr text) mode = Ok out ->
  sublist (list_ascii_of_string text) (list_ascii_of_string out)
  /\ String.length text <= String.length out.
Proof.
  intros H. unfold Obfuscator.obfuscate_payload in H.
  destruct (String.eqb text ""); [discriminate H |].
  destruct (Encoder.lookup _ _) as [transformer|] eqn:Hl; [| discriminate H].
  destruct (transformer text) as [out'|e] eqn:Ht;
    [injection H as -> | destruct (decide _); discriminate H].
  pose proof (ObfuscationFacts.transformer_sublist _ _ _
                (ObfuscationFacts.mode_cases _ _ Hl) Ht) as Hsub.
  split; [exact Hsub |].
  apply sublist_length in Hsub.
  rewrite !ObfuscationFacts.chars_length in Hsub. exact Hsub.
Qed.

Lemma obfuscation_only_inserts_witness :
  sublist (list_ascii_of_string "<<TEMPLATE>> x")
          (list_ascii_of_string ("<<T/*OBF*/EM/*OBF*/PLAT/*OBF*/E>> " ++ String "009" " x"))
  /\ String.length "<<TEMPLATE>> x"
     <= String.length ("<<T/*OBF*/EM/*OBF*/PLAT/*OBF*/E>> " ++ String "009" " x").
Proof.
  apply (obfuscation_only_inserts "<<TEMPLATE>> x" (Some "mixed")). reflexivity.
Defined.

(** ** The history mutators and the two transformation loops *)

Module LoopFacts.
Import Pipeline Outcome Models Registry Spec.

Lemma keeps_strings_trans h1 h2 h3 :
  keeps_strings h1 h2 -> keeps_strings h2 h3 -> keeps_strings h1 h3.
Proof. intros H12 H23 l H. apply H23, H12, H. Qed.

Lemma with_payload_same t v : same_but_payload t (with_kwargs t [kw_payload v]).
Proof. destruct t. repeat split. Qed.

Lemma append_same_files l v s : same_files s (snd (append l v s)).
Proof. split; reflexivity. Qed.

(** What the encoding loop returns, one record for one. *)
Lemma apply_encoding_Ok method items : forall s out s',
  apply_encoding_to_all items method s = (Ok out, s') ->
  Forall2 (rewritten_by (fun p => Encoder.encode_payload p (Some method))) items out
  /\ same_files s s'
  /\ keeps_strings (heap s) (heap s')
  /\ grows (heap s) (heap s')
  /\ Forall (valid_record (heap s')) out
  /\ Forall (fun o => exists t, o = ITemplate t
                /\ In (VStr method) (deref (heap s') (encoding_applied t))) out.
Proof.
  induction items as [|item rest IH]; intros s out s' H.
  - injection H as <- <-. repeat split; try constructor.
    + intros l H. exact H.
    + apply PipelineFacts.grows_refl.
  - apply SharingFacts.encoding_step in H.
    destruct H as (t & p & out' & -> & Hp & Hv & Hrest & ->).
    apply IH in Hrest. destruct Hrest as (Hall & Hf & Hk & Hg & Hvalid & Hhist).
    split; [| split; [| split; [| split; [| split]]]].
    + constructor; [| exact Hall].
      exists t, (with_kwargs t [kw_payload (VStr p)]), p.
      split; [reflexivity |]. split; [reflexivity |]. split; [exact Hp |].
      split; [apply PipelineFacts.with_payload_payload | apply with_payload_same].
    + destruct Hf as [Hf Hd]. split; [rewrite Hf | rewrite Hd]; reflexivity.
    + eapply keeps_strings_trans; [apply HexRunFacts.append_keeps_strings | exact Hk].
    + eapply PipelineFacts.grows_trans; [apply PipelineFacts.append_grows | exact Hg].
    + constructor; [| exact Hvalid]. eexists. split; [reflexivity |].
      eapply HexRunFacts.valid_keeps; [| exact Hv].
      eapply keeps_strings_trans; [apply HexRunFacts.append_keeps_strings | exact Hk].
    + constructor; [| exact Hhist]. eexists. split; [reflexivity |].
      destruct (PipelineFacts.with_payload_lists t (VStr p)) as (-> & _ & _).
      apply Hg, PipelineFacts.append_In.
Qed.

Lemma apply_obfuscation_Ok_full technique items : forall s out s',
  apply_obfuscation_to_all items technique s = (Ok out, s') ->
  Forall2 (rewritten_by (fun p => Obfuscator.obfuscate_payload p (Some technique)))
          items out
  /\ same_files s s'
  /\ keeps_strings (heap s) (heap s')
  /\ Forall (valid_record (heap s')) out.
Proof.
  induction items as [|item rest IH]; intros s out s' H.
  - injection H as <- <-. repeat split; try constructor. intros l H. exact H.
  - apply PipelineFacts.obfuscation_step in H.
    destruct H as (t & p & out' & -> & Hp & Hv & Hrest & ->).
    apply IH in Hrest. destruct Hrest as (Hall & Hf & Hk & Hvalid).
    split; [| split; [| split]].
    + constructor; [| exact Hall].
      exists t, (with_kwargs t [kw_payload (VStr p)]), p.
      split; [reflexivity |]. split; [reflexivity |]. split; [exact Hp |].
      split; [apply PipelineFacts.with_payload_payload | apply with_payload_same].
    + destruct Hf as [Hf Hd]. split; [rewrite Hf | rewrite Hd]; reflexivity.
    + eapply keeps_strings_trans; [apply HexRunFacts.append_keeps_strings | exact Hk].
    + constructor; [| exact Hvalid]. eexists. split; [reflexivity |].
      eapply HexRunFacts.valid_keeps; [| exact Hv].
      eapply keeps_strings_trans; [apply HexRunFacts.append_keeps_strings | exact Hk].
Qed.

End LoopFacts.

(** X8.  [add_encoding] and [add_obfuscation] are append-only: the history
    read through the record gains the name as its last entry, every other
    list object and every file is as before, and each record that was valid
    is still valid afterwards, whichever lists it holds. *)
Theorem history_mutators_append_only (self : PayloadTemplate) (name : string) (s : state) :
  let s1 := snd (add_encoding self name s) in
  let s2 := snd (add_obfuscation self name s) in
  deref (heap s1) (encoding_applied self)
  = (deref (heap s) (encoding_applied self) ++ [VStr name])%list
  /\ deref (heap s2) (obfuscation_applied self)
     = (deref (heap s) (obfuscation_applied self) ++ [VStr name])%list
  /\ (forall l, l <> encoding_applied self -> deref (heap s1) l = deref (heap s) l)
  /\ (forall l, l <> obfuscation_applied self -> deref (heap s2) l = deref (heap s) l)
  /\ same_files s s1 /\ same_files s s2
  /\ (forall t, valid (heap s) t -> valid (heap s1) t /\ valid (heap s2) t).
Proof.
  cbv zeta. unfold add_encoding, add_obfuscation.
  split; [apply PipelineFacts.deref_insert_eq |].
  split; [apply PipelineFacts.deref_insert_eq |].
  split; [intros l Hl; apply PipelineFacts.deref_insert_ne; congruence |].
  split; [intros l Hl; apply PipelineFacts.deref_insert_ne; congruence |].
  split; [split; reflexivity |]. split; [split; reflexivity |].
  intros t Hv. split;
    (eapply HexRunFacts.valid_keeps; [apply HexRunFacts.append_keeps_strings | exact Hv]).
Qed.

(** X8 on [make_payload()], also when the record added to is one whose tag
    list is the very list appended to. *)
Lemma history_mutators_append_only_witness :
  valid (heap (snd (add_encoding Sample.make_payload "base64" Sample.three_lists)))
        Sample.make_payload
  /\ valid (heap (snd (add_encoding
                         (with_kwargs Sample.make_payload [kw_encoding_applied 2])
                         "base64" Sample.three_lists)))
           Sample.make_payload.
Proof.
  assert (Hv : valid (heap Sample.three_lists) Sample.make_payload).
  { apply (ModelsFacts.validate_Ok _ _ tt). reflexivity. }
  split.
  - apply (history_mutators_append_only Sample.make_payload "base64" Sample.three_lists).
    exact Hv.
  - apply (history_mutators_append_only
             (with_kwargs Sample.make_payload [kw_encoding_applied 2])
             "base64" Sample.three_lists).
    exact Hv.
Defined.

(** X9.  When [apply_encoding_to_all] returns, it returns one record for
    each input, in the same order; each is its input with the payload
    replaced by the encoding of the old one and every other field, the
    identifier and the creation time included, unchanged; each passes
    validation in the final state and has the method in its encoding
    history; and no file has been touched.  [apply_obfuscation_to_all]
    does the same with the obfuscated payload. *)
Theorem transformation_loops_rewrite_payload_only
    (items : list obj) (name : string) (s : state) (out : list obj) (s' : state) :
  (Pipeline.apply_encoding_to_all items name s = (Ok out, s') ->
   Forall2 (rewritten_by (fun p => Encoder.encode_payload p (Some name))) items out
   /\ Forall (valid_record (heap s')) out
   /\ Forall (fun o => exists t, o = ITemplate t
                 /\ In (VStr name) (deref (heap s') (encoding_applied t))) out
   /\ same_files s s')
  /\ (Pipeline.apply_obfuscation_to_all items name s = (Ok out, s') ->
      Forall2 (rewritten_by (fun p => Obfuscator.obfuscate_payload p (Some name)))
              items out
      /\ Forall (valid_record (heap s')) out
      /\ Forall (obfuscated_with (heap s') name) out
      /\ same_files s s').
Proof.
  split; intros H.
  - apply LoopFacts.apply_encoding_Ok in H.
    destruct H as (H1 & H2 & _ & _ & H3 & H4). auto.
  - pose proof (PipelineFacts.apply_obfuscation_Ok _ _ _ _ _ H) as [_ Hh].
    apply LoopFacts.apply_obfuscation_Ok_full in H.
    destruct H as (H1 & H2 & _ & H3). auto.
Qed.

Lemma transformation_loops_rewrite_payload_only_witness :
  exists out s',
    Pipeline.apply_encoding_to_all [ITemplate Sample.make_payload] "hex"
      Sample.three_lists = (Ok out, s')
    /\ Forall2 (rewritten_by (fun p => Encoder.encode_payload p (Some "hex")))
               [ITemplate Sample.make_payload] out
    /\ Forall (valid_record (heap s')) out.
Proof.
  destruct (Pipeline.apply_encoding_to_all _ _ _) as [[out|e] s'] eqn:H;
    [| vm_compute in H; discriminate H].
  exists out, s'. split; [reflexivity |].
  destruct (proj1 (transformation_loops_rewrite_payload_only _ _ _ _ _) H)
    as (H1 & H2 & _).
  split; assumption.
Defined.

(** ** Sorting: the registry listing and the export order *)

Module OrderFacts.
Import Spec.

Lemma insert_sorted_perm x l : Permutation (Text.insert_sorted x l) (x :: l).
Proof.
  induction l as [|y r IH]; simpl; [reflexivity |].
  destruct (String.leb x y); [reflexivity |].
  rewrite IH. apply perm_swap.
Qed.

Lemma sorted_perm l : Permutation (Text.sorted l) l.
Proof.
  induction l as [|x l IH]; simpl; [reflexivity |].
  rewrite insert_sorted_perm, IH. reflexivity.
Qed.

Lemma insert_sorted_hd x y l :
  String.leb y x = true ->
  HdRel (fun a b => String.leb a b = true) y l ->
  HdRel (fun a b => String.leb a b = true) y (Text.insert_sorted x l).
Proof.
  intros Hyx H. destruct l as [|z r]; simpl; [constructor; exact Hyx |].
  destruct (String.leb x z); constructor; [exact Hyx |].
  inversion H; assumption.
Qed.

Lemma insert_sorted_ascending x l : ascending l -> ascending (Text.insert_sorted x l).
Proof.
  unfold ascending. induction l as [|y r IH]; intros H; simpl.
  - repeat constructor.
  - destruct (String.leb x y) eqn:Hxy.
    + constructor; [exact H | constructor; exact Hxy].
    + inversion H as [|? ? Hr Hhd]; subst.
      constructor; [apply IH; exact Hr |].
      apply insert_sorted_hd; [| exact Hhd].
      destruct (String.leb_total x y) as [Ht | Ht]; [congruence | exact Ht].
Qed.

Lemma sorted_ascending l : ascending (Text.sorted l).
Proof.
  induction l as [|x l IH]; simpl; [constructor |].
  apply insert_sorted_ascending, IH.
Qed.

(** A list already ascending is returned as it is. *)
Lemma sorted_fixed l : ascending l -> Text.sorted l = l.
Proof.
  unfold ascending. induction l as [|x l IH]; intros H; [reflexivity |].
  inversion H as [|? ? Hl Hhd]; subst. simpl. rewrite (IH Hl).
  destruct l as [|y r]; [reflexivity |]. simpl.
  inversion Hhd as [|? ? Hxy]; subst. rewrite Hxy. reflexivity.
Qed.

Lemma fmap_map {A B} (f : A -> B) (l : list A) : f <$> l = map f l.
Proof. induction l as [|a l IH]; [reflexivity |]. simpl. rewrite <- IH. reflexivity. Qed.

(** The keys of the tuple order: it is total. *)
Lemma key_le_total a b : SortKey.key_le a b = false -> SortKey.key_le b a = true.
Proof.
  unfold SortKey.key_le, String.ltb, String.leb, String.eqb.
  destruct a as [a1 a2], b as [b1 b2]. cbn [fst snd].
  rewrite (String.compare_antisym b1 a1), (String.compare_antisym b2 a2).
  destruct (String.compare a1 b1) eqn:H1; simpl; try discriminate.
  - apply String.compare_eq_iff in H1. subst b1.
    assert (Hrefl : (a1 =? a1)%string = true) by apply String.eqb_refl.
    unfold String.eqb in Hrefl. rewrite Hrefl. simpl.
    destruct (String.compare a2 b2); simpl; intros H; first [discriminate H | reflexivity].
  - intros _. reflexivity.
Qed.

Lemma insert_by_perm {A} k (x : A) l :
  Permutation (SortKey.insert_by k x l) ((k, x) :: l).
Proof.
  induction l as [|[k' y] r IH]; simpl; [reflexivity |].
  destruct (SortKey.key_le k k'); [reflexivity |].
  rewrite IH. apply perm_swap.
Qed.

Lemma insert_by_hd {A} k (x : A) k0 (y : A) l :
  SortKey.key_le k0 k = true ->
  HdRel (fun a b => SortKey.key_le (fst a) (fst b) = true) (k0, y) l ->
  HdRel (fun a b => SortKey.key_le (fst a) (fst b) = true) (k0, y)
        (SortKey.insert_by k x l).
Proof.
  intros Hk H. destruct l as [|[k' z] r]; simpl; [constructor; exact Hk |].
  destruct (SortKey.key_le k k'); constructor; [exact Hk |].
  inversion H; assumption.
Qed.

Lemma insert_by_in_order {A} k (x : A) l :
  in_key_order l -> in_key_order (SortKey.insert_by k x l).
Proof.
  unfold in_key_order. induction l as [|[k' y] r IH]; intros H; simpl.
  - repeat constructor.
  - destruct (SortKey.key_le k k') eqn:Hk.
    + constructor; [exact H | constructor; exact Hk].
    + inversion H as [|? ? Hr Hhd]; subst.
      constructor; [apply IH; exact Hr |].
      apply insert_by_hd; [apply key_le_total; exact Hk | exact Hhd].
Qed.

(** The keyed list that [sort_by] projects. *)
Lemma sort_by_keyed {A} (l : list (string * string * A)) :
  exists keyed,
    SortKey.sort_by l = map snd keyed
    /\ Permutation keyed l
    /\ in_key_order keyed
    /\ (in_key_order l -> keyed = l).
Proof.
  unfold SortKey.sort_by.
  exists (fold_right (fun kx acc => SortKey.insert_by (fst kx) (snd kx) acc) [] l).
  split; [reflexivity |].
  induction l as [|[k x] l (IHp & IHs & IHf)]; simpl.
  - split; [reflexivity |]. split; [constructor | reflexivity].
  - split; [rewrite insert_by_perm, IHp; reflexivity |].
    split; [apply insert_by_in_order, IHs |].
    intros H. inversion H as [|? ? Hl Hhd]; subst. rewrite (IHf Hl).
    destruct l as [|[k' y] r]; [reflexivity |]. simpl.
    inversion Hhd as [|? ? Hk]; subst. simpl in Hk. rewrite Hk. reflexivity.
Qed.

End OrderFacts.

(** X10.  [list_modules] lists the registered names and nothing else, each
    once, in ascending order; and a name is listed exactly when [get_spec]
    finds it. *)
Theorem list_modules_sorted_and_complete (self : Registry.ModuleRegistry) :
  ascending (Registry.list_modules self)
  /\ NoDup (Registry.list_modules self)
  /\ (forall module_name,
        In module_name (Registry.list_modules self)
        <-> exists spec, Registry.get_spec self module_name = Ok spec).
Proof.
  unfold Registry.list_modules.
  split; [apply OrderFacts.sorted_ascending |]. split.
  - rewrite OrderFacts.sorted_perm, <- OrderFacts.fmap_map.
    apply NoDup_fst_map_to_list.
  - intros module_name. rewrite OrderFacts.sorted_perm. unfold Registry.get_spec.
    rewrite <- OrderFacts.fmap_map, <- list_elem_of_In, list_elem_of_fmap. split.
    + intros ([k spec] & -> & Hin). apply elem_of_map_to_list in Hin.
      simpl. rewrite Hin. eauto.
    + intros (spec & H). destruct (self !! module_name) as [spec'|] eqn:Hl;
        [| discriminate H].
      exists (module_name, spec'). split; [reflexivity |].
      apply elem_of_map_to_list. exact Hl.
Qed.

(** X11.  Registering a name that is free succeeds; afterwards [get_spec]
    returns for it a spec with that name, the generator and the two flags
    given, every other name is as before, and the listing has gained this
    one name.  Registering a name that is taken raises a [RegistryError]
    whatever is registered under it. *)
Theorem register_round_trip (self : Registry.ModuleRegistry) (module_name : string)
    (func : Registry.GeneratorFunction) (requires_db requires_os : bool) :
  match self !! module_name with
  | None =>
      exists self',
        Registry.register self module_name func requires_db requires_os = Ok self'
        /\ Registry.get_spec self' module_name
           = Ok (Registry.Build_ModuleSpec module_name func requires_db requires_os)
        /\ (forall other, other <> module_name -> self' !! other = self !! other)
        /\ Permutation (Registry.list_modules self')
                       (module_name :: Registry.list_modules self)
  | Some _ =>
      Registry.register self module_name func requires_db requires_os
      = Raise (Exc RegistryError ("Module '" ++ module_name ++ "' is already registered."))
  end.
Proof.
  unfold Registry.register. destruct (self !! module_name) eqn:Hl; [reflexivity |].
  eexists. split; [reflexivity |]. split; [| split].
  - unfold Registry.get_spec. rewrite lookup_insert_eq. reflexivity.
  - intros other Hne. apply lookup_insert_ne. congruence.
  - unfold Registry.list_modules. rewrite !OrderFacts.sorted_perm.
    rewrite <- !OrderFacts.fmap_map.
    rewrite (map_to_list_insert self module_name _ Hl). reflexivity.
Qed.


(** ** What is listed as supported, and the loops on a name that is not *)

Module SupportFacts.
Import Outcome Spec.

Lemma lookup_Some_In {A} k (d : list (string * A)) :
  is_Some_bool (Encoder.lookup k d) = true <-> In k (map fst d).
Proof.
  induction d as [|[k' a] d IH]; simpl; [split; [discriminate | tauto] |].
  destruct (String.eqb_spec k k') as [->|Hne]; simpl.
  - split; auto.
  - rewrite IH. split; [auto | intros [H | H]; [congruence | exact H]].
Qed.

Lemma lookup_None {A} k (d : list (string * A)) :
  is_Some_bool (Encoder.lookup k d) = false -> Encoder.lookup k d = None.
Proof. destruct (Encoder.lookup k d); [discriminate | reflexivity]. Qed.

(** With a method that is not supported, encoding any value raises an
    [EncodingError]. *)
Lemma encode_unsupported payload method :
  Encoder.is_supported_encoding method = false ->
  raises (Encoder.encode_payload payload method) EncodingError.
Proof.
  intros H. apply lookup_None in H. unfold Encoder.encode_payload.
  destruct payload; auto. destruct (Text.blank s); auto. rewrite H. auto.
Qed.

Lemma obfuscate_unsupported payload mode :
  Obfuscator.is_supported_obfuscation mode = false ->
  raises (Obfuscator.obfuscate_payload payload mode) ObfuscationError.
Proof.
  intros H. apply lookup_None in H. unfold Obfuscator.obfuscate_payload.
  destruct payload; auto. destruct (String.eqb s ""); auto. rewrite H. auto.
Qed.

End SupportFacts.

(** X13.  What [list_supported_encodings] and [list_supported_obfuscations]
    list is what [is_supported_encoding] and [is_supported_obfuscation]
    accept, once the name is trimmed and lower-cased; the two lists are
    [base64], [hex], [url] and [comments], [mixed], [whitespace]. *)
Theorem listed_is_what_is_supported (name : option string) :
  (Encoder.is_supported_encoding name = true
   <-> In (Text.lower (Text.strip (or_empty name))) Encoder.list_supported_encodings)
  /\ (Obfuscator.is_supported_obfuscation name = true
      <-> In (Text.lower (Text.strip (or_empty name)))
             Obfuscator.list_supported_obfuscations)
  /\ Encoder.list_supported_encodings = ["base64"; "hex"; "url"]
  /\ Obfuscator.list_supported_obfuscations = ["comments"; "mixed"; "whitespace"].
Proof.
  unfold Encoder.is_supported_encoding, Obfuscator.is_supported_obfuscation,
    Encoder.list_supported_encodings, Obfuscator.list_supported_obfuscations.
  split; [| split; [| split; reflexivity]].
  - rewrite SupportFacts.lookup_Some_In, OrderFacts.sorted_perm. reflexivity.
  - rewrite SupportFacts.lookup_Some_In, OrderFacts.sorted_perm. reflexivity.
Qed.

(** X14.  A name that is not supported stops either loop at the first
    element, with a [PipelineError] whose cause is the transform's own
    error (or an [AttributeError] when the element is not a record), and
    with the state untouched.  On the empty list the name is never looked
    at: the loop returns the empty list. *)
Theorem unsupported_name_stops_at_first_item
    (items : list Registry.obj) (name : string) (s : state) :
  (Encoder.is_supported_encoding (Some name) = false ->
   match items with
   | [] => Pipeline.apply_encoding_to_all items name s = (Ok [], s)
   | o :: _ =>
       exists e c,
         Pipeline.apply_encoding_to_all items name s = (Raise e, s)
         /\ exn_cls e = PipelineError /\ exn_cause e = Some c
         /\ exn_cls c = match o with
                        | Registry.ITemplate _ => EncodingError
                        | Registry.IOther _ => AttributeError
                        end
   end)
  /\ (Obfuscator.is_supported_obfuscation (Some name) = false ->
      match items with
      | [] => Pipeline.apply_obfuscation_to_all items name s = (Ok [], s)
      | o :: _ =>
          exists e c,
            Pipeline.apply_obfuscation_to_all items name s = (Raise e, s)
            /\ exn_cls e = PipelineError /\ exn_cause e = Some c
            /\ exn_cls c = match o with
                           | Registry.ITemplate _ => ObfuscationError
                           | Registry.IOther _ => AttributeError
                           end
      end).
Proof.
  split; intros H; (destruct items as [|o rest]; [reflexivity |]).
  - cbn [Pipeline.apply_encoding_to_all]. unfold bind at 1, try_except, lift, raise.
    destruct o as [t|v]; cbn [Pipeline.payload_of rbind].
    + destruct (SupportFacts.encode_unsupported (Models.payload t) _ H) as (c & -> & Hc).
      eexists _, c. repeat split. exact Hc.
    + eexists _, _. repeat split.
  - cbn [Pipeline.apply_obfuscation_to_all]. unfold bind at 1, try_except, lift, raise.
    destruct o as [t|v]; cbn [Pipeline.payload_of rbind].
    + destruct (SupportFacts.obfuscate_unsupported (Models.payload t) _ H)
        as (c & -> & Hc).
      eexists _, c. repeat split. exact Hc.
    + eexists _, _. repeat split.
Qed.

(** X14 on [make_payload()] with the method "rot13", and on the empty list. *)
Lemma unsupported_name_stops_at_first_item_witness :
  (exists e c,
      Pipeline.apply_encoding_to_all [Registry.ITemplate Sample.make_payload] "rot13"
        Sample.three_lists = (Raise e, Sample.three_lists)
      /\ exn_cls e = PipelineError /\ exn_cause e = Some c
      /\ exn_cls c = EncodingError)
  /\ Pipeline.apply_encoding_to_all [] "rot13" Sample.three_lists
     = (Ok [], Sample.three_lists).
Proof.
  split.
  - apply (proj1 (unsupported_name_stops_at_first_item
                    [Registry.ITemplate Sample.make_payload] "rot13" Sample.three_lists)).
    reflexivity.
  - apply (proj1 (unsupported_name_stops_at_first_item [] "rot13" Sample.three_lists)).
    reflexivity.
Defined.

(** ** The atomic write and the exports that succeed *)

Module WriteFacts.
Import Outcome AtomicWrite Models Registry Spec.

Section WithEnv.
Variable E : Env.

Lemma atomic_write_Ok p content s :
  write_succeeds E p s ->
  _atomic_write_text E p content s = (Ok tt, written p content s).
Proof.
  intros (Hmk & Hw & Hr & rnd & Ht & Hfree).
  unfold _atomic_write_text, _ensure_parent_dir, mkstemp, write_all, os_replace,
    set_files, try_except, bind, raise, ret, written.
  rewrite Hmk, Ht, Hw, Hr. cbn [files heap dirs draws]. rewrite Hfree.
  cbn [files heap dirs draws]. rewrite lookup_insert_eq. cbn [files heap dirs draws].
  rewrite insert_insert_eq, delete_insert_id by exact Hfree. reflexivity.
Qed.

Lemma txt_validate_Ok items : forall i,
  Forall exportable items ->
  exists validated,
    TxtExporter._validate_items_from i items = Ok validated
    /\ map ITemplate validated = items.
Proof.
  induction items as [|o items IH]; intros i H; [exists []; auto |].
  inversion H as [|? ? (t & -> & Hd) Hrest]; subst.
  destruct (IH (S i) Hrest) as (validated & Hv & Hm).
  exists (t :: validated). simpl. rewrite Hd, Hv. simpl. rewrite Hm. auto.
Qed.

Lemma json_validate_Ok items : forall i,
  Forall exportable items ->
  exists validated,
    JsonExporter._validate_items_from i items = Ok validated
    /\ map ITemplate validated = items.
Proof.
  induction items as [|o items IH]; intros i H; [exists []; auto |].
  inversion H as [|? ? (t & -> & Hd) Hrest]; subst.
  destruct (IH (S i) Hrest) as (validated & Hv & Hm).
  exists (t :: validated). simpl. rewrite Hd, Hv. simpl. rewrite Hm. auto.
Qed.

Lemma sort_keys_Ok h validated :
  Forall (fun t => is_str (title t) = true) validated ->
  exists keyed, JsonExporter.sort_keys h validated = Ok keyed.
Proof.
  induction validated as [|t r IH]; intros H; [eexists; reflexivity |].
  inversion H as [|? ? Ht Hr]; subst. destruct (IH Hr) as (keyed & Hk).
  simpl. destruct (title t); try discriminate Ht. simpl. rewrite Hk. eauto.
Qed.

Lemma rstrip_nl_last (text : string) :
  Text.last_char (text ++ nl) = Some "010"%char.
Proof. apply TextFacts.last_char_app. reflexivity. Qed.

End WithEnv.
Lemma txt_export_Ok (E : Env) (items : list Registry.obj) (output_path : string)
    (include_header : bool) (meta : option (list (string * value)))
    (line_width : Z) (s : state) :
  Forall exportable items ->
  write_succeeds E (env_Path E output_path) s ->
  exists content s',
    TxtExporter.export_txt E items output_path include_header meta line_width s
    = (Ok (env_Path E output_path), s')
    /\ files s' = <[env_Path E output_path := content]> (files s)
    /\ heap s' = heap s
    /\ Text.last_char content = Some "010"%char.
Proof.
  intros Hitems Hos.
  destruct (txt_validate_Ok items 0 Hitems) as (validated & Hv & _).
  unfold TxtExporter.export_txt, try_except, TxtExporter.export_txt_body,
    TxtExporter._validate_items.
  unfold bind at 1, lift. rewrite Hv. unfold bind at 1, get. cbv zeta.
  unfold bind at 1.
  destruct (TxtExporter.header_lines E (heap s) (length validated)
              (TxtExporter.times "=" line_width) include_header meta s)
    as [[header|e] s1] eqn:Hh.
  2:{ exfalso. unfold TxtExporter.header_lines in Hh.
      destruct include_header; discriminate Hh. }
  pose proof (ExporterFacts.header_lines_same_store E _ _ _ _ _ _ _ _ Hh) as [Hheap Hfiles].
  assert (Hos1 : write_succeeds E (env_Path E output_path) s1).
  { destruct Hos as (H1 & H2 & H3 & rnd & H4 & H5).
    repeat (split; [assumption |]). exists rnd. rewrite Hfiles. auto. }
  unfold bind at 1. rewrite (atomic_write_Ok E _ _ _ Hos1).
  eexists _, _. split; [reflexivity |]. cbn [files heap written].
  rewrite Hfiles, Hheap. split; [reflexivity |]. split; [reflexivity |].
  apply rstrip_nl_last.
Qed.

End WriteFacts.

(** X15.  One atomic write ends in one of three ways.  It returns, exactly
    when every system call succeeds, and then the destination holds the
    text and no other file has changed, the temporary file being gone.  Or
    it raises and every file is as before.  Or it raises, the removal of
    the temporary file fails too, and that one file is left behind.  The
    parent directory, once made, stays in all three. *)
Theorem atomic_write_outcomes (E : Env) (p : path) (content : string) (s : state) :
  exists r s',
    AtomicWrite._atomic_write_text E p content s = (r, s')
    /\ dirs s' = (if env_mkdir E then {[ fst p ]} ∪ dirs s else dirs s)
    /\ match r with
       | Ok _ => write_succeeds E p s /\ files s' = <[p := content]> (files s)
       | Raise _ =>
           ~ write_succeeds E p s
           /\ (files s' = files s
               \/ (env_remove E = false
                   /\ exists rnd partial,
                        env_mkstemp E = Some rnd
                        /\ files s !! AtomicWrite.tmp_of p rnd = None
                        /\ files s' = <[AtomicWrite.tmp_of p rnd := partial]> (files s)))
       end.
Proof.
  unfold write_succeeds.
  unfold AtomicWrite._atomic_write_text, AtomicWrite._ensure_parent_dir,
    AtomicWrite.mkstemp, AtomicWrite.write_all, AtomicWrite.os_replace,
    AtomicWrite.remove_quietly, AtomicWrite.set_files, try_except, bind, raise, ret.
  destruct (env_mkdir E) eqn:Hmk.
  2:{ eexists _, _. split; [reflexivity |]. split; [reflexivity |].
      split; [intros (H & _); discriminate H | left; reflexivity]. }
  destruct (env_mkstemp E) as [rnd|] eqn:Ht.
  2:{ eexists _, _. split; [reflexivity |]. split; [reflexivity |].
      split; [intros (_ & _ & _ & rnd & H & _); discriminate H | left; reflexivity]. }
  cbn [files heap dirs draws].
  destruct (files s !! AtomicWrite.tmp_of p rnd) eqn:Hfree.
  { eexists _, _. split; [reflexivity |]. split; [reflexivity |].
    split; [| left; reflexivity].
    intros (_ & _ & _ & rnd' & H & Hf). injection H as <-. congruence. }
  destruct (env_write E) as [n|] eqn:Hw; cbn [files heap dirs draws fst snd].
  - destruct (env_remove E) eqn:Hrm; eexists _, _; (split; [reflexivity |]);
      (split; [reflexivity |]);
      (split; [intros (_ & H & _); discriminate H |]); cbn [files].
    + left. rewrite insert_insert_eq. apply delete_insert_id. exact Hfree.
    + right. split; [reflexivity |]. exists rnd, (String.substring 0 n content).
      rewrite insert_insert_eq. auto.
  - destruct (env_replace E) eqn:Hr; cbn [files heap dirs draws fst snd].
    + rewrite lookup_insert_eq. eexists _, _. split; [reflexivity |].
      split; [reflexivity |]. cbn [files]. split; [eauto 10 |].
      rewrite insert_insert_eq, delete_insert_id by exact Hfree. reflexivity.
    + destruct (env_remove E) eqn:Hrm; eexists _, _; (split; [reflexivity |]);
        (split; [reflexivity |]);
        (split; [intros (_ & _ & H & _); discriminate H |]); cbn [files].
      * left. rewrite insert_insert_eq. apply delete_insert_id. exact Hfree.
      * right. split; [reflexivity |]. exists rnd, content.
        rewrite insert_insert_eq. auto.
Qed.



(** ** The JSON export: when it succeeds, and the reserved keys of [meta] *)

Module JsonFacts.
Import Outcome Models Registry Spec.

Section WithEnv.
Variable E : Env.

Lemma sort_keys_snd h validated keyed :
  JsonExporter.sort_keys h validated = Ok keyed -> map snd keyed = validated.
Proof.
  revert keyed. induction validated as [|t r IH]; intros keyed H.
  - injection H as <-. reflexivity.
  - simpl in H. apply rbind_Ok in H. destruct H as (k & _ & H).
    apply rbind_Ok in H. destruct H as (ks & Hks & H). injection H as <-.
    simpl. f_equal. apply IH. exact Hks.
Qed.

Lemma sort_by_length {A} (l : list (string * string * A)) :
  length (SortKey.sort_by l) = length l.
Proof.
  destruct (OrderFacts.sort_by_keyed l) as (keyed & -> & Hp & _).
  rewrite length_map. apply Permutation_length. exact Hp.
Qed.

Lemma valid_titles h items validated :
  Forall (valid_record h) items -> map ITemplate validated = items ->
  Forall (fun t => is_str (title t) = true) validated.
Proof.
  intros H <-. induction validated as [|t r IH]; [constructor |].
  simpl in H. inversion H as [|? ? (t' & Heq & Hv) Hr]; subst.
  injection Heq as <-.
  constructor; [| apply IH; exact Hr].
  pose proof (valid_title _ _ Hv) as Ht. destruct (title t); try discriminate Ht.
  reflexivity.
Qed.

Lemma valid_exportable h items :
  Forall (valid_record h) items -> Forall exportable items.
Proof.
  intros H. eapply Forall_impl; [exact H |].
  intros o (t & -> & Hv). exists t. split; [reflexivity | apply (valid_disabled _ _ Hv)].
Qed.

Lemma collisions_nil : JsonExporter.collisions [] = [].
Proof. reflexivity. Qed.

(** With a reserved key in [meta], the wrapper document is never built. *)
Lemma build_doc_reserved payloads m s :
  JsonExporter.collisions m <> [] ->
  exists e s',
    JsonExporter.build_doc E payloads true (Some m) s = (Raise e, s')
    /\ exn_cls e = JSONExportError /\ same_store s s'.
Proof.
  intros Hc. unfold JsonExporter.build_doc, JsonExporter._now_iso, now_utc, bind, ret, raise.
  destruct m as [|kv m]; [contradiction |].
  destruct (JsonExporter.collisions (kv :: m)); [contradiction |].
  eexists _, _. split; [reflexivity |]. split; [reflexivity |]. split; reflexivity.
Qed.

(** Without a reserved key, it is: the wrapper holds the schema name and
    the number of payloads; without a wrapper the document is the bare
    list. *)
Lemma build_doc_Ok payloads include_wrapper meta s :
  (include_wrapper = true -> forall m, meta = Some m -> JsonExporter.collisions m = []) ->
  exists doc s',
    JsonExporter.build_doc E payloads include_wrapper meta s = (Ok doc, s')
    /\ same_store s s'
    /\ (if include_wrapper
        then exists members,
               doc = JObj members
               /\ Encoder.lookup "schema" members = Some (JVal (VStr "proteus.payloads.v1"))
               /\ Encoder.lookup "count" members
                  = Some (JVal (VInt (Z.of_nat (length payloads))))
               /\ Encoder.lookup "payloads" members = Some (JArr payloads)
        else doc = JArr payloads).
Proof.
  intros Hc. unfold JsonExporter.build_doc, JsonExporter._now_iso, now_utc, bind, ret.
  destruct include_wrapper; [| eexists _, _; repeat split].
  destruct meta as [[|kv m]|].
  - eexists _, _. split; [reflexivity |]. split; [split; reflexivity |].
    eexists. repeat split.
  - rewrite (Hc eq_refl _ eq_refl).
    eexists _, _. split; [reflexivity |]. split; [split; reflexivity |].
    eexists. repeat split.
  - eexists _, _. split; [reflexivity |]. split; [split; reflexivity |].
    eexists. repeat split.
Qed.

End WithEnv.
Lemma json_export_Ok (E : Env) (items : list Registry.obj) (output_path : string)
    (pretty include_wrapper : bool) (meta : option (list (string * value))) (s : state) :
  Forall (valid_record (heap s)) items ->
  (include_wrapper = true ->
   forall m, meta = Some m -> JsonExporter.collisions m = []) ->
  (forall doc, exists text, env_dumps E pretty doc = Ok text) ->
  write_succeeds E (env_Path E output_path) s ->
  exists doc text payloads s',
    JsonExporter.export_json E items output_path pretty include_wrapper meta s
    = (Ok (env_Path E output_path), s')
    /\ env_dumps E pretty doc = Ok text
    /\ files s' = <[env_Path E output_path := text ++ nl]> (files s)
    /\ heap s' = heap s
    /\ length payloads = length items
    /\ (if include_wrapper
        then exists members,
               doc = JObj members
               /\ Encoder.lookup "schema" members = Some (JVal (VStr "proteus.payloads.v1"))
               /\ Encoder.lookup "count" members
                  = Some (JVal (VInt (Z.of_nat (length payloads))))
               /\ Encoder.lookup "payloads" members = Some (JArr payloads)
        else doc = JArr payloads).
Proof.
  intros Hitems Hmeta Hdumps Hos.
  destruct (WriteFacts.json_validate_Ok items 0 (valid_exportable _ _ Hitems))
    as (validated & Hv & Hmap).
  destruct (WriteFacts.sort_keys_Ok (heap s) validated
              (valid_titles _ _ _ Hitems Hmap)) as (keyed & Hk).
  set (payloads := map (Models.to_json_safe E (heap s)) (SortKey.sort_by keyed)).
  destruct (build_doc_Ok E payloads include_wrapper meta s Hmeta)
    as (doc & s1 & Hdoc & [Hheap Hfiles] & Hshape).
  destruct (Hdumps doc) as (text & Htext).
  assert (Hos1 : write_succeeds E (env_Path E output_path) s1).
  { destruct Hos as (H1 & H2 & H3 & rnd & H4 & H5).
    repeat (split; [assumption |]). exists rnd. rewrite Hfiles. auto. }
  exists doc, text, payloads, (written (env_Path E output_path) (text ++ nl) s1).
  split; [| split; [exact Htext | split; [| split; [| split]]]].
  - unfold JsonExporter.export_json, try_except, JsonExporter.export_json_body,
      JsonExporter._validate_items.
    unfold bind at 1, lift. rewrite Hv. unfold bind at 1, get.
    unfold bind at 1. rewrite Hk. unfold bind at 1. fold payloads. rewrite Hdoc.
    unfold bind at 1. rewrite Htext.
    unfold bind at 1. rewrite (WriteFacts.atomic_write_Ok E _ _ _ Hos1). reflexivity.
  - cbn [files written]. rewrite Hfiles. reflexivity.
  - exact Hheap.
  - unfold payloads. rewrite length_map, sort_by_length.
    rewrite <- (length_map snd keyed), (sort_keys_snd _ _ _ Hk).
    rewrite <- Hmap. symmetry. apply length_map.
  - exact Hshape.
Qed.

End JsonFacts.

(** X17.  The JSON export of valid records succeeds whenever [meta] holds
    no reserved key, [json.dumps] renders the document and every system
    call of the write succeeds: the destination then holds the rendering
    followed by a line feed, no other file and no list object has changed;
    the document names the schema and counts as many payloads as there are
    records, or is the bare list of as many payloads when no wrapper is
    asked for. *)
Theorem json_export_succeeds (E : Env) (items : list Registry.obj) (output_path : string)
    (pretty include_wrapper : bool) (meta : option (list (string * value))) (s : state) :
  Forall (valid_record (heap s)) items ->
  (include_wrapper = true ->
   forall m, meta = Some m -> JsonExporter.collisions m = []) ->
  (forall doc, exists text, env_dumps E pretty doc = Ok text) ->
  write_succeeds E (env_Path E output_path) s ->
  exists doc text payloads s',
    JsonExporter.export_json E items output_path pretty include_wrapper meta s
    = (Ok (env_Path E output_path), s')
    /\ env_dumps E pretty doc = Ok text
    /\ files s' = <[env_Path E output_path := text ++ nl]> (files s)
    /\ heap s' = heap s
    /\ length payloads = length items
    /\ (if include_wrapper
        then exists members,
               doc = JObj members
               /\ Encoder.lookup "schema" members = Some (JVal (VStr "proteus.payloads.v1"))
               /\ Encoder.lookup "count" members
                  = Some (JVal (VInt (Z.of_nat (length payloads))))
               /\ Encoder.lookup "payloads" members = Some (JArr payloads)
        else doc = JArr payloads).
Proof. apply JsonFacts.json_export_Ok. Qed.

(** X17 on [make_payload()], exported over an earlier file with a [meta]
    that holds no reserved key. *)
Lemma json_export_succeeds_witness :
  exists doc text payloads s',
    JsonExporter.export_json Sample.env [Registry.ITemplate Sample.make_payload]
      "out.json" true true (Some [("course", VStr "web-101")]) Sample.with_old_file
    = (Ok (".", "out.json"), s')
    /\ env_dumps Sample.env true doc = Ok text
    /\ files s' = <[(".", "out.json") := text ++ nl]> (files Sample.with_old_file)
    /\ heap s' = heap Sample.with_old_file
    /\ length payloads = 1
    /\ (exists members,
          doc = JObj members
          /\ Encoder.lookup "schema" members = Some (JVal (VStr "proteus.payloads.v1"))
          /\ Encoder.lookup "count" members
             = Some (JVal (VInt (Z.of_nat (length payloads))))
          /\ Encoder.lookup "payloads" members = Some (JArr payloads)).
Proof.
  apply (json_export_succeeds Sample.env [Registry.ITemplate Sample.make_payload]
           "out.json" true true (Some [("course", VStr "web-101")])
           Sample.with_old_file).
  - constructor; [| constructor]. eexists. split; [reflexivity |].
    apply (ModelsFacts.validate_Ok _ _ tt). reflexivity.
  - intros _ m [= <-]. reflexivity.
  - intros doc. eexists. reflexivity.
  - split; [reflexivity |]. split; [reflexivity |]. split; [reflexivity |].
    exists "k3x9". split; reflexivity.
Defined.

(** X18.  A [meta] that uses one of the keys [schema], [exported_at],
    [count], [payloads] makes the wrapped JSON export fail with a
    [JSONExportError], whatever the items, and nothing is written: files
    and list objects are as before.  Without the wrapper, [meta] is not
    looked at: the export does what it does with no [meta] at all. *)
Theorem json_meta_reserved_keys (E : Env) (items : list Registry.obj)
    (output_path : string) (pretty : bool) (meta : list (string * value)) (s : state) :
  JsonExporter.collisions meta <> [] ->
  (exists e s',
      JsonExporter.export_json E items output_path pretty true (Some meta) s
      = (Raise e, s')
      /\ exn_cls e = JSONExportError /\ same_store s s')
  /\ JsonExporter.export_json E items output_path pretty false (Some meta) s
     = JsonExporter.export_json E items output_path pretty false None s.
Proof.
  intros Hc. split; [| reflexivity].
  assert (Hbody : exists e s',
             JsonExporter.export_json_body E items (env_Path E output_path)
               pretty true (Some meta) s = (Raise e, s')
             /\ same_store s s').
  { unfold JsonExporter.export_json_body. unfold bind at 1, lift.
    destruct (JsonExporter._validate_items items) as [validated|e];
      [| eexists _, _; split; [reflexivity | split; reflexivity]].
    unfold bind at 1, get. unfold bind at 1.
    destruct (JsonExporter.sort_keys (heap s) validated) as [keyed|e];
      [| eexists _, _; split; [reflexivity | split; reflexivity]].
    unfold bind at 1.
    destruct (JsonFacts.build_doc_reserved E
                (map (Models.to_json_safe E (heap s)) (SortKey.sort_by keyed))
                meta s Hc) as (e & s' & -> & _ & Hs).
    eauto. }
  destruct Hbody as (e & s' & Hb & Hs).
  unfold JsonExporter.export_json, try_except. rewrite Hb.
  destruct (decide (exn_cls e = JSONExportError)) as [He|He];
    eexists _, _; (split; [reflexivity |]); split; auto.
Qed.

(** X18 at the call of the run that exports with [meta={'schema': 'x'}]. *)
Lemma json_meta_reserved_keys_witness :
  exists e s',
    JsonExporter.export_json Sample.env [Registry.ITemplate Sample.make_payload]
      "out.json" true true (Some [("schema", VStr "x")]) Sample.with_old_file
    = (Raise e, s')
    /\ exn_cls e = JSONExportError /\ same_store Sample.with_old_file s'.
Proof.
  apply (json_meta_reserved_keys Sample.env [Registry.ITemplate Sample.make_payload]
           "out.json" true [("schema", VStr "x")] Sample.with_old_file).
  discriminate.
Defined.

(** ** The shipped generators *)

Module GenerationFacts.
Import Outcome Models Registry Spec.

Lemma only_allocates_refl s : only_allocates s s.
Proof.
  split; [reflexivity |]. split; [intros l H; exact H | split; reflexivity].
Qed.

Lemma only_allocates_trans s1 s2 s3 :
  only_allocates s1 s2 -> only_allocates s2 s3 -> only_allocates s1 s3.
Proof.
  intros (Ha & Hb & Hc & Hd) (Ha' & Hb' & Hc' & Hd').
  split; [etransitivity; eassumption |].
  split; [eapply LoopFacts.keeps_strings_trans; eassumption |].
  split; congruence.
Qed.

Lemma fresh_free (h : gmap loc (list value)) : h !! fresh (dom h) = None.
Proof. apply not_elem_of_dom, is_fresh. Qed.

Lemma strings_map_VStr (l : list string) : forallb is_str (map VStr l) = true.
Proof. induction l as [|x l IH]; [reflexivity | exact IH]. Qed.

(** Allocating a list of strings. *)
Lemma new_list_allocates vs s :
  forallb is_str vs = true -> only_allocates s (snd (new_list vs s)).
Proof.
  intros Hvs. unfold new_list. cbv zeta. cbn [snd heap files dirs].
  split; [| split; [| split; reflexivity]].
  - apply insert_subseteq, fresh_free.
  - intros l H. destruct (decide (fresh (dom (heap s)) = l)) as [<-|Hne].
    + cbn [heap]. rewrite PipelineFacts.deref_insert_eq. exact Hvs.
    + cbn [heap]. rewrite PipelineFacts.deref_insert_ne by exact Hne. exact H.
Qed.

Lemma given_app {A} (pick : kwarg -> option A) kwargs k :
  given pick (kwargs ++ [k])
  = match pick k with Some a => Some a | None => given pick kwargs end.
Proof. unfold given. rewrite fold_left_app. reflexivity. Qed.

Lemma with_kwargs_app t kwargs k :
  with_kwargs t (kwargs ++ [k]) = set_field (with_kwargs t kwargs) k.
Proof. unfold with_kwargs. rewrite fold_left_app. reflexivity. Qed.

Lemma with_kwargs_encoding self kwargs :
  encoding_applied (with_kwargs self kwargs)
  = match given (fun k => match k with kw_encoding_applied x => Some x | _ => None end)
                kwargs with
    | Some l => l
    | None => encoding_applied self
    end.
Proof.
  unfold with_kwargs. revert self.
  induction kwargs as [|k ks IH]; intros self; simpl; [reflexivity |].
  rewrite IH. unfold given at 2. simpl. rewrite ModelsFacts.given_acc.
  destruct (given _ ks); [reflexivity |].
  destruct self, k; reflexivity.
Qed.

Lemma with_kwargs_obfuscation self kwargs :
  obfuscation_applied (with_kwargs self kwargs)
  = match given (fun k => match k with kw_obfuscation_applied x => Some x | _ => None end)
                kwargs with
    | Some l => l
    | None => obfuscation_applied self
    end.
Proof.
  unfold with_kwargs. revert self.
  induction kwargs as [|k ks IH]; intros self; simpl; [reflexivity |].
  rewrite IH. unfold given at 2. simpl. rewrite ModelsFacts.given_acc.
  destruct (given _ ks); [reflexivity |].
  destruct self, k; reflexivity.
Qed.

Lemma with_kwargs_tags_last self kwargs v :
  tags (with_kwargs self (kwargs ++ [kw_tags v])) = v.
Proof. rewrite with_kwargs_app. destruct (with_kwargs self kwargs). reflexivity. Qed.

Lemma separate_nil s : separate s s [].
Proof. split; constructor. Qed.

(** Records made one after the other share nothing. *)
Lemma separate_app s s1 s2 l1 l2 :
  heap s ⊆ heap s1 -> heap s1 ⊆ heap s2 ->
  separate s s1 l1 -> separate s1 s2 l2 -> separate s s2 (l1 ++ l2).
Proof.
  intros H01 H12 [Hn1 Hf1] [Hn2 Hf2]. unfold separate.
  rewrite map_app, concat_app. rewrite Forall_forall in Hf1, Hf2. split.
  - apply NoDup_app. split; [exact Hn1 |]. split; [| exact Hn2].
    intros x Hx1 Hx2. destruct (Hf1 x Hx1) as [_ [v Hv]].
    destruct (Hf2 x Hx2) as [Hnone _]. congruence.
  - apply Forall_app. split; apply Forall_forall; intros x Hx.
    + destruct (Hf1 x Hx) as [Hnone [v Hv]]. split; [exact Hnone |].
      exists v. eapply lookup_weaken; eassumption.
    + destruct (Hf2 x Hx) as [Hnone Hsome]. split; [| exact Hsome].
      eapply lookup_weaken_None; eassumption.
Qed.

Lemma separate_widen s s1 s2 s3 l :
  heap s ⊆ heap s1 -> heap s2 ⊆ heap s3 -> separate s1 s2 l -> separate s s3 l.
Proof.
  intros H01 H23 [Hn Hf]. split; [exact Hn |].
  eapply Forall_impl; [exact Hf |]. intros x [Hnone [v Hv]].
  split; [eapply lookup_weaken_None; eassumption |].
  exists v. eapply lookup_weaken; eassumption.
Qed.

Section WithEnv.
Variable E : Env.

(** A constructor call with keyword arguments that leave identifier,
    histories and creation time to their defaults, and name a list of
    strings as [tags]. *)
Lemma new_succeeds kwargs l s :
  given (fun k => match k with kw_id x => Some x | _ => None end) kwargs = None ->
  given (fun k => match k with kw_encoding_applied x => Some x | _ => None end) kwargs = None ->
  given (fun k => match k with kw_obfuscation_applied x => Some x | _ => None end) kwargs = None ->
  given (fun k => match k with kw_created_at x => Some x | _ => None end) kwargs = None ->
  (forall base h,
      disabled_by_default base = VBool true ->
      is_Some_bool (tzinfo (created_at base)) = true ->
      context base = None -> db_type base = None -> os_type base = None ->
      validate_tags h (VRef l) = Ok tt ->
      valid h (with_kwargs base (kwargs ++ [kw_tags (VRef l)]))) ->
  forallb is_str (deref (heap s) l) = true ->
  exists base s',
    PayloadTemplate_new E (kwargs ++ [kw_tags (VRef l)]) s
    = (Ok (with_kwargs base (kwargs ++ [kw_tags (VRef l)])), s')
    /\ valid (heap s') (with_kwargs base (kwargs ++ [kw_tags (VRef l)]))
    /\ only_allocates s s'
    /\ (context base = None /\ db_type base = None /\ os_type base = None)
    /\ encoding_applied base <> obfuscation_applied base
    /\ Forall (fun x => heap s !! x = None /\ is_Some (heap s' !! x))
              [encoding_applied base; obfuscation_applied base].
Proof.
  intros Hid Henc Hobf Hca Hvalid Htags.
  unfold PayloadTemplate_new.
  rewrite !given_app, Hid, Henc, Hobf, Hca. cbv iota beta.
  set (s2 := State (heap s) (files s) (dirs s) (S (draws s))).
  assert (H2 : only_allocates s s2).
  { split; [reflexivity |]. split; [intros x H; exact H | split; reflexivity]. }
  pose proof (new_list_allocates [] s2 eq_refl) as H3.
  set (s3 := snd (new_list [] s2)) in H3.
  pose proof (new_list_allocates [] s3 eq_refl) as H4.
  set (s4 := snd (new_list [] s3)) in H4.
  set (s5 := State (heap s4) (files s4) (dirs s4) (S (draws s4))).
  assert (H5 : only_allocates s4 s5).
  { split; [reflexivity |]. split; [intros x H; exact H | split; reflexivity]. }
  assert (Hall : only_allocates s s5).
  { repeat (eapply only_allocates_trans; [eassumption |]). apply only_allocates_refl. }
  set (base := {| id_ := env_uuid4 E (draws s); module := ""; title := VStr "";
                  description := ""; payload := VStr ""; context := None;
                  db_type := None; os_type := None;
                  encoding_applied := fresh (dom (heap s2));
                  obfuscation_applied := fresh (dom (heap s3));
                  tags := VRef l; defensive_notes := ""; risk_level := "low";
                  disabled_by_default := VBool true;
                  created_at := Datetime (env_now E (draws s4)) (Some utc) |}).
  assert (Hv : valid (heap s5) (with_kwargs base (kwargs ++ [kw_tags (VRef l)]))).
  { apply Hvalid; try reflexivity.
    unfold validate_tags. destruct Hall as (_ & Hk & _). rewrite (Hk _ Htags). reflexivity. }
  exists base, s5. split; [| split; [exact Hv | split; [exact Hall | split; [auto |]]]].
  2:{ assert (He : heap s !! fresh (dom (heap s2)) = None) by apply fresh_free.
      assert (Ho : heap s3 !! fresh (dom (heap s3)) = None) by apply fresh_free.
      assert (Hh3 : heap s3 = <[fresh (dom (heap s2)) := []]> (heap s)) by reflexivity.
      assert (Hh5 : heap s5 = <[fresh (dom (heap s3)) := []]> (heap s3)) by reflexivity.
      cbn [encoding_applied obfuscation_applied base].
      assert (Hne : fresh (dom (heap s2)) <> fresh (dom (heap s3))).
      { intros Heq. rewrite <- Heq, Hh3, lookup_insert_eq in Ho. discriminate Ho. }
      split; [exact Hne |].
      constructor; [| constructor; [| constructor]].
      - split; [exact He |]. rewrite Hh5, Hh3.
        rewrite lookup_insert_ne by congruence. rewrite lookup_insert_eq. eauto.
      - split; [| rewrite Hh5, lookup_insert_eq; eauto].
        rewrite Hh3 in Ho. rewrite lookup_insert_ne in Ho by exact Hne. exact Ho. }
  transitivity (construct (with_kwargs base (kwargs ++ [kw_tags (VRef l)])) s5);
    [reflexivity |].
  rewrite ModelsFacts.construct_spec, (ModelsFacts.valid_validate _ _ Hv). reflexivity.
Qed.

(** The record a generator builds with [PayloadTemplate(..., tags=[...])]. *)
Lemma template_succeeds kwargs tag_list s :
  given (fun k => match k with kw_id x => Some x | _ => None end) kwargs = None ->
  given (fun k => match k with kw_encoding_applied x => Some x | _ => None end) kwargs = None ->
  given (fun k => match k with kw_obfuscation_applied x => Some x | _ => None end) kwargs = None ->
  given (fun k => match k with kw_created_at x => Some x | _ => None end) kwargs = None ->
  (forall base l h,
      disabled_by_default base = VBool true ->
      is_Some_bool (tzinfo (created_at base)) = true ->
      context base = None -> db_type base = None -> os_type base = None ->
      validate_tags h (VRef l) = Ok tt ->
      valid h (with_kwargs base (kwargs ++ [kw_tags (VRef l)]))) ->
  exists base l s',
    Xss.template E kwargs tag_list s
    = (Ok (ITemplate (with_kwargs base (kwargs ++ [kw_tags (VRef l)]))), s')
    /\ valid (heap s') (with_kwargs base (kwargs ++ [kw_tags (VRef l)]))
    /\ only_allocates s s'
    /\ (context base = None /\ db_type base = None /\ os_type base = None)
    /\ separate s s' [ITemplate (with_kwargs base (kwargs ++ [kw_tags (VRef l)]))].
Proof.
  intros Hid Henc Hobf Hca Hvalid.
  set (l := fresh (dom (heap s))).
  set (s1 := snd (new_list (map VStr tag_list) s)).
  pose proof (new_list_allocates (map VStr tag_list) s (strings_map_VStr _)) as H1.
  fold s1 in H1.
  destruct (new_succeeds kwargs l s1 Hid Henc Hobf Hca (fun base => Hvalid base l))
    as (base & s' & Hnew & Hv & Hal & Hdef & Hne & Hlocs).
  { unfold s1, new_list, l. cbn [snd heap]. rewrite PipelineFacts.deref_insert_eq.
    apply strings_map_VStr. }
  assert (Hl : heap s !! l = None) by apply fresh_free.
  assert (Hl1 : heap s1 !! l = Some (map VStr tag_list)) by apply lookup_insert_eq.
  apply Forall_cons in Hlocs. destruct Hlocs as [[He1 He'] Hlocs].
  apply Forall_cons in Hlocs. destruct Hlocs as [[Ho1 Ho'] _].
  exists base, l, s'. split; [| split; [exact Hv | split; [| split; [exact Hdef |]]]].
  - unfold Xss.template. unfold bind at 1.
    change (new_list (map VStr tag_list) s) with (Ok l, s1).
    unfold bind at 1. rewrite Hnew. reflexivity.
  - eapply only_allocates_trans; eassumption.
  - destruct H1 as (H01 & _). destruct Hal as (H1' & _).
    unfold separate. cbn [map concat lists_of app].
    rewrite with_kwargs_tags_last, with_kwargs_encoding, with_kwargs_obfuscation.
    rewrite !given_app, Henc, Hobf. cbn [app].
    split.
    + apply NoDup_cons. split.
      * intros Hin. apply elem_of_cons in Hin. destruct Hin as [-> | Hin]; [congruence |].
        apply elem_of_cons in Hin. destruct Hin as [-> | Hin]; [congruence |].
        inversion Hin.
      * apply NoDup_cons. split; [| apply NoDup_singleton].
        intros Hin. apply list_elem_of_singleton in Hin. contradiction.
    + constructor; [| constructor; [| constructor; [| constructor]]].
      * split; [exact Hl |]. exists (map VStr tag_list).
        eapply lookup_weaken; eassumption.
      * split; [eapply lookup_weaken_None; eassumption | exact He'].
      * split; [eapply lookup_weaken_None; eassumption | exact Ho'].
Qed.


(** Running a list of constructor calls that each succeed. *)
Lemma sequence_each (Q : gmap loc (list value) -> obj -> Prop) (ms : list (M obj)) :
  (forall h h' a, keeps_strings h h' -> Q h a -> Q h' a) ->
  Forall (fun m => forall s, exists a s',
              m s = (Ok a, s') /\ Q (heap s') a /\ only_allocates s s'
              /\ separate s s' [a]) ms ->
  forall s, exists l s',
    sequence ms s = (Ok l, s')
    /\ Forall (Q (heap s')) l /\ length l = length ms /\ only_allocates s s'
    /\ separate s s' l.
Proof.
  intros Hmono Hall. induction Hall as [|m ms Hm _ IH]; intros s.
  - exists [], s. split; [reflexivity |]. split; [constructor |].
    split; [reflexivity |]. split; [apply only_allocates_refl | apply separate_nil].
  - destruct (Hm s) as (a & s1 & Ha & Hq & H1 & Hs1).
    destruct (IH s1) as (l & s2 & Hl & Hql & Hlen & H2 & Hs2).
    exists (a :: l), s2. split; [| split; [| split; [| split]]].
    + cbn [sequence]. unfold bind at 1. rewrite Ha. unfold bind at 1. rewrite Hl.
      reflexivity.
    + constructor; [| exact Hql]. eapply Hmono; [| exact Hq]. apply H2.
    + simpl. f_equal. exact Hlen.
    + eapply only_allocates_trans; eassumption.
    + apply (separate_app s s1 s2 [a] l); [apply H1 | apply H2 | exact Hs1 | exact Hs2].
Qed.

Lemma in_brackets_marker p : in_brackets p = true -> has_bracket_marker p.
Proof.
  unfold in_brackets. intros H. apply andb_prop in H. destruct H as [Hp Hb].
  apply String.eqb_eq in Hp.
  exists "", (String.substring 2 (String.length p - 4) p), "".
  split; [exact Hp | exact Hb].
Qed.

Lemma shipped_record_keeps m c d o h h' x :
  keeps_strings h h' -> shipped_record h m c d o x -> shipped_record h' m c d o x.
Proof.
  intros Hk (t & p & -> & Hv & H). exists t, p.
  split; [reflexivity |]. split; [| exact H].
  eapply HexRunFacts.valid_keeps; eassumption.
Qed.

Lemma shipped_record_valid h m c d o x :
  shipped_record h m c d o x -> valid_record h x.
Proof. intros (t & p & -> & Hv & _). exists t. auto. Qed.

(** [generate] when the generator returns a list of valid records. *)
Lemma generate_from_generator (reg : ModuleRegistry) name db os ctx spec s items s' :
  validate_selectors reg name db os ctx = Ok tt ->
  reg !! name = Some spec ->
  call_generator spec db os ctx s = (Ok (RList items), s') ->
  Forall (valid_record (heap s')) items ->
  generate reg name db os ctx s = (Ok items, s').
Proof.
  intros Hsel Hspec Hcall Hvalid.
  rewrite (RegistryFacts.generate_after_call _ _ _ _ _ _ _ _ _ Hsel Hspec Hcall).
  destruct (RegistryFacts.revalidate_spec name (heap s') items 0) as [Hok _].
  rewrite Hok; [reflexivity |].
  eapply Forall_impl; [exact Hvalid |].
  intros x (t & -> & Hv) Hoff. exact (Hoff Hv).
Qed.

(** [generate] when the generator raises. *)
Lemma generate_generator_raises (reg : ModuleRegistry) name db os ctx spec s e s' :
  validate_selectors reg name db os ctx = Ok tt ->
  reg !! name = Some spec ->
  call_generator spec db os ctx s = (Raise e, s') ->
  generate reg name db os ctx s = (Raise e, s').
Proof.
  intros Hsel Hspec Hcall. unfold generate, bind, lift, get_spec.
  rewrite Hsel, Hspec, Hcall. reflexivity.
Qed.

Lemma lookup_In_snd {A} k (d : list (string * A)) v :
  Encoder.lookup k d = Some v -> In v (map snd d).
Proof.
  induction d as [|[k' a] d IH]; simpl; [discriminate |].
  destruct (String.eqb k k'); [intros [= ->]; auto | auto].
Qed.



Lemma sqli_template_eq d spec :
  Sqli.template E d spec
  = Xss.template E
      [ kw_module "sqli";
        kw_title (VStr (Sqli.title spec ++ " (" ++ d ++ ") - Template"));
        kw_description (Sqli.description spec);
        kw_payload (VStr ("<<SQLI_TEMPLATE: " ++ Sqli.key spec ++ " | " ++ "DB=" ++ d
                          ++ " | NON_EXECUTING>>"));
        kw_db_type (Some d);
        kw_defensive_notes
          ("Education-only (non-executing)." ++ nl
           ++ Sqli.defensive_notes spec
           ++ Sqli._db_defense_highlights d
           ++ "- Integrate SAST/DAST and code review for query construction." ++ nl);
        kw_risk_level (Sqli.risk spec) ]
      (Sqli.tags spec ++ ["db:" ++ d]).
Proof. reflexivity. Qed.

Lemma cmd_template_eq os_norm spec :
  CmdInjection.template E os_norm spec
  = Xss.template E
      [ kw_module "cmd";
        kw_title (VStr (CmdInjection.title spec ++ " (" ++ os_norm ++ ") - Template"));
        kw_description (CmdInjection.description spec);
        kw_payload (VStr ("<<CMD_TEMPLATE: " ++ CmdInjection.key spec ++ " | " ++ "OS="
                          ++ os_norm ++ " | NON_EXECUTING>>"));
        kw_os_type (Some os_norm);
        kw_defensive_notes
          ("Education-only (non-executing)." ++ nl
           ++ CmdInjection.defensive_notes spec
           ++ CmdInjection._os_defense_highlights os_norm
           ++ "- Apply least privilege to service accounts." ++ nl
           ++ "- Prefer SDK/library APIs over invoking shell utilities." ++ nl);
        kw_risk_level (CmdInjection.risk spec) ]
      (CmdInjection.tags spec ++ ["os:" ++ os_norm]).
Proof. reflexivity. Qed.

(** The keyword arguments pass validation over any defaults. *)
Ltac valid_kwargs :=
  let base := fresh "base" in
  let Hd := fresh "Hd" in let Htz := fresh "Htz" in let Htags := fresh "Htags" in
  let Hc := fresh "Hc" in let Hdb := fresh "Hdb" in let Hos := fresh "Hos" in
  intros base ? ? Hd Htz Hc Hdb Hos Htags; destruct base;
  cbn in Hc, Hdb, Hos; subst;
  constructor;
  [ vm_compute; reflexivity | vm_compute; reflexivity | vm_compute; reflexivity
  | vm_compute; reflexivity | exact Hd | exact Htags | vm_compute; reflexivity
  | exact Htz ].

(** One constructor call of a generator, on literal keyword arguments. *)
Ltac one_template :=
  let s := fresh "s" in
  intros s; rewrite ?sqli_template_eq, ?cmd_template_eq;
  match goal with
  | |- exists a s', Xss.template ?E' ?k ?t s = _ /\ _ =>
      let base := fresh "base" in let l := fresh "l" in let s' := fresh "s'" in
      let Hrun := fresh "Hrun" in let Hv := fresh "Hv" in let Hal := fresh "Hal" in
      let Hc := fresh "Hc" in let Hdb := fresh "Hdb" in let Hos := fresh "Hos" in
      let Hsep := fresh "Hsep" in
      destruct (template_succeeds k t s
                  eq_refl eq_refl eq_refl eq_refl ltac:(valid_kwargs))
        as (base & l & s' & Hrun & Hv & Hal & (Hc & Hdb & Hos) & Hsep);
      eexists _, s'; split; [exact Hrun |]; split; [| split; [exact Hal | exact Hsep]];
      eexists _, _; split; [reflexivity |]; split; [exact Hv |];
      destruct base; cbn in Hc, Hdb, Hos; subst;
      split; [reflexivity |]; split; [reflexivity |]; split; [reflexivity |];
      split; [reflexivity |]; split; [reflexivity |];
      apply in_brackets_marker; vm_compute; reflexivity
  end.

Ltac each_template :=
  repeat (apply Forall_cons_2; [one_template |]); apply Forall_nil_2.

Lemma xss_html_each : builds "xss" (Some "html") None None (Xss.html_templates E).
Proof. unfold builds, Xss.html_templates. each_template. Qed.

Lemma xss_attr_each : builds "xss" (Some "attr") None None (Xss.attr_templates E).
Proof. unfold builds, Xss.attr_templates. each_template. Qed.

Lemma xss_js_each : builds "xss" (Some "js") None None (Xss.js_templates E).
Proof. unfold builds, Xss.js_templates. each_template. Qed.

Lemma sqli_each d :
  In d VALID_DB_TYPES ->
  builds "sqli" None (Some d) None (map (Sqli.template E d) Sqli._TEMPLATES).
Proof.
  intros Hd. unfold builds, Sqli._TEMPLATES. cbn [map].
  destruct Hd as [<- | [<- | [<- | []]]]; each_template.
Qed.

Lemma cmd_each o :
  In o VALID_OS_TYPES ->
  builds "cmd" None None (Some o) (map (CmdInjection.template E o) CmdInjection._TEMPLATES).
Proof.
  intros Ho. unfold builds, CmdInjection._TEMPLATES. cbn [map].
  destruct Ho as [<- | [<- | []]]; each_template.
Qed.

Lemma run_group m c d o ms s :
  builds m c d o ms ->
  exists l s',
    sequence ms s = (Ok l, s')
    /\ Forall (shipped_record (heap s') m c d o) l
    /\ length l = length ms /\ only_allocates s s' /\ separate s s' l.
Proof.
  intros H. apply (sequence_each (fun h => shipped_record h m c d o)); [| exact H].
  intros h h' a. apply shipped_record_keeps.
Qed.


Lemma group_or_skip (b : bool) m c d o ms s :
  builds m c d o ms ->
  exists l s',
    (if b then sequence ms else ret []) s = (Ok l, s')
    /\ Forall (fun x => b = true /\ shipped_record (heap s') m c d o x) l
    /\ length l = (if b then length ms else 0)
    /\ only_allocates s s' /\ separate s s' l.
Proof.
  intros H. destruct b.
  - destruct (run_group m c d o ms s H) as (l & s' & Hrun & Hq & Hlen & Hal & Hsep).
    exists l, s'. split; [exact Hrun |]. split; [| auto].
    eapply Forall_impl; [exact Hq | auto].
  - exists [], s. split; [reflexivity |]. split; [constructor |].
    split; [reflexivity |]. split; [apply only_allocates_refl | apply separate_nil].
Qed.

Lemma selects_true ctx c : Xss.selects ctx c = true -> ctx = None \/ ctx = Some c.
Proof.
  destruct ctx as [x|]; [| auto]. simpl. intros H. apply String.eqb_eq in H.
  subst. auto.
Qed.

(** The XSS generator on a context it accepts. *)
Lemma xss_generates context ctx s :
  Xss._normalize_context context = Ok ctx ->
  exists items s',
    Xss.generate_payloads E "context" context s = (Ok (RList items), s')
    /\ length items
       = match ctx with
         | None => 8
         | Some c => if String.eqb c "html" then 2 else 3
         end
    /\ Forall (fun x => exists c,
                  (ctx = None \/ ctx = Some c)
                  /\ shipped_record (heap s') "xss" (Some c) None None x) items
    /\ only_allocates s s' /\ separate s s' items.
Proof.
  intros Hctx. unfold Xss.generate_payloads. cbn [String.eqb Ascii.eqb Bool.eqb negb].
  unfold bind at 1, lift. rewrite Hctx.
  destruct (group_or_skip (Xss.selects ctx "html") _ _ _ _ _ s xss_html_each)
    as (html & s1 & Hh & Hqh & Hlh & H1 & Hs1).
  destruct (group_or_skip (Xss.selects ctx "attr") _ _ _ _ _ s1 xss_attr_each)
    as (attr & s2 & Ha & Hqa & Hla & H2 & Hs2).
  destruct (group_or_skip (Xss.selects ctx "js") _ _ _ _ _ s2 xss_js_each)
    as (js & s3 & Hj & Hqj & Hlj & H3 & Hs3).
  exists (html ++ attr ++ js)%list, s3.
  split; [| split; [| split; [| split]]].
  - unfold bind at 1. rewrite Hh. unfold bind at 1. rewrite Ha.
    unfold bind at 1. rewrite Hj. reflexivity.
  - rewrite !length_app, Hlh, Hla, Hlj.
    destruct (GeneratorFacts.normalize_context_cases _ _ Hctx)
      as [-> | [-> | [-> | ->]]]; reflexivity.
  - assert (H23 : keeps_strings (heap s2) (heap s3)) by apply H3.
    assert (H12 : keeps_strings (heap s1) (heap s2)) by apply H2.
    rewrite !Forall_app. split; [| split].
    + eapply Forall_impl; [exact Hqh |]. intros x [Hb Hx].
      exists "html". split; [apply selects_true, Hb |].
      eapply shipped_record_keeps; [exact H23 |].
      eapply shipped_record_keeps; [exact H12 | exact Hx].
    + eapply Forall_impl; [exact Hqa |]. intros x [Hb Hx].
      exists "attr". split; [apply selects_true, Hb |].
      eapply shipped_record_keeps; [exact H23 | exact Hx].
    + eapply Forall_impl; [exact Hqj |]. intros x [Hb Hx].
      exists "js". split; [apply selects_true, Hb | exact Hx].
  - eapply only_allocates_trans; [exact H1 |].
    eapply only_allocates_trans; eassumption.
  - apply (separate_app s s1 s3); [apply H1 | | exact Hs1 |].
    + etransitivity; [apply H2 | apply H3].
    + apply (separate_app s1 s2 s3); [apply H2 | apply H3 | exact Hs2 | exact Hs3].
Qed.

Lemma normalize_db_valid db_type d :
  Sqli._normalize_db db_type = Ok d -> In d VALID_DB_TYPES.
Proof.
  unfold Sqli._normalize_db. destruct (Encoder.lookup _ _) as [d'|] eqn:H; [| discriminate].
  intros [= <-]. apply lookup_In_snd in H. simpl in H. simpl.
  intuition.
Qed.

Lemma normalize_os_valid os_type o :
  CmdInjection._normalize_os os_type = Ok o -> In o VALID_OS_TYPES.
Proof.
  unfold CmdInjection._normalize_os.
  destruct (Encoder.lookup _ _) as [o'|] eqn:H; [| discriminate].
  intros [= <-]. apply lookup_In_snd in H. simpl in H. simpl.
  intuition.
Qed.

Lemma sqli_generates db_type d s :
  Sqli._normalize_db db_type = Ok d ->
  exists items s',
    Sqli.generate_payloads E "db_type" db_type s = (Ok (RList items), s')
    /\ length items = 5
    /\ Forall (shipped_record (heap s') "sqli" None (Some d) None) items
    /\ only_allocates s s' /\ separate s s' items.
Proof.
  intros Hd. unfold Sqli.generate_payloads. cbn [String.eqb Ascii.eqb Bool.eqb negb].
  unfold bind at 1, lift. rewrite Hd.
  destruct (run_group _ _ _ _ _ s (sqli_each d (normalize_db_valid _ _ Hd)))
    as (items & s' & Hrun & Hq & Hlen & Hal & Hsep).
  exists items, s'. unfold bind at 1. rewrite Hrun. auto 6.
Qed.

Lemma cmd_generates os_type o s :
  CmdInjection._normalize_os os_type = Ok o ->
  exists items s',
    CmdInjection.generate_payloads E "os_type" os_type s = (Ok (RList items), s')
    /\ length items = 5
    /\ Forall (shipped_record (heap s') "cmd" None None (Some o)) items
    /\ only_allocates s s' /\ separate s s' items.
Proof.
  intros Ho. unfold CmdInjection.generate_payloads.
  cbn [String.eqb Ascii.eqb Bool.eqb negb].
  unfold bind at 1, lift. rewrite Ho.
  destruct (run_group _ _ _ _ _ s (cmd_each o (normalize_os_valid _ _ Ho)))
    as (items & s' & Hrun & Hq & Hlen & Hal & Hsep).
  exists items, s'. unfold bind at 1. rewrite Hrun. auto 6.
Qed.

(** The selector checks of the registry on the three shipped names. *)
Lemma shipped_selectors_xss db os ctx :
  truthy ctx = true -> validate_selectors (Shipped.registry E) "xss" db os ctx = Ok tt.
Proof.
  intros H. unfold validate_selectors, get_spec. rewrite RegistryFacts.shipped_xss.
  simpl. rewrite H. reflexivity.
Qed.

Lemma shipped_selectors_sqli db os ctx :
  truthy db = true -> validate_selectors (Shipped.registry E) "sqli" db os ctx = Ok tt.
Proof.
  intros H. unfold validate_selectors, get_spec. rewrite RegistryFacts.shipped_sqli.
  simpl. rewrite H. reflexivity.
Qed.

Lemma shipped_selectors_cmd db os ctx :
  truthy os = true -> validate_selectors (Shipped.registry E) "cmd" db os ctx = Ok tt.
Proof.
  intros H. unfold validate_selectors, get_spec. rewrite RegistryFacts.shipped_cmd.
  simpl. rewrite H. reflexivity.
Qed.

(** What [PayloadPipeline.generate] makes of an exception of the registry. *)
Lemma pipeline_wraps (reg : ModuleRegistry) name db os ctx s e s' :
  Registry.generate reg name db os ctx s = (Raise e, s') ->
  Pipeline.generate reg name db os ctx s
  = (Raise (ExcFrom PipelineError ("Generation failed: " ++ str_exn e) e), s').
Proof. intros H. unfold Pipeline.generate, try_except. rewrite H. reflexivity. Qed.

End WithEnv.
End GenerationFacts.

Module GenerateFacts.
Import Outcome Models Registry Spec GenerationFacts.


Lemma generate_xss (E : Env) (context db_type os_type : option string) (s : state) :
  truthy context = true ->
  match Xss._normalize_context context with
  | Ok ctx =>
      exists items s',
        Registry.generate (Shipped.registry E) "xss" db_type os_type context s
        = (Ok items, s')
        /\ length items
           = match ctx with
             | None => 8
             | Some c => if String.eqb c "html" then 2 else 3
             end
        /\ Forall (fun x => exists c,
                      (ctx = None \/ ctx = Some c)
                      /\ shipped_record (heap s') "xss" (Some c) None None x) items
        /\ only_allocates s s'
  | Raise e =>
      exn_cls e = ValueError
      /\ Registry.generate (Shipped.registry E) "xss" db_type os_type context s
         = (Raise e, s)
      /\ Pipeline.generate (Shipped.registry E) "xss" db_type os_type context s
         = (Raise (ExcFrom PipelineError ("Generation failed: " ++ str_exn e) e), s)
  end.
Proof.
  intros Ht. pose proof (shipped_selectors_xss E db_type os_type context Ht) as Hsel.
  destruct (Xss._normalize_context context) as [ctx|e] eqn:Hn.
  - destruct (xss_generates E context ctx s Hn)
      as (items & s' & Hrun & Hlen & Hq & Hal & _).
    exists items, s'. split; [| auto].
    eapply generate_from_generator;
      [exact Hsel | apply RegistryFacts.shipped_xss | exact Hrun |].
    eapply Forall_impl; [exact Hq |].
    intros x (c & _ & Hx). eapply shipped_record_valid, Hx.
  - assert (Hgen : Registry.generate (Shipped.registry E) "xss" db_type os_type context s
                   = (Raise e, s)).
    { eapply generate_generator_raises;
        [exact Hsel | apply RegistryFacts.shipped_xss |].
      unfold call_generator. cbn [requires_db requires_os generator].
      unfold Xss.generate_payloads. cbn [String.eqb Ascii.eqb Bool.eqb negb].
      unfold bind, lift. rewrite Hn. reflexivity. }
    split; [| split; [exact Hgen | apply pipeline_wraps, Hgen]].
    unfold Xss._normalize_context in Hn. destruct context as [raw|]; [| discriminate].
    destruct (String.eqb _ ""); [discriminate |].
    destruct (negb _); [| discriminate]. injection Hn as <-. reflexivity.
Qed.

Lemma generate_sqli (E : Env) (db_type os_type context : option string) (s : state) :
  truthy db_type = true ->
  match Sqli._normalize_db db_type with
  | Ok d =>
      In d VALID_DB_TYPES
      /\ exists items s',
           Registry.generate (Shipped.registry E) "sqli" db_type os_type context s
           = (Ok items, s')
           /\ length items = 5
           /\ Forall (shipped_record (heap s') "sqli" None (Some d) None) items
           /\ only_allocates s s'
  | Raise e =>
      exn_cls e = ValueError
      /\ Registry.generate (Shipped.registry E) "sqli" db_type os_type context s
         = (Raise e, s)
      /\ Pipeline.generate (Shipped.registry E) "sqli" db_type os_type context s
         = (Raise (ExcFrom PipelineError ("Generation failed: " ++ str_exn e) e), s)
  end.
Proof.
  intros Ht. pose proof (shipped_selectors_sqli E db_type os_type context Ht) as Hsel.
  destruct (Sqli._normalize_db db_type) as [d|e] eqn:Hn.
  - split; [eapply normalize_db_valid; eassumption |].
    destruct (sqli_generates E db_type d s Hn)
      as (items & s' & Hrun & Hlen & Hq & Hal & _).
    exists items, s'. split; [| auto].
    eapply generate_from_generator;
      [exact Hsel | apply RegistryFacts.shipped_sqli | exact Hrun |].
    eapply Forall_impl; [exact Hq |]. intros x Hx. eapply shipped_record_valid, Hx.
  - assert (Hgen : Registry.generate (Shipped.registry E) "sqli" db_type os_type context s
                   = (Raise e, s)).
    { eapply generate_generator_raises;
        [exact Hsel | apply RegistryFacts.shipped_sqli |].
      unfold call_generator. cbn [requires_db requires_os generator].
      unfold Sqli.generate_payloads. cbn [String.eqb Ascii.eqb Bool.eqb negb].
      unfold bind, lift. rewrite Hn. reflexivity. }
    split; [| split; [exact Hgen | apply pipeline_wraps, Hgen]].
    unfold Sqli._normalize_db in Hn. destruct (Encoder.lookup _ _); [discriminate |].
    injection Hn as <-. reflexivity.
Qed.

Lemma generate_cmd (E : Env) (db_type os_type context : option string) (s : state) :
  truthy os_type = true ->
  match CmdInjection._normalize_os os_type with
  | Ok o =>
      In o VALID_OS_TYPES
      /\ exists items s',
           Registry.generate (Shipped.registry E) "cmd" db_type os_type context s
           = (Ok items, s')
           /\ length items = 5
           /\ Forall (shipped_record (heap s') "cmd" None None (Some o)) items
           /\ only_allocates s s'
  | Raise e =>
      exn_cls e = ValueError
      /\ Registry.generate (Shipped.registry E) "cmd" db_type os_type context s
         = (Raise e, s)
      /\ Pipeline.generate (Shipped.registry E) "cmd" db_type os_type context s
         = (Raise (ExcFrom PipelineError ("Generation failed: " ++ str_exn e) e), s)
  end.
Proof.
  intros Ht. pose proof (shipped_selectors_cmd E db_type os_type context Ht) as Hsel.
  destruct (CmdInjection._normalize_os os_type) as [o|e] eqn:Hn.
  - split; [eapply normalize_os_valid; eassumption |].
    destruct (cmd_generates E os_type o s Hn)
      as (items & s' & Hrun & Hlen & Hq & Hal & _).
    exists items, s'. split; [| auto].
    eapply generate_from_generator;
      [exact Hsel | apply RegistryFacts.shipped_cmd | exact Hrun |].
    eapply Forall_impl; [exact Hq |]. intros x Hx. eapply shipped_record_valid, Hx.
  - assert (Hgen : Registry.generate (Shipped.registry E) "cmd" db_type os_type context s
                   = (Raise e, s)).
    { eapply generate_generator_raises;
        [exact Hsel | apply RegistryFacts.shipped_cmd |].
      unfold call_generator. cbn [requires_db requires_os generator].
      unfold CmdInjection.generate_payloads. cbn [String.eqb Ascii.eqb Bool.eqb negb].
      unfold bind, lift. rewrite Hn. reflexivity. }
    split; [| split; [exact Hgen | apply pipeline_wraps, Hgen]].
    unfold CmdInjection._normalize_os in Hn. destruct (Encoder.lookup _ _); [discriminate |].
    injection Hn as <-. reflexivity.
Qed.

Lemma shipped_generate_cases (E : Env) name db os ctx s :
  (exists e,
      Registry.generate (Shipped.registry E) name db os ctx s = (Raise e, s)
      /\ (exn_cls e = RegistryError \/ exn_cls e = ValueError))
  \/ (exists items s',
         Registry.generate (Shipped.registry E) name db os ctx s = (Ok items, s')
         /\ items <> []
         /\ Forall (fun x => exists c d o,
                       shipped_record (heap s') name c d o x) items
         /\ only_allocates s s').
Proof.
  destruct (decide (name = "xss")) as [->|Hx].
  { destruct (truthy ctx) eqn:Ht.
    - pose proof (generate_xss E ctx db os s Ht) as H.
      destruct (Xss._normalize_context ctx) as [c|e].
      + right. destruct H as (items & s' & Hrun & Hlen & Hq & Hal).
        exists items, s'. split; [exact Hrun |]. split; [| split; [| exact Hal]].
        * intros ->. destruct c as [c|]; [destruct (String.eqb c "html") |];
            discriminate Hlen.
        * eapply Forall_impl; [exact Hq |]. intros x (c0 & _ & Hx). eauto.
      + left. destruct H as (Hc & Hrun & _). eauto.
    - left. exists (Exc RegistryError "Module 'xss' requires 'context' selector.").
      split; [| left; reflexivity].
      unfold generate, validate_selectors, get_spec, bind, lift.
      rewrite RegistryFacts.shipped_xss. simpl. rewrite Ht. reflexivity. }
  destruct (decide (name = "sqli")) as [->|Hs].
  { destruct (truthy db) eqn:Ht.
    - pose proof (generate_sqli E db os ctx s Ht) as H.
      destruct (Sqli._normalize_db db) as [d|e].
      + right. destruct H as (_ & items & s' & Hrun & Hlen & Hq & Hal).
        exists items, s'. split; [exact Hrun |]. split; [| split; [| exact Hal]].
        * intros ->. discriminate Hlen.
        * eapply Forall_impl; [exact Hq |]. intros x Hx0. eauto.
      + left. destruct H as (Hc & Hrun & _). eauto.
    - left. exists (Exc RegistryError "Module 'sqli' requires 'db_type' selector.").
      split; [| left; reflexivity].
      unfold generate, validate_selectors, get_spec, bind, lift.
      rewrite RegistryFacts.shipped_sqli. simpl. rewrite Ht. reflexivity. }
  destruct (decide (name = "cmd")) as [->|Hc].
  { destruct (truthy os) eqn:Ht.
    - pose proof (generate_cmd E db os ctx s Ht) as H.
      destruct (CmdInjection._normalize_os os) as [o|e].
      + right. destruct H as (_ & items & s' & Hrun & Hlen & Hq & Hal).
        exists items, s'. split; [exact Hrun |]. split; [| split; [| exact Hal]].
        * intros ->. discriminate Hlen.
        * eapply Forall_impl; [exact Hq |]. intros x Hx0. eauto.
      + left. destruct H as (Hc' & Hrun & _). eauto.
    - left. exists (Exc RegistryError "Module 'cmd' requires 'os_type' selector.").
      split; [| left; reflexivity].
      unfold generate, validate_selectors, get_spec, bind, lift.
      rewrite RegistryFacts.shipped_cmd. simpl. rewrite Ht. reflexivity. }
  left. exists (registry_error (not_registered (Shipped.registry E) name)).
  split; [| left; reflexivity].
  apply RegistryFacts.generate_unregistered, RegistryFacts.shipped_other; assumption.
Qed.

(** What a call of [generate] that returned has done. *)
Lemma generate_inv (reg : ModuleRegistry) name db os ctx s items s' :
  generate reg name db os ctx s = (Ok items, s') ->
  exists spec,
    reg !! name = Some spec
    /\ call_generator spec db os ctx s = (Ok (RList items), s').
Proof.
  unfold generate. intros H.
  apply bind_Ok in H. destruct H as ([] & s1 & Hsel & H).
  apply lift_inv in Hsel. destruct Hsel as [_ ->].
  apply bind_Ok in H. destruct H as (spec & s2 & Hspec & H).
  apply lift_inv in Hspec. destruct Hspec as [Hspec ->]. unfold get_spec in Hspec.
  destruct (reg !! name) as [spec'|] eqn:Hl; [| discriminate]. injection Hspec as ->.
  apply bind_Ok in H. destruct H as (g & s3 & Hcall & H).
  destruct g as [its|v]; [| discriminate].
  apply bind_Ok in H. destruct H as ([] & s4 & Hre & H).
  injection H as <- <-. injection Hre as _ <-.
  exists spec'. auto.
Qed.

(** The records a generation returns hold lists of their own. *)
Lemma shipped_generate_separate (E : Env) name db os ctx s items s' :
  Registry.generate (Shipped.registry E) name db os ctx s = (Ok items, s') ->
  separate s s' items.
Proof.
  intros H. apply generate_inv in H. destruct H as (spec & Hspec & Hcall).
  destruct (decide (name = "xss")) as [->|Hx].
  { rewrite RegistryFacts.shipped_xss in Hspec. injection Hspec as <-.
    unfold call_generator in Hcall. cbn [requires_db requires_os generator] in Hcall.
    destruct (Xss._normalize_context ctx) as [c|e] eqn:Hn.
    - destruct (xss_generates E ctx c s Hn) as (items' & s'' & Hrun & _ & _ & _ & Hsep).
      rewrite Hrun in Hcall. injection Hcall as <- <-. exact Hsep.
    - unfold Xss.generate_payloads in Hcall.
      cbn [String.eqb Ascii.eqb Bool.eqb negb] in Hcall.
      unfold bind, lift in Hcall. rewrite Hn in Hcall. discriminate Hcall. }
  destruct (decide (name = "sqli")) as [->|Hs].
  { rewrite RegistryFacts.shipped_sqli in Hspec. injection Hspec as <-.
    unfold call_generator in Hcall. cbn [requires_db requires_os generator] in Hcall.
    destruct (Sqli._normalize_db db) as [d|e] eqn:Hn.
    - destruct (sqli_generates E db d s Hn) as (items' & s'' & Hrun & _ & _ & _ & Hsep).
      rewrite Hrun in Hcall. injection Hcall as <- <-. exact Hsep.
    - unfold Sqli.generate_payloads in Hcall.
      cbn [String.eqb Ascii.eqb Bool.eqb negb] in Hcall.
      unfold bind, lift in Hcall. rewrite Hn in Hcall. discriminate Hcall. }
  destruct (decide (name = "cmd")) as [->|Hc].
  { rewrite RegistryFacts.shipped_cmd in Hspec. injection Hspec as <-.
    unfold call_generator in Hcall. cbn [requires_db requires_os generator] in Hcall.
    destruct (CmdInjection._normalize_os os) as [o|e] eqn:Hn.
    - destruct (cmd_generates E os o s Hn) as (items' & s'' & Hrun & _ & _ & _ & Hsep).
      rewrite Hrun in Hcall. injection Hcall as <- <-. exact Hsep.
    - unfold CmdInjection.generate_payloads in Hcall.
      cbn [String.eqb Ascii.eqb Bool.eqb negb] in Hcall.
      unfold bind, lift in Hcall. rewrite Hn in Hcall. discriminate Hcall. }
  rewrite RegistryFacts.shipped_other in Hspec by assumption. discriminate Hspec.
Qed.

End GenerateFacts.

(** X19.  With a non-empty [context], generating for [xss] from the shipped
    registry has two outcomes only.  If the context, trimmed and
    lower-cased, is [html], [attr] or [js], the two, three or three records
    of that context are returned; if it is white space only, all eight.
    Each record is valid, of module [xss], carries a bracketed marker as
    payload, and nothing but new list objects has been made.  [db_type]
    and [os_type] are not looked at.  Any other context makes the
    generator's [ValueError] leave [Registry.generate] as it is, with the
    state untouched, and [PayloadPipeline.generate] wraps it. *)
Theorem xss_generation (E : Env) (context db_type os_type : option string) (s : state) :
  truthy context = true ->
  match Xss._normalize_context context with
  | Ok ctx =>
      exists items s',
        Registry.generate (Shipped.registry E) "xss" db_type os_type context s
        = (Ok items, s')
        /\ length items
           = match ctx with
             | None => 8
             | Some c => if String.eqb c "html" then 2 else 3
             end
        /\ Forall (fun x => exists c,
                      (ctx = None \/ ctx = Some c)
                      /\ shipped_record (heap s') "xss" (Some c) None None x) items
        /\ only_allocates s s'
  | Raise e =>
      exn_cls e = ValueError
      /\ Registry.generate (Shipped.registry E) "xss" db_type os_type context s
         = (Raise e, s)
      /\ Pipeline.generate (Shipped.registry E) "xss" db_type os_type context s
         = (Raise (ExcFrom PipelineError ("Generation failed: " ++ str_exn e) e), s)
  end.
Proof. apply GenerateFacts.generate_xss. Qed.

(** X19 on the context " HTML ", with a [db_type] given besides. *)
Lemma xss_generation_witness :
  exists items s',
    Registry.generate (Shipped.registry Sample.env) "xss" (Some "mysql") None
      (Some " HTML ") Sample.empty_state = (Ok items, s')
    /\ length items = 2
    /\ Forall (fun x => exists c,
                  (Some "html" = None \/ Some "html" = Some c)
                  /\ shipped_record (heap s') "xss" (Some c) None None x) items
    /\ only_allocates Sample.empty_state s'.
Proof.
  exact (xss_generation Sample.env (Some " HTML ") (Some "mysql") None
           Sample.empty_state eq_refl).
Defined.

(** X20.  With a non-empty [db_type], generating for [sqli] has two
    outcomes only.  If the name, trimmed and lower-cased, is one of the
    seven known names, five records are returned, each valid, of module
    [sqli], with the canonical name the alias stands for as [db_type] (one
    the model accepts) and a bracketed marker as payload; nothing but new
    list objects has been made.  Any other name makes the generator's
    [ValueError] leave [Registry.generate] as it is, with the state
    untouched, and [PayloadPipeline.generate] wraps it. *)
Theorem sqli_generation (E : Env) (db_type os_type context : option string) (s : state) :
  truthy db_type = true ->
  match Sqli._normalize_db db_type with
  | Ok d =>
      In d Models.VALID_DB_TYPES
      /\ exists items s',
           Registry.generate (Shipped.registry E) "sqli" db_type os_type context s
           = (Ok items, s')
           /\ length items = 5
           /\ Forall (shipped_record (heap s') "sqli" None (Some d) None) items
           /\ only_allocates s s'
  | Raise e =>
      exn_cls e = ValueError
      /\ Registry.generate (Shipped.registry E) "sqli" db_type os_type context s
         = (Raise e, s)
      /\ Pipeline.generate (Shipped.registry E) "sqli" db_type os_type context s
         = (Raise (ExcFrom PipelineError ("Generation failed: " ++ str_exn e) e), s)
  end.
Proof. apply GenerateFacts.generate_sqli. Qed.

(** X20 on the alias "PostgreSQL", and on the name "oracle". *)
Lemma sqli_generation_witness :
  (exists items s',
      Registry.generate (Shipped.registry Sample.env) "sqli" (Some "PostgreSQL") None None
        Sample.empty_state = (Ok items, s')
      /\ length items = 5
      /\ Forall (shipped_record (heap s') "sqli" None (Some "postgres") None) items
      /\ only_allocates Sample.empty_state s')
  /\ exists e,
       exn_cls e = ValueError
       /\ Registry.generate (Shipped.registry Sample.env) "sqli" (Some "oracle") None None
            Sample.empty_state = (Raise e, Sample.empty_state).
Proof.
  split.
  - exact (proj2 (sqli_generation Sample.env (Some "PostgreSQL") None None
                    Sample.empty_state eq_refl)).
  - pose proof (sqli_generation Sample.env (Some "oracle") None None
                  Sample.empty_state eq_refl) as H.
    eexists. split; [exact (proj1 H) | exact (proj1 (proj2 H))].
Defined.

(** X21.  With a non-empty [os_type], generating for [cmd] has two outcomes
    only.  If the name, trimmed and lower-cased, is one of the eleven known
    names, five records are returned, each valid, of module [cmd], with
    [linux] or [windows] as [os_type] and a bracketed marker as payload;
    nothing but new list objects has been made.  Any other name makes the
    generator's [ValueError] leave [Registry.generate] as it is, with the
    state untouched, and [PayloadPipeline.generate] wraps it. *)
Theorem cmd_generation (E : Env) (db_type os_type context : option string) (s : state) :
  truthy os_type = true ->
  match CmdInjection._normalize_os os_type with
  | Ok o =>
      In o Models.VALID_OS_TYPES
      /\ exists items s',
           Registry.generate (Shipped.registry E) "cmd" db_type os_type context s
           = (Ok items, s')
           /\ length items = 5
           /\ Forall (shipped_record (heap s') "cmd" None None (Some o)) items
           /\ only_allocates s s'
  | Raise e =>
      exn_cls e = ValueError
      /\ Registry.generate (Shipped.registry E) "cmd" db_type os_type context s
         = (Raise e, s)
      /\ Pipeline.generate (Shipped.registry E) "cmd" db_type os_type context s
         = (Raise (ExcFrom PipelineError ("Generation failed: " ++ str_exn e) e), s)
  end.
Proof. apply GenerateFacts.generate_cmd. Qed.

(** X21 on the alias "PowerShell". *)
Lemma cmd_generation_witness :
  exists items s',
    Registry.generate (Shipped.registry Sample.env) "cmd" None (Some "PowerShell") None
      Sample.empty_state = (Ok items, s')
    /\ length items = 5
    /\ Forall (shipped_record (heap s') "cmd" None None (Some "windows")) items
    /\ only_allocates Sample.empty_state s'.
Proof.
  exact (proj2 (cmd_generation Sample.env None (Some "PowerShell") None
                  Sample.empty_state eq_refl)).
Defined.

(** X22.  Generation from the shipped registry is all or nothing.  Either
    it raises, a [RegistryError] or a [ValueError], and then the state is
    exactly the one before the call; or it returns a list that is not
    empty, of valid records of the module asked for, each with a bracketed
    marker as payload, having made new list objects and nothing else. *)
Theorem shipped_generation_all_or_nothing
    (E : Env) (module_name : string) (db_type os_type context : option string)
    (s : state) :
  (exists e,
      Registry.generate (Shipped.registry E) module_name db_type os_type context s
      = (Raise e, s)
      /\ (exn_cls e = RegistryError \/ exn_cls e = ValueError))
  \/ (exists items s',
         Registry.generate (Shipped.registry E) module_name db_type os_type context s
         = (Ok items, s')
         /\ items <> []
         /\ Forall (fun x => exists c d o,
                       shipped_record (heap s') module_name c d o x) items
         /\ only_allocates s s').
Proof. apply GenerateFacts.shipped_generate_cases. Qed.


(** X28.  The records a generation returns share no list object: the tag
    list and the two histories of each record are three different lists,
    no list belongs to two records, and every one of them was made by this
    call.  Sharing, where it occurs, comes from cloning. *)
Theorem generated_records_share_nothing
    (E : Env) (module_name : string) (db_type os_type context : option string)
    (s : state) (items : list Registry.obj) (s' : state) :
  Registry.generate (Shipped.registry E) module_name db_type os_type context s
  = (Ok items, s') ->
  NoDup (concat (map lists_of items))
  /\ Forall (fun l => heap s !! l = None /\ is_Some (heap s' !! l))
            (concat (map lists_of items))
  /\ length (concat (map lists_of items)) = 3 * length items.
Proof.
  intros H. destruct (GenerateFacts.shipped_generate_separate E _ _ _ _ _ _ _ H)
    as [Hn Hf].
  split; [exact Hn |]. split; [exact Hf |].
  destruct (GenerateFacts.shipped_generate_cases E module_name db_type os_type context s)
    as [(e & Hr & _) | (items' & s'' & Hr & _ & Hq & _)]; rewrite Hr in H;
    [discriminate H |].
  injection H as -> ->. clear Hr Hn Hf.
  induction Hq as [|x l (c & d & o & t & p & -> & Hv & _) _ IH]; [reflexivity |].
  cbn [map concat lists_of]. rewrite !length_app, IH.
  pose proof (Spec.valid_tags _ _ Hv) as Ht. unfold Models.validate_tags in Ht.
  destruct (Models.tags t); try discriminate Ht. cbn [length]. lia.
Qed.

(** X28 on the five records for [mysql]: fifteen lists, all different. *)
Lemma generated_records_share_nothing_witness :
  exists items s',
    Registry.generate (Shipped.registry Sample.env) "sqli" (Some "mysql") None None
      Sample.empty_state = (Ok items, s')
    /\ NoDup (concat (map lists_of items))
    /\ length (concat (map lists_of items)) = 15.
Proof.
  destruct (GenerateFacts.generate_sqli Sample.env (Some "mysql") None None
              Sample.empty_state eq_refl) as (_ & items & s' & Hgen & Hlen & _).
  destruct (generated_records_share_nothing _ _ _ _ _ _ _ _ Hgen) as (Hn & _ & Hl).
  exists items, s'. split; [exact Hgen |]. split; [exact Hn |].
  rewrite Hl, Hlen. reflexivity.
Defined.

(** ** The run: what it touches and what it raises *)

Module RunFrameFacts.
Import Pipeline Outcome Models Registry Spec.

Lemma same_files_refl s : same_files s s.
Proof. split; reflexivity. Qed.

Lemma same_files_trans s1 s2 s3 : same_files s1 s2 -> same_files s2 s3 -> same_files s1 s3.
Proof. intros [H1 H2] [H3 H4]. split; congruence. Qed.

Lemma encoding_loop_files items method :
  preserves same_files (apply_encoding_to_all items method).
Proof.
  induction items as [|item rest IH]; intros s r s' H.
  - injection H as <- <-. apply same_files_refl.
  - cbn [apply_encoding_to_all] in H.
    apply bind_inv in H. destruct H as [(e & H & _) | (p & s1 & H1 & H)].
    { unfold try_except, lift, raise in H.
      destruct (rbind _ _); injection H as _ <-; apply same_files_refl. }
    assert (s1 = s) as ->.
    { unfold try_except, lift, raise in H1.
      destruct (rbind _ _); injection H1 as _ <-; reflexivity. }
    apply bind_inv in H. destruct H as [(e & H & _) | (t & s1 & H2 & H)].
    { destruct item; simpl in H.
      - unfold clone_with_updates in H. rewrite ModelsFacts.construct_spec in H.
        injection H as _ <-. apply same_files_refl.
      - injection H as _ <-. apply same_files_refl. }
    assert (s1 = s) as ->.
    { destruct item; simpl in H2; [| discriminate H2].
      unfold clone_with_updates in H2. rewrite ModelsFacts.construct_spec in H2.
      injection H2 as _ <-. reflexivity. }
    apply bind_inv in H. destruct H as [(e & H & _) | ([] & s1 & H3 & H)];
      [discriminate H |].
    injection H3 as <-.
    apply bind_inv in H. destruct H as [(e & H & _) | (out & s2 & H4 & H)].
    + apply IH in H. exact H.
    + apply IH in H4. injection H as _ <-. exact H4.
Qed.

Lemma obfuscation_loop_files items technique :
  preserves same_files (apply_obfuscation_to_all items technique).
Proof.
  induction items as [|item rest IH]; intros s r s' H.
  - injection H as <- <-. apply same_files_refl.
  - cbn [apply_obfuscation_to_all] in H.
    apply bind_inv in H. destruct H as [(e & H & _) | (p & s1 & H1 & H)].
    { unfold try_except, lift, raise in H.
      destruct (rbind _ _); injection H as _ <-; apply same_files_refl. }
    assert (s1 = s) as ->.
    { unfold try_except, lift, raise in H1.
      destruct (rbind _ _); injection H1 as _ <-; reflexivity. }
    apply bind_inv in H. destruct H as [(e & H & _) | (t & s1 & H2 & H)].
    { destruct item; simpl in H.
      - unfold clone_with_updates in H. rewrite ModelsFacts.construct_spec in H.
        injection H as _ <-. apply same_files_refl.
      - injection H as _ <-. apply same_files_refl. }
    assert (s1 = s) as ->.
    { destruct item; simpl in H2; [| discriminate H2].
      unfold clone_with_updates in H2. rewrite ModelsFacts.construct_spec in H2.
      injection H2 as _ <-. reflexivity. }
    apply bind_inv in H. destruct H as [(e & H & _) | ([] & s1 & H3 & H)];
      [discriminate H |].
    injection H3 as <-.
    apply bind_inv in H. destruct H as [(e & H & _) | (out & s2 & H4 & H)].
    + apply IH in H. exact H.
    + apply IH in H4. injection H as _ <-. exact H4.
Qed.

Lemma shipped_generate_files (E : Env) name db os ctx :
  preserves same_files (Pipeline.generate (Shipped.registry E) name db os ctx).
Proof.
  intros s r s' H. unfold Pipeline.generate, try_except in H.
  destruct (GenerateFacts.shipped_generate_cases E name db os ctx s)
    as [(e & Hg & _) | (items & s1 & Hg & _ & _ & _ & _ & Hf)]; rewrite Hg in H.
  - injection H as _ <-. apply same_files_refl.
  - injection H as _ <-. exact Hf.
Qed.

Lemma generate_raises_only (reg : ModuleRegistry) name db os ctx s e s' :
  Pipeline.generate reg name db os ctx s = (Raise e, s') -> exn_cls e = PipelineError.
Proof. intros H. apply HexRunFacts.generate_raises in H. apply H. Qed.

Lemma encoding_loop_raises items method : forall s e s',
  apply_encoding_to_all items method s = (Raise e, s') -> exn_cls e = PipelineError
  \/ exn_cls e = PayloadValidationError \/ exn_cls e = AttributeError.
Proof.
  induction items as [|item rest IH]; intros s e s' H; [discriminate H |].
  cbn [apply_encoding_to_all] in H.
  apply bind_inv in H. destruct H as [(e0 & H & [= <-]) | (p & s1 & H1 & H)].
  { unfold try_except, lift, raise in H.
    destruct (rbind _ _); [discriminate H |]. injection H as <- _. auto. }
  apply bind_inv in H. destruct H as [(e0 & H & [= <-]) | (t & s2 & H2 & H)].
  { destruct item; simpl in H.
    - unfold clone_with_updates in H. rewrite ModelsFacts.construct_spec in H.
      destruct (_validate _ _) eqn:Hv; [discriminate H |]. injection H as <- _.
      right. left. eapply ModelsFacts.validate_raises_only. eassumption.
    - injection H as <- _. auto. }
  apply bind_inv in H. destruct H as [(e0 & H & _) | ([] & s3 & H3 & H)];
    [discriminate H |].
  apply bind_inv in H. destruct H as [(e0 & H & [= <-]) | (out & s4 & H4 & H)].
  - eapply IH. eassumption.
  - discriminate H.
Qed.

End RunFrameFacts.

Module TransformFacts.
Import Pipeline Outcome Models Registry Spec.

(** A text is blank exactly when all its characters are white space. *)
Lemma blank_all_space s : Text.blank s = all_chars Text.isspace s.
Proof.
  induction s as [|c r IH]; [reflexivity |].
  cbn [all_chars]. destruct (Text.isspace c) eqn:Hc.
  - rewrite <- IH. unfold Text.blank, Text.strip. simpl Text.lstrip. rewrite Hc.
    reflexivity.
  - apply TextFacts.blank_nonspace. exact Hc.
Qed.

Lemma all_chars_forallb P s : all_chars P s = forallb P (list_ascii_of_string s).
Proof. induction s as [|c r IH]; [reflexivity |]. simpl. rewrite IH. reflexivity. Qed.

Lemma class_not_blank (P : ascii -> bool) out :
  (forall c, P c = true -> Text.isspace c = false) ->
  all_chars P out = true -> out <> "" -> Text.blank out = false.
Proof.
  intros HP Hall Hne. destruct out as [|c r]; [contradiction |].
  cbn [all_chars] in Hall. apply andb_true_iff in Hall. destruct Hall as [Hc _].
  apply TextFacts.blank_nonspace, HP, Hc.
Qed.

Lemma b64_not_space c : is_b64 c = true -> Text.isspace c = false.
Proof. destruct c as [[] [] [] [] [] [] [] []]; intros H; first [reflexivity | discriminate H]. Qed.

Lemma url_not_space c : is_url_char c = true -> Text.isspace c = false.
Proof. destruct c as [[] [] [] [] [] [] [] []]; intros H; first [reflexivity | discriminate H]. Qed.

Lemma length_nonempty s : 0 < String.length s -> s <> "".
Proof. intros H ->. simpl in H. lia. Qed.

(** What [encode_payload] returns is never blank. *)
Lemma encode_Ok_not_blank payload method out :
  Encoder.encode_payload payload method = Ok out -> Text.blank out = false.
Proof.
  unfold Encoder.encode_payload. destruct payload as [| | |text|]; try discriminate.
  destruct (Text.blank text) eqn:Hb; [discriminate |].
  destruct (Encoder.lookup _ _) as [encoder|] eqn:Hl; [| discriminate].
  pose proof (TextFacts.not_blank_nonempty _ Hb) as Hne.
  destruct (EncodingFacts.encoder_cases _ _ Hl) as [[_ ->] | [[_ ->] | [_ ->]]];
    intros [= <-].
  - apply (class_not_blank is_url_char); [apply url_not_space | apply EncodingFacts.quote_utf8_chars |].
    destruct text as [|c r]; [contradiction |]. cbn [Encoder.utf8].
    rewrite EncodingFacts.quote_bytes_app. intros H.
    pose proof (EncodingFacts.url_head c (Encoder.quote_bytes (Encoder.utf8 r))) as Hh.
    rewrite H in Hh. discriminate Hh.
  - apply (class_not_blank is_b64);
      [apply b64_not_space
      | apply EncodingFacts.b64encode_chars, EncodingFacts.utf8_bytes |].
    apply length_nonempty. rewrite EncodingFacts.b64encode_length.
    pose proof (EncodingFacts.utf8_length text) as Hlen.
    destruct text as [|c r]; [contradiction |]. cbn [String.length] in Hlen.
    assert (1 <= (length (Encoder.utf8 (String c r)) + 2) / 3).
    { apply Nat.div_le_lower_bound; lia. }
    lia.
  - apply HexFacts.hex_not_blank; [apply HexFacts.hexlify_utf8_hex |].
    apply HexFacts.hexlify_utf8_nonempty. exact Hne.
Qed.

(** What [obfuscate_payload] returns for a text that is not blank is not
    blank either. *)
Lemma obfuscate_Ok_not_blank text mode out :
  Obfuscator.obfuscate_payload (VStr text) mode = Ok out ->
  Text.blank text = false -> Text.blank out = false.
Proof.
  intros H Hb. unfold Obfuscator.obfuscate_payload in H.
  destruct (String.eqb text ""); [discriminate H |].
  destruct (Encoder.lookup _ _) as [transformer|] eqn:Hl; [| discriminate H].
  destruct (transformer text) as [out'|e] eqn:Ht;
    [injection H as -> | destruct (decide _); discriminate H].
  pose proof (ObfuscationFacts.transformer_sublist _ _ _
                (ObfuscationFacts.mode_cases _ _ Hl) Ht) as Hsub.
  rewrite blank_all_space in *. rewrite all_chars_forallb in *.
  destruct (forallb Text.isspace (list_ascii_of_string out)) eqn:Ho; [| reflexivity].
  rewrite <- Hb. symmetry. apply forallb_forall. intros c Hc.
  rewrite forallb_forall in Ho. apply Ho.
  apply list_elem_of_In. eapply elem_of_sublist; [| exact Hsub].
  apply list_elem_of_In. exact Hc.
Qed.

Lemma rest_still_valid l x s rest :
  Forall (valid_record (heap s)) rest ->
  Forall (valid_record (heap (snd (append l (VStr x) s)))) rest.
Proof.
  intros H. eapply Forall_impl; [exact H |].
  intros o (t & -> & Hv). exists t. split; [reflexivity |].
  eapply HexRunFacts.valid_keeps; [apply HexRunFacts.append_keeps_strings | exact Hv].
Qed.

(** One turn of either loop on a valid record, once the transform has
    returned [p], a text that is not blank. *)
Lemma clone_valid t p s :
  valid (heap s) t -> Text.blank p = false ->
  clone_with_payload (ITemplate t) p s = (Ok (with_kwargs t [kw_payload (VStr p)]), s).
Proof.
  intros Hv Hp. cbn [clone_with_payload]. unfold clone_with_updates.
  rewrite ModelsFacts.construct_spec.
  rewrite (ModelsFacts.valid_validate _ _ (HexRunFacts.valid_with_payload _ _ _ Hv Hp)).
  reflexivity.
Qed.

(** On valid records the encoding loop raises nothing but [PipelineError],
    and raises nothing at all when the method is supported. *)
Lemma encoding_loop_on_valid items method : forall s,
  Forall (valid_record (heap s)) items ->
  exists r s',
    apply_encoding_to_all items method s = (r, s')
    /\ match r with
       | Ok out => True
       | Raise e =>
           exn_cls e = PipelineError
           /\ Encoder.is_supported_encoding (Some method) = false
       end.
Proof.
  induction items as [|item rest IH]; intros s Hall.
  - eexists _, _. split; [reflexivity | exact I].
  - inversion Hall as [|? ? (t & -> & Hv) Hrest]; subst.
    destruct (HexRunFacts.valid_payload_text _ _ Hv) as (text & Hp & Hb).
    cbn [apply_encoding_to_all]. unfold bind at 1, try_except, lift.
    cbn [payload_of rbind]. rewrite Hp.
    destruct (Encoder.encode_payload (VStr text) (Some method)) as [p|e] eqn:He.
    + pose proof (encode_Ok_not_blank _ _ _ He) as Hpb.
      unfold bind at 1. rewrite (clone_valid t p s Hv Hpb).
      unfold bind at 1, add_encoding.
      destruct (PipelineFacts.with_payload_lists t (VStr p)) as (-> & _ & _).
      destruct (IH _ (rest_still_valid (encoding_applied t) method s rest Hrest))
        as (r & s' & Hrun & Hr).
      rewrite PipelineFacts.append_spec in *. cbn [snd] in Hrun.
      unfold bind at 1. rewrite Hrun.
      destruct r as [out|e]; eexists _, _; (split; [reflexivity |]); [exact I | exact Hr].
    + eexists _, _. split; [reflexivity |]. split; [reflexivity |].
      unfold Encoder.is_supported_encoding. unfold Encoder.encode_payload in He.
      rewrite Hb in He. destruct (Encoder.lookup _ _) as [encoder|] eqn:Hl; [| reflexivity].
      exfalso.
      destruct (EncodingFacts.encoder_cases _ _ Hl) as [[_ ->] | [[_ ->] | [_ ->]]];
        discriminate He.
Qed.

(** On valid records the obfuscation loop raises nothing but
    [PipelineError]. *)
Lemma obfuscation_loop_on_valid items technique : forall s,
  Forall (valid_record (heap s)) items ->
  exists r s',
    apply_obfuscation_to_all items technique s = (r, s')
    /\ match r with
       | Ok out => True
       | Raise e => exn_cls e = PipelineError
       end.
Proof.
  induction items as [|item rest IH]; intros s Hall.
  - eexists _, _. split; [reflexivity | exact I].
  - inversion Hall as [|? ? (t & -> & Hv) Hrest]; subst.
    destruct (HexRunFacts.valid_payload_text _ _ Hv) as (text & Hp & Hb).
    cbn [apply_obfuscation_to_all]. unfold bind at 1, try_except, lift.
    cbn [payload_of rbind]. rewrite Hp.
    destruct (Obfuscator.obfuscate_payload (VStr text) (Some technique)) as [p|e] eqn:He.
    + pose proof (obfuscate_Ok_not_blank _ _ _ He Hb) as Hpb.
      unfold bind at 1. rewrite (clone_valid t p s Hv Hpb).
      unfold bind at 1, add_obfuscation.
      destruct (PipelineFacts.with_payload_lists t (VStr p)) as (_ & -> & _).
      destruct (IH _ (rest_still_valid (obfuscation_applied t) technique s rest Hrest))
        as (r & s' & Hrun & Hr).
      rewrite PipelineFacts.append_spec in *. cbn [snd] in Hrun.
      unfold bind at 1. rewrite Hrun.
      destruct r as [out|e]; eexists _, _; (split; [reflexivity |]); [exact I | exact Hr].
    + eexists _, _. split; [reflexivity |]. reflexivity.
Qed.

(** On records that carry a bracketed marker the obfuscation loop returns,
    for every supported technique. *)
Lemma obfuscation_loop_on_marked items technique : forall s,
  Obfuscator.is_supported_obfuscation (Some technique) = true ->
  Forall (fun x => exists m c d o, shipped_record (heap s) m c d o x) items ->
  exists out s', apply_obfuscation_to_all items technique s = (Ok out, s').
Proof.
  intros s Hsup. revert s.
  induction items as [|item rest IH]; intros s Hall.
  - eexists _, _. reflexivity.
  - inversion Hall as [|? ? (m & c & d & o & t & text & -> & Hv & _ & _ & _ & _ & Hp & Hmark)
                        Hrest]; subst.
    pose proof (HexRunFacts.valid_payload_text _ _ Hv) as (text' & Hp' & Hb).
    rewrite Hp in Hp'. injection Hp' as <-.
    assert (He : exists p, Obfuscator.obfuscate_payload (VStr text) (Some technique) = Ok p).
    { unfold Obfuscator.is_supported_obfuscation in Hsup.
      unfold Obfuscator.obfuscate_payload.
      destruct (String.eqb_spec text "") as [->|_];
        [exfalso; exact (ObfuscationFacts.marker_nonempty _ Hmark eq_refl) |].
      destruct (Encoder.lookup _ _) as [transformer|] eqn:Hl; [| discriminate Hsup].
      destruct (ObfuscationFacts.mode_cases _ _ Hl) as [-> | [-> | ->]].
      - rewrite (ObfuscationFacts.comments_marker _ Hmark). eauto.
      - rewrite (ObfuscationFacts.whitespace_marker _ Hmark). eauto.
      - rewrite (ObfuscationFacts.mixed_marker _ Hmark). eauto. }
    destruct He as (p & He).
    pose proof (obfuscate_Ok_not_blank _ _ _ He Hb) as Hpb.
    cbn [apply_obfuscation_to_all]. unfold bind at 1, try_except, lift.
    cbn [payload_of rbind]. rewrite Hp, He.
    unfold bind at 1. rewrite (clone_valid t p s Hv Hpb).
    unfold bind at 1, add_obfuscation.
    destruct (PipelineFacts.with_payload_lists t (VStr p)) as (_ & -> & _).
    rewrite PipelineFacts.append_spec.
    destruct (IH (snd (append (obfuscation_applied t) (VStr technique) s)))
      as (out & s' & Hrun).
    { eapply Forall_impl; [exact Hrest |].
      intros x (m0 & c0 & d0 & o0 & Hx). exists m0, c0, d0, o0.
      eapply GenerationFacts.shipped_record_keeps;
        [apply HexRunFacts.append_keeps_strings | exact Hx]. }
    rewrite PipelineFacts.append_spec in Hrun. cbn [snd] in Hrun.
    unfold bind at 1. rewrite Hrun. eexists _, _. reflexivity.
Qed.

End TransformFacts.

Module RunStageFacts.
Import Pipeline Outcome Models Registry Spec RunFrameFacts TransformFacts.

Section WithEnv.
Variable E : Env.

(** The run up to the export: it has raised a [PipelineError], or it has
    reached the export step with valid records; no file has been touched
    so far. *)
Lemma run_stages (a : run_args) s :
  (exists e s1,
      run_pipeline E a s = (Raise e, s1)
      /\ exn_cls e = PipelineError /\ same_files s s1)
  \/ (exists items s1,
         Forall (valid_record (heap s1)) items /\ same_files s s1
         /\ run_pipeline E a s
            = match arg_export_format a with
              | Some (String _ _ as export_format) =>
                  match arg_output_path a with
                  | Some (String _ _ as output_path) =>
                      if String.eqb export_format "json" then
                        (JsonExporter.export E items output_path (arg_meta a) ;;; ret items) s1
                      else if String.eqb export_format "txt" then
                        (TxtExporter.export E items output_path (arg_meta a) ;;; ret items) s1
                      else
                        (Raise (pipeline_error
                           ("Unsupported export format '" ++ export_format ++ "'.")), s1)
                  | _ => (Raise (pipeline_error
                            "Output path required when export_format is set."), s1)
                  end
              | _ => (Ok items, s1)
              end).
Proof.
  destruct (Pipeline.generate (Shipped.registry E) (arg_module a) (arg_db_type a)
              (arg_os_type a) (arg_context a) s) as [[items|e] s1] eqn:Hgen.
  2:{ left. exists e, s1. split; [| split].
      - unfold run_pipeline, Shipped.get_registry, run. unfold bind at 1.
        rewrite Hgen. reflexivity.
      - eapply generate_raises_only; eassumption.
      - eapply shipped_generate_files; eassumption. }
  pose proof (shipped_generate_files E _ _ _ _ _ _ _ Hgen) as Hf1.
  pose proof (GeneratorFacts.generate_Ok _ _ _ _ _ _ _ _
                (HexRunFacts.generate_returns _ _ _ _ _ _ _ _ Hgen))
    as (_ & _ & _ & _ & Hv1).
  assert (Henc : exists r s2,
             match arg_encoding a with
             | Some (String _ _ as encoding) => apply_encoding_to_all items encoding
             | _ => ret items
             end s1 = (r, s2)
             /\ same_files s1 s2
             /\ match r with
                | Ok out => Forall (valid_record (heap s2)) out
                | Raise e => exn_cls e = PipelineError
                end).
  { destruct (arg_encoding a) as [[|c enc]|];
      try (eexists _, _; split; [reflexivity |]; split; [apply same_files_refl | exact Hv1]).
    destruct (encoding_loop_on_valid items (String c enc) s1 Hv1) as (r & s2 & Hrun & Hr).
    exists r, s2. split; [exact Hrun |].
    split; [eapply encoding_loop_files; eassumption |].
    destruct r as [out|e]; [| apply Hr].
    apply LoopFacts.apply_encoding_Ok in Hrun. apply Hrun. }
  destruct Henc as (r2 & s2 & Henc & Hf2 & Hr2).
  destruct r2 as [items2|e].
  2:{ left. exists e, s2. split; [| split; [exact Hr2 |]].
      - unfold run_pipeline, Shipped.get_registry, run. unfold bind at 1.
        rewrite Hgen. unfold bind at 1. rewrite Henc. reflexivity.
      - eapply same_files_trans; eassumption. }
  assert (Hobf : exists r s3,
             match arg_obfuscation a with
             | Some (String _ _ as obfuscation) =>
                 apply_obfuscation_to_all items2 obfuscation
             | _ => ret items2
             end s2 = (r, s3)
             /\ same_files s2 s3
             /\ match r with
                | Ok out => Forall (valid_record (heap s3)) out
                | Raise e => exn_cls e = PipelineError
                end).
  { destruct (arg_obfuscation a) as [[|c obf]|];
      try (eexists _, _; split; [reflexivity |]; split; [apply same_files_refl | exact Hr2]).
    destruct (obfuscation_loop_on_valid items2 (String c obf) s2 Hr2)
      as (r & s3 & Hrun & Hr).
    exists r, s3. split; [exact Hrun |].
    split; [eapply obfuscation_loop_files; eassumption |].
    destruct r as [out|e]; [| apply Hr].
    apply LoopFacts.apply_obfuscation_Ok_full in Hrun. apply Hrun. }
  destruct Hobf as (r3 & s3 & Hobf & Hf3 & Hr3).
  assert (Hf : same_files s s3).
  { eapply same_files_trans; [exact Hf1 |]. eapply same_files_trans; eassumption. }
  destruct r3 as [items3|e].
  2:{ left. exists e, s3. split; [| auto].
      unfold run_pipeline, Shipped.get_registry, run. unfold bind at 1.
      rewrite Hgen. unfold bind at 1. rewrite Henc. unfold bind at 1. rewrite Hobf.
      reflexivity. }
  right. exists items3, s3. split; [exact Hr3 |]. split; [exact Hf |].
  unfold run_pipeline, Shipped.get_registry, run. unfold bind at 1.
  rewrite Hgen. unfold bind at 1. rewrite Henc. unfold bind at 1. rewrite Hobf.
  destruct (arg_export_format a) as [[|c fmt]|]; try reflexivity.
  destruct (arg_output_path a) as [[|c' path]|]; try reflexivity.
  destruct (String.eqb (String c fmt) "json"); [reflexivity |].
  destruct (String.eqb (String c fmt) "txt"); reflexivity.
Qed.

End WithEnv.
End RunStageFacts.



(** X24.  Whatever [run_pipeline] raises is a [PipelineError], with one
    exception: when the run exports, to a path and as [json] or [txt], the
    exporter's own [JSONExportError] or [TXTExportError] comes out as it
    is. *)
Theorem run_pipeline_raises_only (E : Env) (a : Pipeline.run_args) (s : state)
    (e : exn) (s' : state) :
  Pipeline.run_pipeline E a s = (Raise e, s') ->
  exn_cls e = PipelineError
  \/ (export_target a = true
      /\ ((Pipeline.arg_export_format a = Some "json" /\ exn_cls e = JSONExportError)
          \/ (Pipeline.arg_export_format a = Some "txt" /\ exn_cls e = TXTExportError))).
Proof.
  intros Hrun.
  destruct (RunStageFacts.run_stages E a s)
    as [(e0 & s1 & H & Hc & Hf) | (items & s1 & _ & Hf & H)]; rewrite H in Hrun.
  - injection Hrun as <- <-. auto.
  - unfold export_target.
    destruct (Pipeline.arg_export_format a) as [[|c fmt]|]; try discriminate Hrun.
    destruct (Pipeline.arg_output_path a) as [[|c' path]|];
      try (injection Hrun as <- <-; left; reflexivity).
    cbn [truthy or_empty andb].
    destruct (String.eqb_spec (String c fmt) "json") as [Hj|Hj].
    + right. split; [reflexivity |]. left. split; [rewrite Hj; reflexivity |].
      apply Outcome.bind_inv in Hrun. destruct Hrun as [(e0 & Hx & [= <-]) | (p & s2 & _ & Hx)];
        [| discriminate Hx].
      apply ExporterFacts.export_json_spec in Hx. apply Hx.
    + destruct (String.eqb_spec (String c fmt) "txt") as [Ht|Ht].
      * right. split; [reflexivity |]. right. split; [rewrite Ht; reflexivity |].
        apply Outcome.bind_inv in Hrun. destruct Hrun as [(e0 & Hx & [= <-]) | (p & s2 & _ & Hx)];
          [| discriminate Hx].
        apply ExporterFacts.export_txt_spec in Hx. apply Hx.
      * injection Hrun as <- <-. left. reflexivity.
Qed.


(** X24 on a run for a module that is not registered. *)
Lemma run_pipeline_raises_only_witness :
  exists e s',
    Pipeline.run_pipeline Sample.env
      {| Pipeline.arg_module := "nope"; Pipeline.arg_db_type := None;
         Pipeline.arg_os_type := None; Pipeline.arg_context := None;
         Pipeline.arg_encoding := None; Pipeline.arg_obfuscation := None;
         Pipeline.arg_export_format := None; Pipeline.arg_output_path := None;
         Pipeline.arg_meta := None |} Sample.empty_state = (Raise e, s')
    /\ exn_cls e = PipelineError.
Proof.
  destruct (Pipeline.run_pipeline Sample.env _ Sample.empty_state)
    as [[out|e] s'] eqn:H; [vm_compute in H; discriminate H |].
  exists e, s'. split; [reflexivity |].
  destruct (run_pipeline_raises_only _ _ _ _ _ H) as [Hc | [Ht _]];
    [exact Hc | discriminate Ht].
Defined.

(** X25.  Every list the shipped generators return can be transformed:
    encoding it with any supported method returns as many records, and so
    does obfuscating it with any supported technique, each payload
    carrying the marker the guard of the obfuscator looks for. *)
Theorem shipped_records_transform
    (E : Env) (module_name : string) (db_type os_type context : option string)
    (s : state) (items : list Registry.obj) (s1 : state) :
  Registry.generate (Shipped.registry E) module_name db_type os_type context s
  = (Ok items, s1) ->
  (forall method,
      Encoder.is_supported_encoding (Some method) = true ->
      exists out s2,
        Pipeline.apply_encoding_to_all items method s1 = (Ok out, s2)
        /\ length out = length items)
  /\ (forall technique,
        Obfuscator.is_supported_obfuscation (Some technique) = true ->
        exists out s2,
          Pipeline.apply_obfuscation_to_all items technique s1 = (Ok out, s2)
          /\ length out = length items).
Proof.
  intros Hgen.
  destruct (GenerateFacts.shipped_generate_cases E module_name db_type os_type context s)
    as [(e & H & _) | (items' & s' & H & _ & Hq & _)]; rewrite H in Hgen;
    [discriminate Hgen |].
  injection Hgen as -> ->. split.
  - intros method Hsup.
    assert (Hv : Forall (valid_record (heap s1)) items).
    { eapply Forall_impl; [exact Hq |]. intros x (c & d & o & Hx).
      eapply GenerationFacts.shipped_record_valid, Hx. }
    destruct (TransformFacts.encoding_loop_on_valid items method s1 Hv)
      as ([out|e] & s2 & Hrun & Hr); [| destruct Hr as [_ Hr]; congruence].
    exists out, s2. split; [exact Hrun |].
    apply LoopFacts.apply_encoding_Ok in Hrun. destruct Hrun as (H2 & _).
    symmetry. eapply Forall2_length, H2.
  - intros technique Hsup.
    destruct (TransformFacts.obfuscation_loop_on_marked items technique s1 Hsup)
      as (out & s2 & Hrun).
    { eapply Forall_impl; [exact Hq |]. intros x (c & d & o & Hx). eauto. }
    exists out, s2. split; [exact Hrun |].
    apply LoopFacts.apply_obfuscation_Ok_full in Hrun. destruct Hrun as (H2 & _).
    symmetry. eapply Forall2_length, H2.
Qed.

(** X25 on the three records of the context [js], obfuscated with "mixed". *)
Lemma shipped_records_transform_witness :
  exists items s1 out s2,
    Registry.generate (Shipped.registry Sample.env) "xss" None None (Some "js")
      Sample.empty_state = (Ok items, s1)
    /\ Pipeline.apply_obfuscation_to_all items "mixed" s1 = (Ok out, s2)
    /\ length out = 3.
Proof.
  destruct (GenerateFacts.generate_xss Sample.env (Some "js") None None
              Sample.empty_state eq_refl) as (items & s1 & Hgen & Hlen & _).
  destruct (proj2 (shipped_records_transform _ _ _ _ _ _ _ _ Hgen) "mixed" eq_refl)
    as (out & s2 & Hrun & Hl).
  exists items, s1, out, s2. split; [exact Hgen |]. split; [exact Hrun |].
  rewrite Hl. exact Hlen.
Defined.

(** ** The command-line helpers *)

Module CliFacts.
Import Cli Spec.

Lemma rstrip_cons c r :
  Text.rstrip (String c r)
  = match Text.rstrip r with
    | EmptyString => if Text.isspace c then EmptyString else String c EmptyString
    | r' => String c r'
    end.
Proof. reflexivity. Qed.

Lemma rstrip_idem s : Text.rstrip (Text.rstrip s) = Text.rstrip s.
Proof.
  induction s as [|c r IH]; [reflexivity |].
  rewrite (rstrip_cons c r). destruct (Text.rstrip r) as [|d r'] eqn:Hr.
  - destruct (Text.isspace c) eqn:Hc; [reflexivity |].
    rewrite rstrip_cons. cbn [Text.rstrip]. rewrite Hc. reflexivity.
  - rewrite rstrip_cons, IH. reflexivity.
Qed.

Lemma rstrip_head c r :
  Text.isspace c = false -> exists r', Text.rstrip (String c r) = String c r'.
Proof.
  intros Hc. cbn [Text.rstrip]. destruct (Text.rstrip r); [rewrite Hc |]; eauto.
Qed.

Lemma lstrip_head s :
  Text.lstrip s = "" \/ exists c r, Text.lstrip s = String c r /\ Text.isspace c = false.
Proof.
  induction s as [|c r IH]; [left; reflexivity |].
  cbn [Text.lstrip]. destruct (Text.isspace c) eqn:Hc; [exact IH |]. right. eauto.
Qed.

(** Trimming twice is trimming once. *)
Lemma strip_idem s : Text.strip (Text.strip s) = Text.strip s.
Proof.
  unfold Text.strip at 2 3. destruct (lstrip_head s) as [-> | (c & r & -> & Hc)];
    [reflexivity |].
  destruct (rstrip_head c r Hc) as (r' & Hr).
  unfold Text.strip. rewrite Hr. cbn [Text.lstrip]. rewrite Hc, <- Hr.
  apply rstrip_idem.
Qed.

Lemma lookup_dict_set k k' v d :
  Encoder.lookup k (dict_set k' v d)
  = if String.eqb k k' then Some v else Encoder.lookup k d.
Proof.
  induction d as [|[k0 v0] d IH]; cbn [dict_set Encoder.lookup]; [reflexivity |].
  destruct (String.eqb_spec k' k0) as [->|Hne]; cbn [Encoder.lookup].
  - destruct (String.eqb k k0); reflexivity.
  - rewrite IH. destruct (String.eqb_spec k k0) as [->|Hk]; [| reflexivity].
    destruct (String.eqb_spec k0 k'); [congruence | reflexivity].
Qed.

Lemma dict_set_keys k v d x :
  In x (map fst (dict_set k v d)) -> x = k \/ In x (map fst d).
Proof.
  induction d as [|[k0 v0] d IH]; cbn [dict_set map fst In].
  - intros [<- | []]. auto.
  - destruct (String.eqb_spec k k0) as [->|Hne]; cbn [map fst In].
    + intros [<- | H]; auto.
    + intros [<- | H]; [auto |]. apply IH in H. destruct H; auto.
Qed.

Lemma dict_set_NoDup k v d : NoDup (map fst d) -> NoDup (map fst (dict_set k v d)).
Proof.
  induction d as [|[k0 v0] d IH]; cbn [dict_set map fst]; intros H.
  - apply NoDup_singleton.
  - apply NoDup_cons in H. destruct H as [Hnin Hd].
    destruct (String.eqb_spec k k0) as [->|Hne]; cbn [map fst].
    + apply NoDup_cons. split; assumption.
    + apply NoDup_cons. split; [| apply IH, Hd].
      intros Hin. apply list_elem_of_In, dict_set_keys in Hin.
      destruct Hin as [-> | Hin]; [congruence |].
      apply Hnin, list_elem_of_In, Hin.
Qed.

Lemma dict_set_Forall (P : string * string -> Prop) k v d :
  P (k, v) -> Forall P d -> Forall P (dict_set k v d).
Proof.
  intros HP. induction d as [|[k0 v0] d IH]; cbn [dict_set]; intros H.
  - constructor; [exact HP | constructor].
  - inversion H as [|? ? H0 Hd]; subst.
    destruct (String.eqb k k0); constructor; auto.
Qed.

(** The loop of [_parse_meta], from any dict built so far. *)
Lemma parse_pairs_spec meta_args :
  forall meta,
    match parse_pairs meta_args meta with
    | Done m =>
        Forall meta_pair meta_args
        /\ (NoDup (map fst meta) -> NoDup (map fst m))
        /\ (forall k, Encoder.lookup k m
                      = match bound k meta_args with
                        | Some v => Some v
                        | None => Encoder.lookup k meta
                        end)
        /\ (Forall (fun kv => fst kv <> "" /\ Text.strip (fst kv) = fst kv
                              /\ Text.strip (snd kv) = snd kv) meta ->
            Forall (fun kv => fst kv <> "" /\ Text.strip (fst kv) = fst kv
                              /\ Text.strip (snd kv) = snd kv) m)
    | CLIError msg =>
        exists before arg after,
          meta_args = (before ++ arg :: after)%list
          /\ Forall meta_pair before /\ ~ meta_pair arg
          /\ (msg = "Invalid meta '" ++ arg ++ "'. Expected key=value."
              \/ msg = "Invalid meta '" ++ arg ++ "'. Key must be non-empty.")
    end.
Proof.
  induction meta_args as [|arg rest IH]; intros meta.
  - cbn [parse_pairs bound]. split; [constructor |]. auto.
  - cbn [parse_pairs]. destruct (split_once "=" arg) as [[key value]|] eqn:Hs.
    2:{ exists [], arg, rest. split; [reflexivity |]. split; [constructor |].
        split; [| auto]. intros (k & v & H & _). congruence. }
    cbv zeta. destruct (String.eqb_spec (Text.strip key) "") as [He|Hne].
    { exists [], arg, rest. split; [reflexivity |]. split; [constructor |].
      split; [| auto]. intros (k & v & H & Hk). rewrite Hs in H. injection H as <- <-.
      contradiction. }
    assert (Hpair : meta_pair arg) by (exists key, value; auto).
    specialize (IH (dict_set (Text.strip key) (Text.strip value) meta)).
    destruct (parse_pairs rest _) as [m|msg].
    + destruct IH as (Hall & Hnd & Hlk & Hst).
      split; [constructor; assumption |]. split; [| split].
      * intros H. apply Hnd, dict_set_NoDup, H.
      * intros k. rewrite Hlk. cbn [bound]. rewrite Hs.
        destruct (bound k rest); [reflexivity |]. rewrite lookup_dict_set.
        destruct (String.eqb k (Text.strip key)); reflexivity.
      * intros H. apply Hst. apply dict_set_Forall; [| exact H].
        cbn [fst snd]. split; [exact Hne |]. split; apply strip_idem.
    + destruct IH as (before & p & after & -> & Hb & Hp & Hm).
      exists (arg :: before), p, after. split; [reflexivity |].
      split; [constructor; assumption | auto].
Qed.

End CliFacts.

(** X26.  [_parse_meta] returns [None] for no arguments.  Otherwise it
    returns a dict exactly when every argument holds an "=" with a key
    before it that is not blank: the keys are then distinct, non-empty
    and trimmed, the values trimmed, and each key is bound to the value of
    the last argument that names it.  If not, it raises a [CLIError] that
    quotes the first argument at fault. *)
Theorem parse_meta_result (meta_args : list string) :
  Cli._parse_meta None = Cli.Done None
  /\ Cli._parse_meta (Some []) = Cli.Done None
  /\ (meta_args <> [] ->
      match Cli._parse_meta (Some meta_args) with
      | Cli.Done None => False
      | Cli.Done (Some meta) =>
          Forall meta_pair meta_args
          /\ NoDup (map fst meta)
          /\ Forall (fun kv => fst kv <> "" /\ Text.strip (fst kv) = fst kv
                                /\ Text.strip (snd kv) = snd kv) meta
          /\ (forall k, Encoder.lookup k meta = bound k meta_args)
      | Cli.CLIError msg =>
          exists before arg after,
            meta_args = (before ++ arg :: after)%list
            /\ Forall meta_pair before /\ ~ meta_pair arg
            /\ (msg = "Invalid meta '" ++ arg ++ "'. Expected key=value."
                \/ msg = "Invalid meta '" ++ arg ++ "'. Key must be non-empty.")
      end).
Proof.
  split; [reflexivity |]. split; [reflexivity |]. intros Hne.
  destruct meta_args as [|arg rest]; [contradiction |].
  unfold Cli._parse_meta.
  pose proof (CliFacts.parse_pairs_spec (arg :: rest) []) as H.
  destruct (Cli.parse_pairs (arg :: rest) []) as [m|msg]; [| exact H].
  destruct H as (Hall & Hnd & Hlk & Hst).
  split; [exact Hall |]. split; [apply Hnd; constructor |].
  split; [apply Hst; constructor |].
  intros k. rewrite Hlk. destruct (bound k (arg :: rest)); reflexivity.
Qed.

(** X26 on three arguments, two of them for the same key. *)
Lemma parse_meta_result_witness :
  Cli._parse_meta (Some [" course = web-101 "; "term=1"; "course=web-102"])
  = Cli.Done (Some [("course", "web-102"); ("term", "1")])
  /\ Encoder.lookup "course" [("course", "web-102"); ("term", "1")]
     = bound "course" [" course = web-101 "; "term=1"; "course=web-102"].
Proof.
  split; [reflexivity |].
  apply (proj2 (proj2 (parse_meta_result
                         [" course = web-101 "; "term=1"; "course=web-102"]))).
  discriminate.
Defined.

(** X27.  On the three modules the command line offers, its own guard
    [_enforce_selectors] passes exactly when the selector check of the
    registry does; for any other module name the guard passes, and the
    registry refuses. *)
Theorem cli_guard_agrees_with_registry
    (E : Env) (module : string) (context db os_type : option string) :
  (In module ["xss"; "sqli"; "cmd"] ->
   (Cli._enforce_selectors module context db os_type = Cli.Done tt
    <-> Registry.validate_selectors (Shipped.registry E) module db os_type context
        = Ok tt))
  /\ (~ In module ["xss"; "sqli"; "cmd"] ->
      Cli._enforce_selectors module context db os_type = Cli.Done tt
      /\ raises (Registry.validate_selectors (Shipped.registry E) module db os_type
                   context) RegistryError).
Proof.
  split.
  - intros [<- | [<- | [<- | []]]];
      unfold Cli._enforce_selectors, Registry.validate_selectors, Registry.get_spec.
    + rewrite RegistryFacts.shipped_xss. simpl.
      destruct (truthy context); simpl; split; intros H;
        first [reflexivity | discriminate H].
    + rewrite RegistryFacts.shipped_sqli. simpl.
      destruct (truthy db); simpl; split; intros H;
        first [reflexivity | discriminate H].
    + rewrite RegistryFacts.shipped_cmd. simpl.
      destruct (truthy os_type); simpl; split; intros H;
        first [reflexivity | discriminate H].
  - intros Hn. split.
    + unfold Cli._enforce_selectors.
      destruct (String.eqb_spec module "xss") as [->|_];
        [exfalso; apply Hn; simpl; auto |].
      destruct (String.eqb_spec module "sqli") as [->|_];
        [exfalso; apply Hn; simpl; auto |].
      destruct (String.eqb_spec module "cmd") as [->|_];
        [exfalso; apply Hn; simpl; auto |].
      reflexivity.
    + unfold Registry.validate_selectors, Registry.get_spec.
      rewrite RegistryFacts.shipped_other by (intros ->; apply Hn; simpl; auto).
      apply Outcome.raises_intro. reflexivity.
Qed.

(** X27 on [sqli] without [--db], as in tests/test_cli.py. *)
Lemma cli_guard_agrees_with_registry_witness :
  Cli._enforce_selectors "sqli" None None None = Cli.Done tt
  <-> Registry.validate_selectors (Shipped.registry Sample.env) "sqli" None None None
      = Ok tt.
Proof.
  apply (proj1 (cli_guard_agrees_with_registry Sample.env "sqli" None None None)).
  simpl. auto.
Defined.

(** ** The run that exports *)

Module ExportRunFacts.
Import Pipeline Outcome Models Registry Spec.

Section WithEnv.
Variable E : Env.

(** The run up to the export, when generation returns, the encoding, if
    any, is supported, and no obfuscation is asked for. *)
Lemma run_to_export (a : run_args) s items s1 :
  Registry.generate (Shipped.registry E) (arg_module a) (arg_db_type a)
    (arg_os_type a) (arg_context a) s = (Ok items, s1) ->
  (truthy (arg_encoding a) = true -> Encoder.is_supported_encoding (arg_encoding a) = true) ->
  truthy (arg_obfuscation a) = false ->
  exists out s2,
    Forall (valid_record (heap s2)) out /\ length out = length items
    /\ same_files s s2
    /\ forall k : list obj -> M (list obj),
         (items <- Pipeline.generate (Shipped.registry E) (arg_module a) (arg_db_type a)
                     (arg_os_type a) (arg_context a) ;;
          items <- match arg_encoding a with
                   | Some (String _ _ as encoding) => apply_encoding_to_all items encoding
                   | _ => ret items
                   end ;;
          items <- match arg_obfuscation a with
                   | Some (String _ _ as obfuscation) =>
                       apply_obfuscation_to_all items obfuscation
                   | _ => ret items
                   end ;;
          k items) s
         = k out s2.
Proof.
  intros Hgen Henc Hobf.
  assert (Hpg : Pipeline.generate (Shipped.registry E) (arg_module a) (arg_db_type a)
                  (arg_os_type a) (arg_context a) s = (Ok items, s1)).
  { unfold Pipeline.generate, try_except. rewrite Hgen. reflexivity. }
  pose proof (RunFrameFacts.shipped_generate_files E _ _ _ _ _ _ _ Hpg) as Hf1.
  pose proof (GeneratorFacts.generate_Ok _ _ _ _ _ _ _ _ Hgen) as (_ & _ & _ & _ & Hv1).
  assert (Hstage : exists out s2,
             match arg_encoding a with
             | Some (String _ _ as encoding) => apply_encoding_to_all items encoding
             | _ => ret items
             end s1 = (Ok out, s2)
             /\ Forall (valid_record (heap s2)) out /\ length out = length items
             /\ same_files s1 s2).
  { destruct (arg_encoding a) as [[|c enc]|] eqn:Ha;
      try (exists items, s1; split; [reflexivity |]; split; [exact Hv1 |];
           split; [reflexivity | apply RunFrameFacts.same_files_refl]).
    specialize (Henc eq_refl).
    destruct (TransformFacts.encoding_loop_on_valid items (String c enc) s1 Hv1)
      as ([out|e] & s2 & Hrun & Hr); [| destruct Hr as [_ Hr]; congruence].
    exists out, s2. split; [exact Hrun |].
    pose proof (RunFrameFacts.encoding_loop_files _ _ _ _ _ Hrun) as Hf.
    apply LoopFacts.apply_encoding_Ok in Hrun.
    destruct Hrun as (H2 & _ & _ & _ & Hv & _).
    split; [exact Hv |]. split; [| exact Hf]. symmetry. eapply Forall2_length, H2. }
  destruct Hstage as (out & s2 & Hrun & Hv & Hlen & Hf2).
  exists out, s2. split; [exact Hv |]. split; [exact Hlen |].
  split; [eapply RunFrameFacts.same_files_trans; eassumption |].
  intros k. unfold bind at 1. rewrite Hpg. unfold bind at 1. rewrite Hrun.
  unfold bind at 1.
  destruct (arg_obfuscation a) as [[|c obf]|]; first [discriminate Hobf | reflexivity].
Qed.

End WithEnv.
End ExportRunFacts.

(** X29.  A run that exports, end to end.  When generation returns, the
    encoding, if one is given, is supported, no obfuscation is asked for,
    and the export is to a path, as [txt], or as [json] with a [meta]
    free of reserved keys and a document [json.dumps] renders: then, if
    the system calls of the write succeed, the run returns as many records
    as were generated, and the only file that has changed is the
    destination, which holds a text ending in a line feed. *)
Theorem run_with_export_succeeds (E : Env) (a : Pipeline.run_args) (s : state)
    (items : list Registry.obj) (s1 : state) (output_path : string) :
  Registry.generate (Shipped.registry E) (Pipeline.arg_module a) (Pipeline.arg_db_type a)
    (Pipeline.arg_os_type a) (Pipeline.arg_context a) s = (Ok items, s1) ->
  (truthy (Pipeline.arg_encoding a) = true ->
   Encoder.is_supported_encoding (Pipeline.arg_encoding a) = true) ->
  truthy (Pipeline.arg_obfuscation a) = false ->
  Pipeline.arg_output_path a = Some output_path -> output_path <> "" ->
  write_succeeds E (env_Path E output_path) s ->
  Pipeline.arg_export_format a = Some "txt"
  \/ (Pipeline.arg_export_format a = Some "json"
      /\ (forall doc, exists text, env_dumps E true doc = Ok text)
      /\ (forall m, Pipeline.arg_meta a = Some m -> JsonExporter.collisions m = [])) ->
  exists out content s',
    Pipeline.run_pipeline E a s = (Ok out, s')
    /\ length out = length items
    /\ files s' = <[env_Path E output_path := content]> (files s)
    /\ Text.last_char content = Some "010"%char.
Proof.
  intros Hgen Henc Hobf Hpath Hne Hos Hfmt.
  destruct (ExportRunFacts.run_to_export E a s items s1 Hgen Henc Hobf)
    as (out & s2 & Hv & Hlen & [Hf Hd] & Hrun).
  assert (Hos2 : write_succeeds E (env_Path E output_path) s2).
  { destruct Hos as (H1 & H2 & H3 & rnd & H4 & H5).
    repeat (split; [assumption |]). exists rnd. rewrite Hf. auto. }
  unfold Pipeline.run_pipeline, Shipped.get_registry, Pipeline.run. rewrite Hrun.
  rewrite Hpath. destruct output_path as [|c path]; [contradiction |].
  destruct Hfmt as [-> | (-> & Hdumps & Hmeta)].
  - cbn [String.eqb Ascii.eqb Bool.eqb].
    destruct (WriteFacts.txt_export_Ok E out (String c path) true (Pipeline.arg_meta a)
                72 s2 (JsonFacts.valid_exportable _ _ Hv) Hos2)
      as (content & s' & Hx & Hfiles & _ & Hlast).
    exists out, content, s'. unfold bind, TxtExporter.export. rewrite Hx.
    split; [reflexivity |]. split; [exact Hlen |]. split; [| exact Hlast].
    rewrite Hfiles, Hf. reflexivity.
  - cbn [String.eqb Ascii.eqb Bool.eqb].
    destruct (JsonFacts.json_export_Ok E out (String c path) true true
                (Pipeline.arg_meta a) s2 Hv (fun _ => Hmeta) Hdumps Hos2)
      as (doc & text & payloads & s' & Hx & _ & Hfiles & _).
    exists out, (text ++ nl), s'. unfold bind, JsonExporter.export. rewrite Hx.
    split; [reflexivity |]. split; [exact Hlen |]. split; [rewrite Hfiles, Hf; reflexivity |].
    apply TextFacts.last_char_app. reflexivity.
Qed.

(** X29 at the run of tests/test_cli.py that exports [xss], [html] as
    text, here with a base64 encoding besides. *)
Lemma run_with_export_succeeds_witness :
  exists out content s',
    Pipeline.run_pipeline Sample.env
      {| Pipeline.arg_module := "xss"; Pipeline.arg_db_type := None;
         Pipeline.arg_os_type := None; Pipeline.arg_context := Some "html";
         Pipeline.arg_encoding := Some "base64"; Pipeline.arg_obfuscation := None;
         Pipeline.arg_export_format := Some "txt";
         Pipeline.arg_output_path := Some "cli_out.txt";
         Pipeline.arg_meta := None |} Sample.empty_state = (Ok out, s')
    /\ length out = 2
    /\ files s' = <[(".", "cli_out.txt") := content]> (files Sample.empty_state).
Proof.
  destruct (GenerateFacts.generate_xss Sample.env (Some "html") None None
              Sample.empty_state eq_refl) as (items & s1 & Hgen & Hlen & _).
  destruct (run_with_export_succeeds Sample.env
              {| Pipeline.arg_module := "xss"; Pipeline.arg_db_type := None;
                 Pipeline.arg_os_type := None; Pipeline.arg_context := Some "html";
                 Pipeline.arg_encoding := Some "base64"; Pipeline.arg_obfuscation := None;
                 Pipeline.arg_export_format := Some "txt";
                 Pipeline.arg_output_path := Some "cli_out.txt";
                 Pipeline.arg_meta := None |}
              Sample.empty_state items s1 "cli_out.txt" Hgen)
    as (out & content & s' & Hrun & Hl & Hfiles & _).
  - reflexivity.
  - reflexivity.
  - reflexivity.
  - discriminate.
  - split; [reflexivity |]. split; [reflexivity |]. split; [reflexivity |].
    exists "k3x9". split; reflexivity.
  - left. reflexivity.
  - exists out, content, s'. split; [exact Hrun |]. split; [| exact Hfiles].
    rewrite Hl. exact Hlen.
Defined.
